(** * Batch orchestration core of the daily evaluation service

    A shallow embedding of the batch-state model
    ([src/models/batch_state.py]), the state service
    ([src/services/state_service.py]), the batch statistics, the
    sub-batches and the retries of the judge
    ([src/services/evaluation_service.py], [src/models/evaluation.py],
    [chunk_list] of [src/utils/helpers.py]), the provider fallback of the
    email service ([src/services/email_service.py]), the orchestrator
    ([src/pipeline/evaluator.py]), the recovery manager
    ([src/pipeline/recovery_manager.py]) and the scheduler's fire-time
    computation ([src/pipeline/scheduler.py]).

    Conventions of the embedding:
    - a naive UTC [datetime] is the number of microseconds since the epoch
      (a [Z]); a [timedelta] is a number of microseconds;
    - Python floats are exact rationals ([Q]);
    - counters declared [Field(ge=0)] are [nat];
    - a [BatchState] field declared as an enumeration holds a member of that
      enumeration, also on an object rebuilt from a stored document (the
      [use_enum_values] setting of the model's [Config] is not modelled);
    - every [datetime.utcnow()] of an embedded function is one reading of
      a clock oracle, so that successive readings inside one call may
      differ; [asyncio.sleep] and logging have no other effect and are left
      out;
    - the pipeline object is taken as initialized;
    - the [batch_states] collection is a list of documents guarded by its
      unique index on [batch_date]; its operations are total (storage
      outages are outside the model), whereas the data source, the judge's
      persistence sink, the report generator and the mail providers may
      fail. *)

From Stdlib Require Import ZArith List String Bool Arith Lia QArith Sorted.
Import ListNotations.
Local Close Scope Q_scope.
Local Open Scope string_scope.
Local Open Scope nat_scope.

(** ** Time *)

Definition datetime := Z.
Definition timedelta := Z.

Definition microseconds_per_minute : Z := 60000000.
Definition microseconds_per_hour : Z := 3600000000.
Definition microseconds_per_day : Z := 86400000000.

Definition td_minutes (n : Z) : timedelta := (n * microseconds_per_minute)%Z.
Definition td_hours (n : Z) : timedelta := (n * microseconds_per_hour)%Z.
Definition td_days (n : Z) : timedelta := (n * microseconds_per_day)%Z.

(** [d.replace(hour=0, minute=0, second=0, microsecond=0)] *)
Definition start_of_day (d : datetime) : datetime :=
  (d / microseconds_per_day * microseconds_per_day)%Z.

(** ** Enumerations of [batch_state.py] and [evaluation.py] *)

Module BatchStatus.

Inductive t : Type :=
| PENDING | RUNNING | COMPLETED | FAILED | PARTIAL | SKIPPED | CANCELLED.

Definition eqb (a b : t) : bool :=
  match a, b with
  | PENDING, PENDING | RUNNING, RUNNING | COMPLETED, COMPLETED
  | FAILED, FAILED | PARTIAL, PARTIAL | SKIPPED, SKIPPED
  | CANCELLED, CANCELLED => true
  | _, _ => false
  end.

Definition is_terminal (self : t) : bool :=
  existsb (eqb self) [COMPLETED; SKIPPED; CANCELLED].

Definition can_retry (self : t) : bool :=
  existsb (eqb self) [FAILED; PARTIAL; PENDING].

End BatchStatus.

Module EvaluationStatus.

Inductive t : Type := PASS | FAIL | ERROR.

Definition eqb (a b : t) : bool :=
  match a, b with
  | PASS, PASS | FAIL, FAIL | ERROR, ERROR => true
  | _, _ => false
  end.

End EvaluationStatus.

(** ** Exceptions

    [CollaboratorError] stands for whatever an external collaborator raises
    (class name, module, text); the others are raised by the code itself:
    the explicit [Exception("All email providers failed")], the read of a
    local variable that was never bound, and an operation applied to
    [None] ([AttributeError] or [TypeError]). *)

Inductive PyException : Type :=
| CollaboratorError (cls module text : string)
| AllProvidersFailed
| UnboundLocalError (name : string)
| NoneTypeError (cls text : string).

(** [type(e).__name__] *)
Definition exc_name (e : PyException) : string :=
  match e with
  | CollaboratorError cls _ _ => cls
  | AllProvidersFailed => "Exception"
  | UnboundLocalError _ => "UnboundLocalError"
  | NoneTypeError cls _ => cls
  end.

(** [type(e).__module__] *)
Definition exc_module (e : PyException) : string :=
  match e with
  | CollaboratorError _ m _ => m
  | AllProvidersFailed | UnboundLocalError _ | NoneTypeError _ _ => "builtins"
  end.

(** [str(e)] *)
Definition exc_str (e : PyException) : string :=
  match e with
  | CollaboratorError _ _ text => text
  | AllProvidersFailed => "All email providers failed"
  | UnboundLocalError name =>
      "cannot access local variable '" ++ name
        ++ "' where it is not associated with a value"
  | NoneTypeError _ text => text
  end.

(** ** The batch state record *)

(** The two texts the code stores in [error_message]: the text of an
    exception, and the f-string of the stuck-batch branch, kept with its
    [runtime] argument. *)
Inductive ErrorText : Type :=
| ExceptionText (s : string)
| StuckInRunning (runtime : timedelta).

Record ErrorDetails : Type := mkErrorDetails {
  error_class : string;
  error_module : string;
  timestamp : datetime
}.

(** The two shapes of batch identifier the code builds:
    [f"EMPTY-{date:%Y%m%d}"] and [f"BATCH-{uuid4().hex[:8]}"]. *)
Inductive BatchId : Type :=
| EmptyBatchId (day : datetime)
| UuidBatchId (hex8 : string).

Inductive MetaValue : Type :=
| MetaBool (b : bool)
| MetaStr (s : string)
| MetaTime (d : datetime)
| MetaSeconds (d : timedelta).

Record BatchState : Type := mkBatchState {
  batch_date : datetime;
  batch_id : option BatchId;
  status : BatchStatus.t;
  previous_status : option BatchStatus.t;
  created_at : datetime;
  updated_at : datetime;
  started_at : option datetime;
  completed_at : option datetime;
  failed_at : option datetime;
  retry_count : nat;
  max_retries : nat;
  last_retry_at : option datetime;
  retry_after : option datetime;
  error_message : option ErrorText;
  error_type : option string;
  error_details : option ErrorDetails;
  total_pairs : nat;
  processed_pairs : nat;
  successful_evaluations : nat;
  failed_evaluations : nat;
  error_evaluations : nat;
  passed : nat;
  failed : nat;
  accuracy : option Q;
  report_path : option string;
  report_generated : bool;
  email_sent : bool;
  email_recipients : list string;
  is_recovery : bool;
  recovery_triggered_by : option string;
  recovery_attempted : bool;
  recovery_count : nat;
  metadata : list (string * MetaValue);
  tags : list string
}.

Definition with_batch_id (v : option BatchId) (s : BatchState) : BatchState :=
  mkBatchState
    (batch_date s) v (status s) (previous_status s) (created_at s)
    (updated_at s) (started_at s) (completed_at s) (failed_at s)
    (retry_count s) (max_retries s) (last_retry_at s) (retry_after s)
    (error_message s) (error_type s) (error_details s) (total_pairs s)
    (processed_pairs s) (successful_evaluations s) (failed_evaluations s)
    (error_evaluations s) (passed s) (failed s) (accuracy s) (report_path s)
    (report_generated s) (email_sent s) (email_recipients s) (is_recovery s)
    (recovery_triggered_by s) (recovery_attempted s) (recovery_count s)
    (metadata s) (tags s).

Definition with_status (v : BatchStatus.t) (s : BatchState) : BatchState :=
  mkBatchState
    (batch_date s) (batch_id s) v (previous_status s) (created_at s)
    (updated_at s) (started_at s) (completed_at s) (failed_at s)
    (retry_count s) (max_retries s) (last_retry_at s) (retry_after s)
    (error_message s) (error_type s) (error_details s) (total_pairs s)
    (processed_pairs s) (successful_evaluations s) (failed_evaluations s)
    (error_evaluations s) (passed s) (failed s) (accuracy s) (report_path s)
    (report_generated s) (email_sent s) (email_recipients s) (is_recovery s)
    (recovery_triggered_by s) (recovery_attempted s) (recovery_count s)
    (metadata s) (tags s).

Definition with_previous_status (v : option BatchStatus.t) (s : BatchState) : BatchState :=
  mkBatchState
    (batch_date s) (batch_id s) (status s) v (created_at s) (updated_at s)
    (started_at s) (completed_at s) (failed_at s) (retry_count s)
    (max_retries s) (last_retry_at s) (retry_after s) (error_message s)
    (error_type s) (error_details s) (total_pairs s) (processed_pairs s)
    (successful_evaluations s) (failed_evaluations s) (error_evaluations s)
    (passed s) (failed s) (accuracy s) (report_path s) (report_generated s)
    (email_sent s) (email_recipients s) (is_recovery s)
    (recovery_triggered_by s) (recovery_attempted s) (recovery_count s)
    (metadata s) (tags s).

Definition with_updated_at (v : datetime) (s : BatchState) : BatchState :=
  mkBatchState
    (batch_date s) (batch_id s) (status s) (previous_status s) (created_at s)
    v (started_at s) (completed_at s) (failed_at s) (retry_count s)
    (max_retries s) (last_retry_at s) (retry_after s) (error_message s)
    (error_type s) (error_details s) (total_pairs s) (processed_pairs s)
    (successful_evaluations s) (failed_evaluations s) (error_evaluations s)
    (passed s) (failed s) (accuracy s) (report_path s) (report_generated s)
    (email_sent s) (email_recipients s) (is_recovery s)
    (recovery_triggered_by s) (recovery_attempted s) (recovery_count s)
    (metadata s) (tags s).

Definition with_started_at (v : option datetime) (s : BatchState) : BatchState :=
  mkBatchState
    (batch_date s) (batch_id s) (status s) (previous_status s) (created_at s)
    (updated_at s) v (completed_at s) (failed_at s) (retry_count s)
    (max_retries s) (last_retry_at s) (retry_after s) (error_message s)
    (error_type s) (error_details s) (total_pairs s) (processed_pairs s)
    (successful_evaluations s) (failed_evaluations s) (error_evaluations s)
    (passed s) (failed s) (accuracy s) (report_path s) (report_generated s)
    (email_sent s) (email_recipients s) (is_recovery s)
    (recovery_triggered_by s) (recovery_attempted s) (recovery_count s)
    (metadata s) (tags s).

Definition with_completed_at (v : option datetime) (s : BatchState) : BatchState :=
  mkBatchState
    (batch_date s) (batch_id s) (status s) (previous_status s) (created_at s)
    (updated_at s) (started_at s) v (failed_at s) (retry_count s)
    (max_retries s) (last_retry_at s) (retry_after s) (error_message s)
    (error_type s) (error_details s) (total_pairs s) (processed_pairs s)
    (successful_evaluations s) (failed_evaluations s) (error_evaluations s)
    (passed s) (failed s) (accuracy s) (report_path s) (report_generated s)
    (email_sent s) (email_recipients s) (is_recovery s)
    (recovery_triggered_by s) (recovery_attempted s) (recovery_count s)
    (metadata s) (tags s).

Definition with_failed_at (v : option datetime) (s : BatchState) : BatchState :=
  mkBatchState
    (batch_date s) (batch_id s) (status s) (previous_status s) (created_at s)
    (updated_at s) (started_at s) (completed_at s) v (retry_count s)
    (max_retries s) (last_retry_at s) (retry_after s) (error_message s)
    (error_type s) (error_details s) (total_pairs s) (processed_pairs s)
    (successful_evaluations s) (failed_evaluations s) (error_evaluations s)
    (passed s) (failed s) (accuracy s) (report_path s) (report_generated s)
    (email_sent s) (email_recipients s) (is_recovery s)
    (recovery_triggered_by s) (recovery_attempted s) (recovery_count s)
    (metadata s) (tags s).

Definition with_retry_count (v : nat) (s : BatchState) : BatchState :=
  mkBatchState
    (batch_date s) (batch_id s) (status s) (previous_status s) (created_at s)
    (updated_at s) (started_at s) (completed_at s) (failed_at s) v
    (max_retries s) (last_retry_at s) (retry_after s) (error_message s)
    (error_type s) (error_details s) (total_pairs s) (processed_pairs s)
    (successful_evaluations s) (failed_evaluations s) (error_evaluations s)
    (passed s) (failed s) (accuracy s) (report_path s) (report_generated s)
    (email_sent s) (email_recipients s) (is_recovery s)
    (recovery_triggered_by s) (recovery_attempted s) (recovery_count s)
    (metadata s) (tags s).

Definition with_last_retry_at (v : option datetime) (s : BatchState) : BatchState :=
  mkBatchState
    (batch_date s) (batch_id s) (status s) (previous_status s) (created_at s)
    (updated_at s) (started_at s) (completed_at s) (failed_at s)
    (retry_count s) (max_retries s) v (retry_after s) (error_message s)
    (error_type s) (error_details s) (total_pairs s) (processed_pairs s)
    (successful_evaluations s) (failed_evaluations s) (error_evaluations s)
    (passed s) (failed s) (accuracy s) (report_path s) (report_generated s)
    (email_sent s) (email_recipients s) (is_recovery s)
    (recovery_triggered_by s) (recovery_attempted s) (recovery_count s)
    (metadata s) (tags s).

Definition with_retry_after (v : option datetime) (s : BatchState) : BatchState :=
  mkBatchState
    (batch_date s) (batch_id s) (status s) (previous_status s) (created_at s)
    (updated_at s) (started_at s) (completed_at s) (failed_at s)
    (retry_count s) (max_retries s) (last_retry_at s) v (error_message s)
    (error_type s) (error_details s) (total_pairs s) (processed_pairs s)
    (successful_evaluations s) (failed_evaluations s) (error_evaluations s)
    (passed s) (failed s) (accuracy s) (report_path s) (report_generated s)
    (email_sent s) (email_recipients s) (is_recovery s)
    (recovery_triggered_by s) (recovery_attempted s) (recovery_count s)
    (metadata s) (tags s).

Definition with_error_message (v : option ErrorText) (s : BatchState) : BatchState :=
  mkBatchState
    (batch_date s) (batch_id s) (status s) (previous_status s) (created_at s)
    (updated_at s) (started_at s) (completed_at s) (failed_at s)
    (retry_count s) (max_retries s) (last_retry_at s) (retry_after s) v
    (error_type s) (error_details s) (total_pairs s) (processed_pairs s)
    (successful_evaluations s) (failed_evaluations s) (error_evaluations s)
    (passed s) (failed s) (accuracy s) (report_path s) (report_generated s)
    (email_sent s) (email_recipients s) (is_recovery s)
    (recovery_triggered_by s) (recovery_attempted s) (recovery_count s)
    (metadata s) (tags s).

Definition with_error_type (v : option string) (s : BatchState) : BatchState :=
  mkBatchState
    (batch_date s) (batch_id s) (status s) (previous_status s) (created_at s)
    (updated_at s) (started_at s) (completed_at s) (failed_at s)
    (retry_count s) (max_retries s) (last_retry_at s) (retry_after s)
    (error_message s) v (error_details s) (total_pairs s) (processed_pairs s)
    (successful_evaluations s) (failed_evaluations s) (error_evaluations s)
    (passed s) (failed s) (accuracy s) (report_path s) (report_generated s)
    (email_sent s) (email_recipients s) (is_recovery s)
    (recovery_triggered_by s) (recovery_attempted s) (recovery_count s)
    (metadata s) (tags s).

Definition with_error_details (v : option ErrorDetails) (s : BatchState) : BatchState :=
  mkBatchState
    (batch_date s) (batch_id s) (status s) (previous_status s) (created_at s)
    (updated_at s) (started_at s) (completed_at s) (failed_at s)
    (retry_count s) (max_retries s) (last_retry_at s) (retry_after s)
    (error_message s) (error_type s) v (total_pairs s) (processed_pairs s)
    (successful_evaluations s) (failed_evaluations s) (error_evaluations s)
    (passed s) (failed s) (accuracy s) (report_path s) (report_generated s)
    (email_sent s) (email_recipients s) (is_recovery s)
    (recovery_triggered_by s) (recovery_attempted s) (recovery_count s)
    (metadata s) (tags s).

Definition with_total_pairs (v : nat) (s : BatchState) : BatchState :=
  mkBatchState
    (batch_date s) (batch_id s) (status s) (previous_status s) (created_at s)
    (updated_at s) (started_at s) (completed_at s) (failed_at s)
    (retry_count s) (max_retries s) (last_retry_at s) (retry_after s)
    (error_message s) (error_type s) (error_details s) v (processed_pairs s)
    (successful_evaluations s) (failed_evaluations s) (error_evaluations s)
    (passed s) (failed s) (accuracy s) (report_path s) (report_generated s)
    (email_sent s) (email_recipients s) (is_recovery s)
    (recovery_triggered_by s) (recovery_attempted s) (recovery_count s)
    (metadata s) (tags s).

Definition with_processed_pairs (v : nat) (s : BatchState) : BatchState :=
  mkBatchState
    (batch_date s) (batch_id s) (status s) (previous_status s) (created_at s)
    (updated_at s) (started_at s) (completed_at s) (failed_at s)
    (retry_count s) (max_retries s) (last_retry_at s) (retry_after s)
    (error_message s) (error_type s) (error_details s) (total_pairs s) v
    (successful_evaluations s) (failed_evaluations s) (error_evaluations s)
    (passed s) (failed s) (accuracy s) (report_path s) (report_generated s)
    (email_sent s) (email_recipients s) (is_recovery s)
    (recovery_triggered_by s) (recovery_attempted s) (recovery_count s)
    (metadata s) (tags s).

Definition with_successful_evaluations (v : nat) (s : BatchState) : BatchState :=
  mkBatchState
    (batch_date s) (batch_id s) (status s) (previous_status s) (created_at s)
    (updated_at s) (started_at s) (completed_at s) (failed_at s)
    (retry_count s) (max_retries s) (last_retry_at s) (retry_after s)
    (error_message s) (error_type s) (error_details s) (total_pairs s)
    (processed_pairs s) v (failed_evaluations s) (error_evaluations s)
    (passed s) (failed s) (accuracy s) (report_path s) (report_generated s)
    (email_sent s) (email_recipients s) (is_recovery s)
    (recovery_triggered_by s) (recovery_attempted s) (recovery_count s)
    (metadata s) (tags s).

Definition with_error_evaluations (v : nat) (s : BatchState) : BatchState :=
  mkBatchState
    (batch_date s) (batch_id s) (status s) (previous_status s) (created_at s)
    (updated_at s) (started_at s) (completed_at s) (failed_at s)
    (retry_count s) (max_retries s) (last_retry_at s) (retry_after s)
    (error_message s) (error_type s) (error_details s) (total_pairs s)
    (processed_pairs s) (successful_evaluations s) (failed_evaluations s) v
    (passed s) (failed s) (accuracy s) (report_path s) (report_generated s)
    (email_sent s) (email_recipients s) (is_recovery s)
    (recovery_triggered_by s) (recovery_attempted s) (recovery_count s)
    (metadata s) (tags s).

Definition with_passed (v : nat) (s : BatchState) : BatchState :=
  mkBatchState
    (batch_date s) (batch_id s) (status s) (previous_status s) (created_at s)
    (updated_at s) (started_at s) (completed_at s) (failed_at s)
    (retry_count s) (max_retries s) (last_retry_at s) (retry_after s)
    (error_message s) (error_type s) (error_details s) (total_pairs s)
    (processed_pairs s) (successful_evaluations s) (failed_evaluations s)
    (error_evaluations s) v (failed s) (accuracy s) (report_path s)
    (report_generated s) (email_sent s) (email_recipients s) (is_recovery s)
    (recovery_triggered_by s) (recovery_attempted s) (recovery_count s)
    (metadata s) (tags s).

Definition with_failed (v : nat) (s : BatchState) : BatchState :=
  mkBatchState
    (batch_date s) (batch_id s) (status s) (previous_status s) (created_at s)
    (updated_at s) (started_at s) (completed_at s) (failed_at s)
    (retry_count s) (max_retries s) (last_retry_at s) (retry_after s)
    (error_message s) (error_type s) (error_details s) (total_pairs s)
    (processed_pairs s) (successful_evaluations s) (failed_evaluations s)
    (error_evaluations s) (passed s) v (accuracy s) (report_path s)
    (report_generated s) (email_sent s) (email_recipients s) (is_recovery s)
    (recovery_triggered_by s) (recovery_attempted s) (recovery_count s)
    (metadata s) (tags s).

Definition with_accuracy (v : option Q) (s : BatchState) : BatchState :=
  mkBatchState
    (batch_date s) (batch_id s) (status s) (previous_status s) (created_at s)
    (updated_at s) (started_at s) (completed_at s) (failed_at s)
    (retry_count s) (max_retries s) (last_retry_at s) (retry_after s)
    (error_message s) (error_type s) (error_details s) (total_pairs s)
    (processed_pairs s) (successful_evaluations s) (failed_evaluations s)
    (error_evaluations s) (passed s) (failed s) v (report_path s)
    (report_generated s) (email_sent s) (email_recipients s) (is_recovery s)
    (recovery_triggered_by s) (recovery_attempted s) (recovery_count s)
    (metadata s) (tags s).

Definition with_report_path (v : option string) (s : BatchState) : BatchState :=
  mkBatchState
    (batch_date s) (batch_id s) (status s) (previous_status s) (created_at s)
    (updated_at s) (started_at s) (completed_at s) (failed_at s)
    (retry_count s) (max_retries s) (last_retry_at s) (retry_after s)
    (error_message s) (error_type s) (error_details s) (total_pairs s)
    (processed_pairs s) (successful_evaluations s) (failed_evaluations s)
    (error_evaluations s) (passed s) (failed s) (accuracy s) v
    (report_generated s) (email_sent s) (email_recipients s) (is_recovery s)
    (recovery_triggered_by s) (recovery_attempted s) (recovery_count s)
    (metadata s) (tags s).

Definition with_report_generated (v : bool) (s : BatchState) : BatchState :=
  mkBatchState
    (batch_date s) (batch_id s) (status s) (previous_status s) (created_at s)
    (updated_at s) (started_at s) (completed_at s) (failed_at s)
    (retry_count s) (max_retries s) (last_retry_at s) (retry_after s)
    (error_message s) (error_type s) (error_details s) (total_pairs s)
    (processed_pairs s) (successful_evaluations s) (failed_evaluations s)
    (error_evaluations s) (passed s) (failed s) (accuracy s) (report_path s)
    v (email_sent s) (email_recipients s) (is_recovery s)
    (recovery_triggered_by s) (recovery_attempted s) (recovery_count s)
    (metadata s) (tags s).

Definition with_email_sent (v : bool) (s : BatchState) : BatchState :=
  mkBatchState
    (batch_date s) (batch_id s) (status s) (previous_status s) (created_at s)
    (updated_at s) (started_at s) (completed_at s) (failed_at s)
    (retry_count s) (max_retries s) (last_retry_at s) (retry_after s)
    (error_message s) (error_type s) (error_details s) (total_pairs s)
    (processed_pairs s) (successful_evaluations s) (failed_evaluations s)
    (error_evaluations s) (passed s) (failed s) (accuracy s) (report_path s)
    (report_generated s) v (email_recipients s) (is_recovery s)
    (recovery_triggered_by s) (recovery_attempted s) (recovery_count s)
    (metadata s) (tags s).

Definition with_email_recipients (v : list string) (s : BatchState) : BatchState :=
  mkBatchState
    (batch_date s) (batch_id s) (status s) (previous_status s) (created_at s)
    (updated_at s) (started_at s) (completed_at s) (failed_at s)
    (retry_count s) (max_retries s) (last_retry_at s) (retry_after s)
    (error_message s) (error_type s) (error_details s) (total_pairs s)
    (processed_pairs s) (successful_evaluations s) (failed_evaluations s)
    (error_evaluations s) (passed s) (failed s) (accuracy s) (report_path s)
    (report_generated s) (email_sent s) v (is_recovery s)
    (recovery_triggered_by s) (recovery_attempted s) (recovery_count s)
    (metadata s) (tags s).

Definition with_is_recovery (v : bool) (s : BatchState) : BatchState :=
  mkBatchState
    (batch_date s) (batch_id s) (status s) (previous_status s) (created_at s)
    (updated_at s) (started_at s) (completed_at s) (failed_at s)
    (retry_count s) (max_retries s) (last_retry_at s) (retry_after s)
    (error_message s) (error_type s) (error_details s) (total_pairs s)
    (processed_pairs s) (successful_evaluations s) (failed_evaluations s)
    (error_evaluations s) (passed s) (failed s) (accuracy s) (report_path s)
    (report_generated s) (email_sent s) (email_recipients s) v
    (recovery_triggered_by s) (recovery_attempted s) (recovery_count s)
    (metadata s) (tags s).

Definition with_recovery_attempted (v : bool) (s : BatchState) : BatchState :=
  mkBatchState
    (batch_date s) (batch_id s) (status s) (previous_status s) (created_at s)
    (updated_at s) (started_at s) (completed_at s) (failed_at s)
    (retry_count s) (max_retries s) (last_retry_at s) (retry_after s)
    (error_message s) (error_type s) (error_details s) (total_pairs s)
    (processed_pairs s) (successful_evaluations s) (failed_evaluations s)
    (error_evaluations s) (passed s) (failed s) (accuracy s) (report_path s)
    (report_generated s) (email_sent s) (email_recipients s) (is_recovery s)
    (recovery_triggered_by s) v (recovery_count s) (metadata s) (tags s).

Definition with_recovery_count (v : nat) (s : BatchState) : BatchState :=
  mkBatchState
    (batch_date s) (batch_id s) (status s) (previous_status s) (created_at s)
    (updated_at s) (started_at s) (completed_at s) (failed_at s)
    (retry_count s) (max_retries s) (last_retry_at s) (retry_after s)
    (error_message s) (error_type s) (error_details s) (total_pairs s)
    (processed_pairs s) (successful_evaluations s) (failed_evaluations s)
    (error_evaluations s) (passed s) (failed s) (accuracy s) (report_path s)
    (report_generated s) (email_sent s) (email_recipients s) (is_recovery s)
    (recovery_triggered_by s) (recovery_attempted s) v (metadata s) (tags s).

Definition with_metadata (v : list (string * MetaValue)) (s : BatchState) : BatchState :=
  mkBatchState
    (batch_date s) (batch_id s) (status s) (previous_status s) (created_at s)
    (updated_at s) (started_at s) (completed_at s) (failed_at s)
    (retry_count s) (max_retries s) (last_retry_at s) (retry_after s)
    (error_message s) (error_type s) (error_details s) (total_pairs s)
    (processed_pairs s) (successful_evaluations s) (failed_evaluations s)
    (error_evaluations s) (passed s) (failed s) (accuracy s) (report_path s)
    (report_generated s) (email_sent s) (email_recipients s) (is_recovery s)
    (recovery_triggered_by s) (recovery_attempted s) (recovery_count s) v
    (tags s).

(** [BatchState(batch_date=d)] once the clock has been read for
    [created_at] and [updated_at]: every other field takes its default. *)
Definition default_BatchState (d created updated : datetime) : BatchState :=
  mkBatchState (start_of_day d) None BatchStatus.PENDING None created updated
    None None None 0 3 None None None None None 0 0 0 0 0 0 0 None None
    false false [] false None false 0 [] [].

(** [metadata[key] = value] on the open string-keyed map. *)
Fixpoint dict_set (key : string) (value : MetaValue)
    (d : list (string * MetaValue)) : list (string * MetaValue) :=
  match d with
  | [] => [(key, value)]
  | (k, v) :: rest =>
      if String.eqb k key then (k, value) :: rest
      else (k, v) :: dict_set key value rest
  end.

Fixpoint dict_get (key : string) (d : list (string * MetaValue))
    : option MetaValue :=
  match d with
  | [] => None
  | (k, v) :: rest => if String.eqb k key then Some v else dict_get key rest
  end.

(** Python truthiness of the values kept in [metadata]. *)
Definition truthy (v : MetaValue) : bool :=
  match v with
  | MetaBool b => b
  | MetaStr s => negb (String.eqb s "")
  | MetaTime _ => true
  | MetaSeconds d => negb (d =? 0)%Z
  end.

(** ** Evaluation models ([src/models/evaluation.py]) *)

(** Python's [round(x, ndigits)] on an exact rational: nearest multiple of
    [10^-ndigits], ties to the even one. *)
Definition round_half_even (q : Q) : Z :=
  let n := Qnum q in
  let d := Zpos (Qden q) in
  let f := (n / d)%Z in
  let r := (n mod d)%Z in
  match (2 * r ?= d)%Z with
  | Lt => f
  | Gt => (f + 1)%Z
  | Eq => if Z.even f then f else (f + 1)%Z
  end.

Definition py_round (q : Q) (ndigits : nat) : Q :=
  let scale := (10 ^ Z.of_nat ndigits)%Z in
  (round_half_even (q * inject_Z scale)%Q # Z.to_pos scale)%Q.

(** True division [a / b] of two counters, for [b > 0]. *)
Definition true_div (a b : nat) : Q := (Z.of_nat a # Pos.of_nat b)%Q.

Definition Qlt_bool (a b : Q) : bool := negb (Qle_bool b a).

Module TranscriptSummaryPair.

Record t : Type := mk {
  interaction_id : string;
  transcript : string;
  post_call_summary : string
}.

End TranscriptSummaryPair.

Module EvaluationResult.

Record t : Type := mk {
  batch_id : BatchId;
  interaction_id : string;
  status : EvaluationStatus.t;
  confidence_score : option Q
}.

End EvaluationResult.

Module BatchEvaluation.

Record t : Type := mk {
  batch_id : BatchId;
  evaluation_date : datetime;
  total_evaluations : nat;
  passed : nat;
  failed : nat;
  errors : nat;
  pass_percentage : Q;
  fail_percentage : Q;
  error_percentage : Q;
  accuracy : Q;
  average_confidence : option Q;
  created_at : datetime;
  processing_time_seconds : option timedelta
}.

(** [validate_percentages] *)
Definition validate_percentages (v : Q) : Q := py_round v 2.

(** [validate_accuracy]: the value passed by the caller is replaced by
    [passed / total_evaluations] whenever [total_evaluations > 0]. *)
Definition validate_accuracy (v : Q) (total_evaluations passed : nat) : Q :=
  if 0 <? total_evaluations
  then py_round (true_div passed total_evaluations) 4
  else v.

(** The constructor [BatchEvaluation(...)]: the validators run on the
    arguments, [created] is the reading taken by [created_at]'s default
    factory. *)
Definition init (batch_id : BatchId) (evaluation_date : datetime)
    (total_evaluations passed failed errors : nat)
    (pass_percentage fail_percentage error_percentage accuracy : Q)
    (average_confidence : option Q) (created : datetime)
    (processing_time_seconds : option timedelta) : t :=
  mk batch_id evaluation_date total_evaluations passed failed errors
    (validate_percentages pass_percentage)
    (validate_percentages fail_percentage)
    (validate_percentages error_percentage)
    (validate_accuracy accuracy total_evaluations passed)
    average_confidence created processing_time_seconds.

(** [is_below_threshold] *)
Definition is_below_threshold (self : t) (threshold : Q) : bool :=
  Qlt_bool (accuracy self) threshold.

End BatchEvaluation.

(** ** Notifications

    An email is kept by what it is about and its priority rather than by
    its rendered subject and HTML body. *)

Inductive Priority : Type := low | normal | high | critical.

Inductive Subject : Type :=
| LowAccuracyAlert (accuracy : Q) (day : datetime)
| EvaluationReport (alert : bool) (recovery : bool) (date : datetime)
| BatchFailed (day : datetime) (will_retry : bool)
| NoDataFound (day : datetime)
| MaxRetryAlert (day : datetime)
| RecoverySuccess (day : datetime)
| RecoverySummary (recovered failed_count : nat)
| RecoveryProcessError.

Record Email : Type := mkEmail {
  subject : Subject;
  priority : Priority;
  delivered : bool
}.

(** ** Outcomes, and the state-and-exception monad *)

Inductive Outcome (A : Type) : Type :=
| Returned (a : A)
| Raised (e : PyException).

Arguments Returned {A} a.
Arguments Raised {A} e.

Definition M (S A : Type) : Type := S -> Outcome A * S.

Definition ret {S A : Type} (a : A) : M S A := fun s => (Returned a, s).

Definition bind {S A B : Type} (c : M S A) (k : A -> M S B) : M S B :=
  fun s =>
    match c s with
    | (Returned a, s') => k a s'
    | (Raised e, s') => (Raised e, s')
    end.

Definition raise {S A : Type} (e : PyException) : M S A :=
  fun s => (Raised e, s).

(** [try: body  except Exception as e: handler e] *)
Definition try_except {S A : Type} (body : M S A)
    (handler : PyException -> M S A) : M S A :=
  fun s =>
    match body s with
    | (Returned a, s') => (Returned a, s')
    | (Raised e, s') => handler e s'
    end.

(** [try: body  finally: final]: [final] runs on every exit of [body]; the
    outcome of [body] stands unless [final] itself raises. *)
Definition try_finally {S A : Type} (body : M S A) (final : M S unit)
    : M S A :=
  fun s =>
    let (r, s') := body s in
    match final s' with
    | (Returned _, s'') => (r, s'')
    | (Raised e, s'') => (Raised e, s'')
    end.

Declare Scope monad_scope.
Delimit Scope monad_scope with monad.
Notation "x <- c ;; k" := (bind c (fun x => k))
  (at level 61, c at next level, right associativity) : monad_scope.
Notation "c ;; k" := (bind c (fun _ => k))
  (at level 61, right associativity) : monad_scope.
Local Open Scope monad_scope.

(** ** The environment and the world *)

(** What the code obtains from outside: the clock, the summaries
    collection, the judge, the persistence sink, the report generator, the
    mail providers and the settings. *)
Record Env : Type := mkEnv {
  clock : nat -> datetime;
  count_documents : datetime -> datetime -> option nat;
  aggregate : datetime -> datetime -> Outcome (list TranscriptSummaryPair.t);
  measure : TranscriptSummaryPair.t -> EvaluationStatus.t * option Q;
  uuid4_hex8 : string;
  save_failure :
    list EvaluationResult.t -> BatchEvaluation.t -> option PyException;
  excel_report :
    BatchEvaluation.t -> list EvaluationResult.t -> Outcome string;
  provider_accepts : Subject -> Priority -> bool;
  ACCURACY_THRESHOLD : Q;
  ALERT_EMAIL : string;
  RECOVERY_LOOKBACK_DAYS : Z
}.

(** What the code changes: the documents of the [batch_states] collection,
    the number of clock readings taken, the emails handed to the providers
    (oldest first), the calls of [save_evaluation_results] that succeeded,
    and, as a record of the control flow, the days on which
    [run_daily_evaluation] was entered. *)
Record World : Type := mkWorld {
  batch_states : list BatchState;
  reads : nat;
  outbox : list Email;
  saved_results : list (list EvaluationResult.t * BatchEvaluation.t);
  runs : list datetime
}.

Definition with_batch_states (v : list BatchState) (w : World) : World :=
  mkWorld v (reads w) (outbox w) (saved_results w) (runs w).
Definition with_reads (v : nat) (w : World) : World :=
  mkWorld (batch_states w) v (outbox w) (saved_results w) (runs w).
Definition with_outbox (v : list Email) (w : World) : World :=
  mkWorld (batch_states w) (reads w) v (saved_results w) (runs w).
Definition with_saved_results
    (v : list (list EvaluationResult.t * BatchEvaluation.t)) (w : World)
    : World :=
  mkWorld (batch_states w) (reads w) (outbox w) v (runs w).
Definition with_runs (v : list datetime) (w : World) : World :=
  mkWorld (batch_states w) (reads w) (outbox w) (saved_results w) v.

(** The frame of a call that holds a [BatchState] object in the local
    variable [state] and mutates it in place. *)
Record Frame : Type := mkFrame {
  state : BatchState;
  world : World
}.

Definition lift {A : Type} (c : M World A) : M Frame A :=
  fun f => let (r, w) := c (world f) in (r, mkFrame (state f) w).

Definition get_state : M Frame BatchState := fun f => (Returned (state f), f).

Definition put_state (s : BatchState) : M Frame unit :=
  fun f => (Returned tt, mkFrame s (world f)).

(** An assignment [state.field = v]. *)
Definition assign (f : BatchState -> BatchState) : M Frame unit :=
  s <- get_state ;; put_state (f s).

(** A method of the object, or a function that mutates its argument:
    it reads the world and hands back the mutated object. *)
Definition call {A : Type} (m : BatchState -> M World (BatchState * A))
    : M Frame A :=
  s <- get_state ;;
  r <- lift (m s) ;;
  put_state (fst r) ;;
  ret (snd r).

(** ** The collection [batch_states] *)

Definition same_date (d : datetime) (doc : BatchState) : bool :=
  (batch_date doc =? d)%Z.

(** [collection.find_one({"batch_date": d})] *)
Definition find_one (d : datetime) (docs : list BatchState)
    : option BatchState :=
  find (same_date d) docs.

(** [collection.insert_one(doc)] under the unique index on [batch_date]:
    [None] is [DuplicateKeyError]. *)
Definition insert_one (doc : BatchState) (docs : list BatchState)
    : option (list BatchState) :=
  if existsb (same_date (batch_date doc)) docs then None
  else Some (docs ++ [doc])%list.

(** [collection.update_one({"batch_date": d}, {"$set": doc}, upsert=True)]:
    [doc] carries every field, so the first matching document becomes
    [doc]; without a match [doc] is inserted. *)
Fixpoint update_one (doc : BatchState) (docs : list BatchState)
    : list BatchState :=
  match docs with
  | [] => [doc]
  | d :: rest =>
      if same_date (batch_date doc) d then doc :: rest
      else d :: update_one doc rest
  end.

Section Services.

Variable env : Env.

(** [datetime.utcnow()] *)
Definition utcnow : M World datetime :=
  fun w => (Returned (clock env (reads w)), with_reads (S (reads w)) w).

(** ** Methods of [BatchState] ([src/models/batch_state.py]) *)

Definition can_retry (self : BatchState) : M World bool :=
  if max_retries self <=? retry_count self then ret false
  else
    match retry_after self with
    | Some after =>
        now <- utcnow ;;
        if (now <? after)%Z then ret false
        else ret (BatchStatus.can_retry (status self))
    | None => ret (BatchStatus.can_retry (status self))
    end.

Definition increment_retry (self : BatchState) : M World (BatchState * unit) :=
  let self := with_retry_count (retry_count self + 1) self in
  t1 <- utcnow ;;
  let self := with_last_retry_at (Some t1) self in
  t2 <- utcnow ;;
  let self := with_updated_at t2 self in
  ret (self, tt).

Definition set_error (error : PyException) (self : BatchState)
    : M World (BatchState * unit) :=
  let self :=
    with_error_message
      (Some (ExceptionText (substring 0 5000 (exc_str error)))) self in
  let self := with_error_type (Some (exc_name error)) self in
  t1 <- utcnow ;;
  let self := with_failed_at (Some t1) self in
  let self := with_status BatchStatus.FAILED self in
  t2 <- utcnow ;;
  let self :=
    with_error_details
      (Some (mkErrorDetails (exc_name error) (exc_module error) t2)) self in
  ret (self, tt).

(** ** The data-existence probe ([db_service.has_data_for_date]) *)

Definition has_data_for_date (date : datetime) : M World bool :=
  let start_time := start_of_day date in
  let end_time := (start_time + td_days 1)%Z in
  match count_documents env start_time end_time with
  | Some count => ret (0 <? count)
  | None => ret false
  end.

(** ** The state service ([src/services/state_service.py]) *)

(** A [BatchState] built from a stored document: the [updated_at]
    validator stamps the object with the current time. *)
Definition BatchState_of_doc (doc : BatchState) : M World BatchState :=
  now <- utcnow ;;
  ret (with_updated_at now doc).

Definition get_or_create_batch_state (batch_date : datetime)
    : M World BatchState :=
  let batch_date := start_of_day batch_date in
  fun w =>
    match find_one batch_date (batch_states w) with
    | Some doc => BatchState_of_doc doc w
    | None =>
        (created <- utcnow ;;
         updated <- utcnow ;;
         let state := default_BatchState batch_date created updated in
         fun w1 =>
           match insert_one state (batch_states w1) with
           | Some docs => (Returned state, with_batch_states docs w1)
           | None =>
               match find_one batch_date (batch_states w1) with
               | Some doc => BatchState_of_doc doc w1
               | None =>
                   (Raised
                      (NoneTypeError "AttributeError"
                         "'NoneType' object has no attribute 'pop'"), w1)
               end
           end) w
    end.

Definition update_batch_state (state : BatchState)
    : M World (BatchState * unit) :=
  fun w =>
    let state :=
      match find_one (batch_date state) (batch_states w) with
      | Some current_doc =>
          if BatchStatus.eqb (status current_doc) (status state) then state
          else with_previous_status (Some (status current_doc)) state
      | None => state
      end in
    (now <- utcnow ;;
     let state := with_updated_at now state in
     fun w1 =>
       (Returned (state, tt),
        with_batch_states (update_one state (batch_states w1)) w1)) w.

(** The second component of [should_process_batch]'s result, kept with
    the values its f-strings interpolate. *)
Inductive Reason : Type :=
| AlreadyCompleted
| WasStuck
| CurrentlyRunning (runtime : timedelta)
| MaxRetriesExceeded (max : nat)
| RetryDelayed (wait_time : timedelta)
| NoDataAvailable
| RetryingFailed (attempt max : nat)
| ReadyForProcessing.

(** Lines 238 to 255 of [should_process_batch]: the retry limit, the retry
    delay, the data probe. *)
Definition should_process_checks (batch_date : datetime)
    (state : BatchState) : M World (bool * Reason) :=
  ok <- can_retry state ;;
  if negb ok then ret (false, MaxRetriesExceeded (max_retries state))
  else
    let continue : M World (bool * Reason) :=
      has_data <- has_data_for_date batch_date ;;
      if negb has_data then ret (false, NoDataAvailable)
      else if BatchStatus.eqb (status state) BatchStatus.FAILED
      then ret (true, RetryingFailed (retry_count state + 1)
                        (max_retries state))
      else ret (true, ReadyForProcessing) in
    match retry_after state with
    | Some after =>
        now <- utcnow ;;
        if (now <? after)%Z then
          now' <- utcnow ;;
          ret (false, RetryDelayed (after - now')%Z)
        else continue
    | None => continue
    end.

Definition should_process_batch (batch_date : datetime)
    : M World (bool * Reason) :=
  state <- get_or_create_batch_state batch_date ;;
  if BatchStatus.eqb (status state) BatchStatus.COMPLETED
  then ret (false, AlreadyCompleted)
  else if BatchStatus.eqb (status state) BatchStatus.RUNNING then
    match started_at state with
    | Some started =>
        now <- utcnow ;;
        let runtime := (now - started)%Z in
        if (td_hours 2 <? runtime)%Z then
          let state := with_status BatchStatus.FAILED state in
          let state :=
            with_error_message (Some (StuckInRunning runtime)) state in
          update_batch_state state ;;
          ret (true, WasStuck)
        else ret (false, CurrentlyRunning runtime)
    | None => should_process_checks batch_date state
    end
  else should_process_checks batch_date state.

End Services.

Notation "' pat <- c ;; k" :=
  (bind c (fun x => match x with pat => k end))
  (at level 61, pat pattern, c at next level, right associativity)
  : monad_scope.

Section Pipeline.

Variable env : Env.

(** ** The evaluation service ([src/services/evaluation_service.py]) *)

Definition count_status (s : EvaluationStatus.t)
    (results : list EvaluationResult.t) : nat :=
  List.length
    (filter (fun r => EvaluationStatus.eqb (EvaluationResult.status r) s)
       results).

Definition confidence_scores (results : list EvaluationResult.t) : list Q :=
  flat_map
    (fun r =>
       match EvaluationResult.confidence_score r with
       | Some c => [c]
       | None => []
       end) results.

Definition Qsum (l : list Q) : Q := fold_left Qplus l (inject_Z 0).

Definition _calculate_batch_statistics (results : list EvaluationResult.t)
    (batch_id : BatchId) (processing_time : timedelta)
    : M World BatchEvaluation.t :=
  let total := List.length results in
  if total =? 0 then
    evaluation_date <- utcnow env ;;
    created <- utcnow env ;;
    ret (BatchEvaluation.init batch_id evaluation_date 0 0 0 0
           (inject_Z 0) (inject_Z 0) (inject_Z 0) (inject_Z 0) None created
           (Some processing_time))
  else
    let passed := count_status EvaluationStatus.PASS results in
    let failed := count_status EvaluationStatus.FAIL results in
    let errors := count_status EvaluationStatus.ERROR results in
    let pass_percentage := (true_div passed total * inject_Z 100)%Q in
    let fail_percentage := (true_div failed total * inject_Z 100)%Q in
    let error_percentage := (true_div errors total * inject_Z 100)%Q in
    let evaluable := passed + failed in
    let accuracy :=
      if 0 <? evaluable then true_div passed evaluable else inject_Z 0 in
    let scores := confidence_scores results in
    let avg_confidence :=
      match scores with
      | [] => None
      | _ => Some (Qsum scores / inject_Z (Z.of_nat (List.length scores)))%Q
      end in
    evaluation_date <- utcnow env ;;
    created <- utcnow env ;;
    ret (BatchEvaluation.init batch_id evaluation_date total passed failed
           errors pass_percentage fail_percentage error_percentage accuracy
           avg_confidence created (Some processing_time)).

(** [_evaluate_single_pair] and [_create_error_result]: the verdict and the
    confidence come from the judge; a judge that keeps failing yields an
    [ERROR] verdict, never an exception. *)
Definition _evaluate_single_pair (pair : TranscriptSummaryPair.t)
    (batch_id : BatchId) : EvaluationResult.t :=
  let (verdict, confidence) := measure env pair in
  EvaluationResult.mk batch_id (TranscriptSummaryPair.interaction_id pair)
    verdict confidence.

(** [evaluate_batch]: the sub-batches are evaluated in order and their
    results concatenated, one result per pair. *)
Definition evaluate_batch (pairs : list TranscriptSummaryPair.t)
    : M World (list EvaluationResult.t * BatchEvaluation.t) :=
  let batch_id := UuidBatchId (uuid4_hex8 env) in
  start_time <- utcnow env ;;
  let evaluation_results :=
    map (fun pair => _evaluate_single_pair pair batch_id) pairs in
  end_time <- utcnow env ;;
  let processing_time := (end_time - start_time)%Z in
  batch_stats <-
    _calculate_batch_statistics evaluation_results batch_id processing_time ;;
  ret (evaluation_results, batch_stats).

(** ** Collaborators of [db_service.py] and [report_service.py] *)

Definition get_unevaluated_pairs (start_date end_date : datetime)
    : M World (list TranscriptSummaryPair.t) :=
  fun w => (aggregate env start_date end_date, w).

Definition save_evaluation_results (results : list EvaluationResult.t)
    (batch : BatchEvaluation.t) : M World unit :=
  fun w =>
    match save_failure env results batch with
    | Some e => (Raised e, w)
    | None =>
        (Returned tt,
         with_saved_results (saved_results w ++ [(results, batch)])%list w)
    end.

Definition generate_excel_report (batch : BatchEvaluation.t)
    (results : list EvaluationResult.t) : M World string :=
  fun w => (excel_report env batch results, w).

(** ** The email service ([src/services/email_service.py]) *)

(** [_send_with_fallback]: the email is handed to the providers, and
    whether one of them accepted it is recorded and returned. *)
Definition _send_with_fallback (subject : Subject) (priority : Priority)
    : M World bool :=
  fun w =>
    let success := provider_accepts env subject priority in
    (Returned success,
     with_outbox (outbox w ++ [mkEmail subject priority success])%list w).

Definition send_alert (subject : Subject) (priority : Priority)
    : M World unit :=
  _send_with_fallback subject priority ;;
  ret tt.

Definition send_evaluation_report (batch : BatchEvaluation.t)
    (report_path : string) (send_alert is_recovery : bool) : M World unit :=
  let subject :=
    EvaluationReport send_alert is_recovery
      (BatchEvaluation.evaluation_date batch) in
  let priority := if send_alert then high else normal in
  success <- _send_with_fallback subject priority ;;
  if negb success then raise AllProvidersFailed else ret tt.

(** ** The orchestrator ([src/pipeline/evaluator.py]) *)

Definition _send_batch_failure_alert (evaluation_date : datetime)
    (error : PyException) (state : BatchState) : M World unit :=
  will_retry <- can_retry env state ;;
  send_alert (BatchFailed evaluation_date will_retry) high.

Definition _send_empty_batch_notification (evaluation_date : datetime)
    : M World unit :=
  send_alert (NoDataFound evaluation_date) low.

Definition _send_accuracy_alert (batch : BatchEvaluation.t)
    (evaluation_date : datetime) : M World unit :=
  send_alert
    (LowAccuracyAlert (BatchEvaluation.accuracy batch) evaluation_date) high.

(** [state.is_recovery or state.metadata.get("is_recovery", False)] *)
Definition recovery_flag (state : BatchState) : bool :=
  is_recovery state
  || match dict_get "is_recovery" (metadata state) with
     | Some v => truthy v
     | None => false
     end.

(** The local variable [email_duration] is bound only inside the branch
    taken when the accuracy is below the threshold; [None] stands for
    "not bound", and reading it then raises [UnboundLocalError]. *)
Definition _execute_evaluation_pipeline (evaluation_date : datetime)
    : M Frame BatchEvaluation.t :=
  pipeline_start <- lift (utcnow env) ;;
  let date_start := evaluation_date in
  let date_end := (date_start + td_days 1)%Z in
  pairs <- lift (get_unevaluated_pairs date_start date_end) ;;
  match pairs with
  | [] =>
      created <- lift (utcnow env) ;;
      let empty_batch :=
        BatchEvaluation.init (EmptyBatchId evaluation_date) evaluation_date
          0 0 0 0 (inject_Z 0) (inject_Z 0) (inject_Z 0) (inject_Z 0) None
          created None in
      assign (with_total_pairs 0) ;;
      assign (with_processed_pairs 0) ;;
      assign (with_batch_id (Some (BatchEvaluation.batch_id empty_batch))) ;;
      assign (with_status BatchStatus.SKIPPED) ;;
      now <- lift (utcnow env) ;;
      assign (with_completed_at (Some now)) ;;
      call (update_batch_state env) ;;
      lift (_send_empty_batch_notification evaluation_date) ;;
      ret empty_batch
  | _ :: _ =>
      assign (with_total_pairs (List.length pairs)) ;;
      call (update_batch_state env) ;;
      evaluation_start <- lift (utcnow env) ;;
      ' (results, batch) <- lift (evaluate_batch pairs) ;;
      evaluation_end <- lift (utcnow env) ;;
      let evaluation_duration := (evaluation_end - evaluation_start)%Z in
      assign (with_processed_pairs (List.length results)) ;;
      assign (with_successful_evaluations
                (BatchEvaluation.passed batch + BatchEvaluation.failed batch)) ;;
      assign (with_error_evaluations (BatchEvaluation.errors batch)) ;;
      assign (with_passed (BatchEvaluation.passed batch)) ;;
      assign (with_failed (BatchEvaluation.failed batch)) ;;
      assign (with_accuracy (Some (BatchEvaluation.accuracy batch))) ;;
      assign (with_batch_id (Some (BatchEvaluation.batch_id batch))) ;;
      call (update_batch_state env) ;;
      save_start <- lift (utcnow env) ;;
      lift (save_evaluation_results results batch) ;;
      save_end <- lift (utcnow env) ;;
      let save_duration := (save_end - save_start)%Z in
      report_start <- lift (utcnow env) ;;
      report_path <- lift (generate_excel_report batch results) ;;
      report_end <- lift (utcnow env) ;;
      let report_duration := (report_end - report_start)%Z in
      assign (with_report_path (Some report_path)) ;;
      assign (with_report_generated true) ;;
      call (update_batch_state env) ;;
      email_start <- lift (utcnow env) ;;
      s <- get_state ;;
      let is_recovery := recovery_flag s in
      email_duration <-
        (if Qlt_bool (BatchEvaluation.accuracy batch) (ACCURACY_THRESHOLD env)
         then
           lift (_send_accuracy_alert batch evaluation_date) ;;
           let is_alert_scenario :=
             Qlt_bool (BatchEvaluation.accuracy batch)
               (ACCURACY_THRESHOLD env) in
           lift (send_evaluation_report batch report_path is_alert_scenario
                   is_recovery) ;;
           email_end <- lift (utcnow env) ;;
           assign (with_email_sent true) ;;
           assign (with_email_recipients [ALERT_EMAIL env]) ;;
           call (update_batch_state env) ;;
           ret (Some (email_end - email_start)%Z)
         else ret None) ;;
      pipeline_end <- lift (utcnow env) ;;
      let total_duration := (pipeline_end - pipeline_start)%Z in
      match email_duration with
      | None => raise (UnboundLocalError "email_duration")
      | Some email_duration =>
          assign (fun s =>
            with_metadata
              (dict_set "email_duration_seconds" (MetaSeconds email_duration)
              (dict_set "report_duration_seconds" (MetaSeconds report_duration)
              (dict_set "save_duration_seconds" (MetaSeconds save_duration)
              (dict_set "evaluation_duration_seconds"
                 (MetaSeconds evaluation_duration)
              (dict_set "pipeline_duration_seconds"
                 (MetaSeconds total_duration) (metadata s)))))) s) ;;
          call (update_batch_state env) ;;
          ret batch
      end
  end.

(** The body of a call that binds [state] to a fresh local object. *)
Definition with_local {A : Type} (s : BatchState) (c : M Frame A)
    : M World A :=
  fun w => let (r, f) := c (mkFrame s w) in (r, world f).

(** [min(5 * (2 ** state.retry_count), 60)] *)
Definition delay_minutes (retry_count : nat) : nat :=
  Nat.min (5 * 2 ^ retry_count) 60.

(** Lines 115 to 120 of [run_daily_evaluation]: the transition to
    [RUNNING]. *)
Definition mark_running : M Frame unit :=
  assign (with_status BatchStatus.RUNNING) ;;
  now <- lift (utcnow env) ;;
  assign (with_started_at (Some now)) ;;
  s <- get_state ;;
  (if BatchStatus.eqb (status s) BatchStatus.FAILED
   then call (increment_retry env) else ret tt) ;;
  call (update_batch_state env).

(** The [except Exception as e] block, lines 137 to 155. *)
Definition on_failure (evaluation_date : datetime) (e : PyException)
    : M Frame bool :=
  call (set_error env e) ;;
  s <- get_state ;;
  retry <- lift (can_retry env s) ;;
  (if retry then
     now <- lift (utcnow env) ;;
     assign (with_retry_after
               (Some (now + td_minutes (Z.of_nat (delay_minutes (retry_count s))))%Z))
   else ret tt) ;;
  s <- get_state ;;
  lift (_send_batch_failure_alert evaluation_date e s) ;;
  ret false.

(** The [try] statement, lines 122 to 160. *)
Definition attempt (evaluation_date : datetime) : M Frame bool :=
  try_finally
    (try_except
       (batch_result <- _execute_evaluation_pipeline evaluation_date ;;
        assign (with_status BatchStatus.COMPLETED) ;;
        now <- lift (utcnow env) ;;
        assign (with_completed_at (Some now)) ;;
        ret true)
       (on_failure evaluation_date))
    (call (update_batch_state env)).

(** The entry of [run_daily_evaluation] is recorded in [runs]. *)
Definition enter (evaluation_date : datetime) : M World unit :=
  fun w => (Returned tt, with_runs (runs w ++ [evaluation_date])%list w).

Definition run_daily_evaluation (evaluation_date : datetime) : M World bool :=
  let evaluation_date := start_of_day evaluation_date in
  enter evaluation_date ;;
  state <- get_or_create_batch_state env evaluation_date ;;
  ' (should_process, reason) <- should_process_batch env evaluation_date ;;
  if negb should_process then ret true
  else with_local state (mark_running ;; attempt evaluation_date).

End Pipeline.

Section Recovery.

Variable env : Env.

(** ** The recovery manager ([src/pipeline/recovery_manager.py]) *)

(** One turn of the [while] loop of [_find_missing_evaluations]: whether
    [current_date] needs evaluation. *)
Definition needs_evaluation (current_date : datetime) : M World bool :=
  state <- get_or_create_batch_state env current_date ;;
  match status state with
  | BatchStatus.COMPLETED => ret false
  | BatchStatus.SKIPPED => ret false
  | BatchStatus.FAILED | BatchStatus.PARTIAL => can_retry env state
  | BatchStatus.PENDING => has_data_for_date env current_date
  | BatchStatus.RUNNING =>
      match started_at state with
      | Some started =>
          now <- utcnow env ;;
          ret (td_hours 2 <? now - started)%Z
      | None => ret false
      end
  | BatchStatus.CANCELLED => ret false
  end.

(** [while current_date < end_date: ...; current_date += timedelta(days=1)];
    [turns] bounds the number of turns. *)
Fixpoint scan_dates (turns : nat) (current_date end_date : datetime)
    (missing_dates : list datetime) : M World (list datetime) :=
  match turns with
  | O => ret missing_dates
  | S turns' =>
      if (current_date <? end_date)%Z then
        needed <- needs_evaluation current_date ;;
        let missing_dates :=
          if needed then (missing_dates ++ [current_date])%list
          else missing_dates in
        scan_dates turns' (current_date + td_days 1)%Z end_date missing_dates
      else ret missing_dates
  end.

(** The window holds [lookback_days] days, so that many turns exhaust it. *)
Definition _find_missing_evaluations : M World (list datetime) :=
  now <- utcnow env ;;
  let end_date := start_of_day now in
  let start_date := (end_date - td_days (RECOVERY_LOOKBACK_DAYS env))%Z in
  scan_dates (Z.to_nat (RECOVERY_LOOKBACK_DAYS env)) start_date end_date [].

Definition _send_max_retry_alert (batch_date : datetime)
    (state : BatchState) : M World unit :=
  send_alert env (MaxRetryAlert batch_date) critical.

(** The body interpolates [f"{state.accuracy:.2%}"], which raises
    [TypeError] on [None]. *)
Definition _send_recovery_success_notification (batch_date : datetime)
    (state : BatchState) : M World unit :=
  match accuracy state with
  | None =>
      raise
        (NoneTypeError "TypeError"
           "unsupported format string passed to NoneType.__format__")
  | Some _ => send_alert env (RecoverySuccess batch_date) low
  end.

Definition _recover_single_batch (batch_date : datetime) : M World bool :=
  recovery_start <- utcnow env ;;
  try_except
    (state <- get_or_create_batch_state env batch_date ;;
     if BatchStatus.eqb (status state) BatchStatus.COMPLETED then ret true
     else
       retry <- can_retry env state ;;
       if negb retry then
         _send_max_retry_alert batch_date state ;;
         ret false
       else
         let state := with_is_recovery true state in
         let state := with_recovery_attempted true state in
         let state := with_recovery_count (recovery_count state + 1) state in
         now <- utcnow env ;;
         let state :=
           with_metadata
             (dict_set "is_recovery" (MetaBool true)
             (dict_set "recovery_trigger" (MetaStr "RecoveryManager")
             (dict_set "recovery_triggered_at" (MetaTime now)
                (metadata state)))) state in
         ' (state, _) <- update_batch_state env state ;;
         success <- run_daily_evaluation env batch_date ;;
         if success then
           recovery_end <- utcnow env ;;
           _send_recovery_success_notification batch_date state ;;
           ret true
         else ret false)
    (fun e => ret false).

(** [sorted(missing_dates)] *)
Fixpoint insert_sorted (d : datetime) (l : list datetime) : list datetime :=
  match l with
  | [] => [d]
  | x :: rest =>
      if (d <=? x)%Z then d :: l else x :: insert_sorted d rest
  end.

Definition sorted (l : list datetime) : list datetime :=
  fold_right insert_sorted [] l.

(** The [for] loop of [recover_all_missed_batches]; the result is
    [(recovered_count, failed_count)]. *)
Fixpoint recover_each (dates : list datetime) (recovered_count failed_count : nat)
    : M World (nat * nat) :=
  match dates with
  | [] => ret (recovered_count, failed_count)
  | date :: rest =>
      success <- _recover_single_batch date ;;
      if success then recover_each rest (recovered_count + 1) failed_count
      else recover_each rest recovered_count (failed_count + 1)
  end.

Fixpoint summary_lookups (dates : list datetime) : M World unit :=
  match dates with
  | [] => ret tt
  | date :: rest =>
      get_or_create_batch_state env date ;;
      summary_lookups rest
  end.

Definition _send_recovery_summary (missing_dates : list datetime)
    (recovered failed_count : nat) : M World unit :=
  summary_lookups (sorted missing_dates) ;;
  send_alert env (RecoverySummary recovered failed_count) normal.

Definition _send_recovery_error_alert (error : PyException) : M World unit :=
  send_alert env RecoveryProcessError high.

Definition recover_all_missed_batches : M World nat :=
  start_time <- utcnow env ;;
  try_except
    (missing_dates <- _find_missing_evaluations ;;
     match missing_dates with
     | [] => ret 0
     | _ :: _ =>
         ' (recovered_count, failed_count) <-
           recover_each (sorted missing_dates) 0 0 ;;
         finished <- utcnow env ;;
         (if (0 <? recovered_count) || (0 <? failed_count)
          then _send_recovery_summary missing_dates recovered_count
                 failed_count
          else ret tt) ;;
         ret recovered_count
     end)
    (fun e => _send_recovery_error_alert e ;; ret 0).

End Recovery.

(** ** The scheduler's fire time ([src/pipeline/scheduler.py]) *)

Module Scheduler.

(** A wall-clock datetime of the configured time zone: the calendar day
    (as a day number) and the time of day.  Two datetimes of the scheduler
    carry the same [tzinfo], so Python compares their fields in order. *)
Record t : Type := mk {
  day : Z;
  hour : Z;
  minute : Z;
  second : Z;
  microsecond : Z
}.

(** [dt_time(hour, minute)] *)
Record time : Type := mk_time {
  time_hour : Z;
  time_minute : Z
}.

Definition replace (d : t) (hour minute second microsecond : Z) : t :=
  mk (day d) hour minute second microsecond.

Definition to_microseconds (d : t) : Z :=
  (day d * microseconds_per_day + hour d * microseconds_per_hour
   + minute d * microseconds_per_minute + second d * 1000000
   + microsecond d)%Z.

(** Lexicographic comparison of the fields. *)
Definition compare (a b : t) : comparison :=
  match (day a ?= day b)%Z with
  | Eq =>
      match (hour a ?= hour b)%Z with
      | Eq =>
          match (minute a ?= minute b)%Z with
          | Eq =>
              match (second a ?= second b)%Z with
              | Eq => (microsecond a ?= microsecond b)%Z
              | c => c
              end
          | c => c
          end
      | c => c
      end
  | c => c
  end.

(** [a >= b] *)
Definition geb (a b : t) : bool :=
  match compare a b with
  | Lt => false
  | _ => true
  end.

(** [a < b] *)
Definition ltb (a b : t) : bool := negb (geb a b).

(** [d + timedelta(days=n)]: the time of day is kept. *)
Definition add_days (d : t) (n : Z) : t :=
  mk (day d + n)%Z (hour d) (minute d) (second d) (microsecond d).

Definition _calculate_next_run (run_time : time) (current_time : t) : t :=
  let next_run :=
    replace current_time (time_hour run_time) (time_minute run_time) 0 0 in
  if geb current_time next_run then add_days next_run 1 else next_run.

(** The fields of a datetime and of a time of day lie in their calendar
    ranges. *)
Definition valid (d : t) : Prop :=
  (0 <= hour d < 24 /\ 0 <= minute d < 60 /\ 0 <= second d < 60
   /\ 0 <= microsecond d < 1000000)%Z.

Definition valid_time (r : time) : Prop :=
  (0 <= time_hour r < 24 /\ 0 <= time_minute r < 60)%Z.

(** Today's and tomorrow's fire times, as the specification names them. *)
Definition fire_time_on (run_time : time) (day : Z) : t :=
  mk day (time_hour run_time) (time_minute run_time) 0 0.

End Scheduler.

(** ** Concurrent callers of [get_or_create_batch_state]

    Between two awaited database operations of one caller, any other
    caller (another task, another process) may run.  A caller is therefore
    a small automaton whose transitions are the atomic database operations
    of [get_or_create_batch_state], and a schedule says which caller moves
    next. *)

Module Race.

Inductive Caller : Type :=
| Start (batch_date : datetime)
| Creating (state : BatchState)
| Rereading (batch_date : datetime)
| Done (result : Outcome BatchState).

Definition step (env : Env) (c : Caller) (w : World) : Caller * World :=
  match c with
  | Start batch_date =>
      let batch_date := start_of_day batch_date in
      match find_one batch_date (batch_states w) with
      | Some doc =>
          let (r, w') := BatchState_of_doc env doc w in (Done r, w')
      | None =>
          let created := clock env (reads w) in
          let updated := clock env (S (reads w)) in
          (Creating (default_BatchState batch_date created updated),
           with_reads (S (S (reads w))) w)
      end
  | Creating state =>
      match insert_one state (batch_states w) with
      | Some docs => (Done (Returned state), with_batch_states docs w)
      | None => (Rereading (batch_date state), w)
      end
  | Rereading batch_date =>
      match find_one batch_date (batch_states w) with
      | Some doc =>
          let (r, w') := BatchState_of_doc env doc w in (Done r, w')
      | None =>
          (Done
             (Raised
                (NoneTypeError "AttributeError"
                   "'NoneType' object has no attribute 'pop'")), w)
      end
  | Done r => (Done r, w)
  end.

(** The caller at position [i] makes one transition. *)
Fixpoint step_nth (env : Env) (i : nat) (callers : list Caller) (w : World)
    : list Caller * World :=
  match callers, i with
  | [], _ => ([], w)
  | c :: rest, O => let (c', w') := step env c w in (c' :: rest, w')
  | c :: rest, S i' =>
      let (rest', w') := step_nth env i' rest w in (c :: rest', w')
  end.

Fixpoint run (env : Env) (schedule : list nat) (callers : list Caller)
    (w : World) : list Caller * World :=
  match schedule with
  | [] => (callers, w)
  | i :: schedule' =>
      let (callers', w') := step_nth env i callers w in
      run env schedule' callers' w'
  end.

(** Number of stored records keyed by [d]. *)
Definition records_for (d : datetime) (docs : list BatchState) : nat :=
  List.length (filter (same_date d) docs).

(** The unique index holds: no two documents share a [batch_date]. *)
Definition unique_dates (docs : list BatchState) : Prop :=
  NoDup (map batch_date docs).

(** Every record found in [docs] is still found in [docs']. *)
Definition grows (docs docs' : list BatchState) : Prop :=
  forall (d : datetime) (doc : BatchState),
    find_one d docs = Some doc -> find_one d docs' = Some doc.

(** What holds of a caller that was started for day [d], whatever the
    other callers did in between. *)
Definition caller_ok (docs : list BatchState) (d : datetime) (c : Caller)
    : Prop :=
  match c with
  | Start d' => d' = d
  | Creating state => batch_date state = start_of_day d
  | Rereading d' =>
      d' = start_of_day d /\ exists doc, find_one d' docs = Some doc
  | Done r =>
      exists s doc,
        r = Returned s
        /\ find_one (start_of_day d) docs = Some doc
        /\ with_updated_at (updated_at s) doc = s
  end.

End Race.

(** ** Repeated decisions, and concrete days, clocks and environments *)

(** The world after [n] successive calls of [should_process_batch]. *)
Fixpoint after_decisions (env : Env) (n : nat) (batch_date : datetime)
    (w : World) : World :=
  match n with
  | O => w
  | S n' =>
      after_decisions env n' batch_date
        (snd (should_process_batch env batch_date w))
  end.

Definition midnight (n : Z) : datetime := td_days n.

(** A clock that starts at [t0] and advances by one second per reading. *)
Definition ticking (t0 : datetime) (n : nat) : datetime :=
  (t0 + Z.of_nat n * 1000000)%Z.

Definition a_pair (id : string) : TranscriptSummaryPair.t :=
  TranscriptSummaryPair.mk id "Customer: hello" "Customer greeted the agent".

(** An environment in which the clock starts at [t0], every day has
    summaries, the fetch returns [pairs], the judge answers [verdict] on
    every pair, and the other collaborators succeed unless [save_error] is
    given; the threshold is 0.85 and the lookback 3 days. *)
Definition example_env (t0 : datetime)
    (pairs : list TranscriptSummaryPair.t) (verdict : EvaluationStatus.t)
    (save_error : option PyException) : Env :=
  mkEnv (ticking t0) (fun _ _ => Some 1)
    (fun _ _ => Returned pairs) (fun _ => (verdict, Some (1 # 2)%Q))
    "0a1b2c3d" (fun _ _ => save_error)
    (fun _ _ => Returned "reports/evaluation.xlsx") (fun _ _ => true)
    (85 # 100)%Q "alerts@example.com" 3.

(** [env] with another lookback window. *)
Definition with_lookback (n : Z) (env : Env) : Env :=
  mkEnv (clock env) (count_documents env) (aggregate env) (measure env)
    (uuid4_hex8 env) (save_failure env) (excel_report env)
    (provider_accepts env) (ACCURACY_THRESHOLD env) (ALERT_EMAIL env) n.

Definition empty_world : World := mkWorld [] 0 [] [] [].

(** What the persistence sink raises when the database is unreachable. *)
Definition outage : PyException :=
  CollaboratorError "ConnectionFailure" "pymongo.errors" "connection refused".

(** A stored document for day [d] with the given status, retry count and
    start time. *)
Definition stored (d : datetime) (st : BatchStatus.t) (retries : nat)
    (started : option datetime) : BatchState :=
  with_started_at started
    (with_retry_count retries
       (with_status st (default_BatchState d d d))).

Definition world_of (docs : list BatchState) : World :=
  mkWorld docs 0 [] [] [].

(** [n] results with the same verdict. *)
Definition verdicts (n : nat) (v : EvaluationStatus.t)
    : list EvaluationResult.t :=
  repeat (EvaluationResult.mk (UuidBatchId "0a1b2c3d") "INT" v None) n.

(** 80 passes, 15 failures, 5 errors. *)
Definition hundred_results : list EvaluationResult.t :=
  (verdicts 80 EvaluationStatus.PASS ++ verdicts 15 EvaluationStatus.FAIL
   ++ verdicts 5 EvaluationStatus.ERROR)%list.

(** What the examples observe of a stored document. *)
Definition observe (s : BatchState) :=
  (batch_date s, status s, previous_status s, retry_count s, email_sent s,
   error_type s).

(** What the examples observe of an outcome and its world: the stored
    documents, the subjects and priorities of the emails, the number of
    saved result sets and the days the orchestrator was entered for. *)
Definition observe_world (w : World) :=
  (map observe (batch_states w),
   map (fun m => (subject m, priority m)) (outbox w),
   List.length (saved_results w), runs w).

(** ** Vocabulary of the statements *)

(** Between [w] and [w'] the clock was read and nothing else happened. *)
Definition only_clock_read (w w' : World) : Prop :=
  batch_states w' = batch_states w /\ outbox w' = outbox w
  /\ saved_results w' = saved_results w /\ runs w' = runs w.

(** [s'] is [s] up to the two fields [update_batch_state] maintains,
    [previous_status] and [updated_at]. *)
Definition same_but_audit (s s' : BatchState) : Prop :=
  batch_date s' = batch_date s /\ status s' = status s
  /\ retry_count s' = retry_count s /\ max_retries s' = max_retries s
  /\ retry_after s' = retry_after s
  /\ error_message s' = error_message s /\ error_type s' = error_type s
  /\ failed_at s' = failed_at s /\ started_at s' = started_at s
  /\ completed_at s' = completed_at s /\ email_sent s' = email_sent s
  /\ accuracy s' = accuracy s /\ report_generated s' = report_generated s.

(** ** Further functions of the modelled modules *)

Section MoreServices.

Variable env : Env.

(** [BatchState.get_progress_percentage] *)
Definition get_progress_percentage (self : BatchState) : Q :=
  if total_pairs self =? 0 then inject_Z 0
  else
    py_round
      (true_div (processed_pairs self) (total_pairs self) * inject_Z 100)%Q 2.

(** [collection.delete_many(query)]: the documents left and the number
    deleted. *)
Definition delete_many (query : BatchState -> bool) (docs : list BatchState)
    : list BatchState * nat :=
  (filter (fun doc => negb (query doc)) docs,
   List.length (filter query docs)).

(** [StateService.cleanup_old_states] *)
Definition cleanup_old_states (retention_days : Z) : M World nat :=
  now <- utcnow env ;;
  let cutoff_date := (now - td_days retention_days)%Z in
  fun w =>
    let (docs, deleted_count) :=
      delete_many
        (fun doc =>
           (batch_date doc <? cutoff_date)%Z
           && BatchStatus.eqb (status doc) BatchStatus.COMPLETED)
        (batch_states w) in
    (Returned deleted_count, with_batch_states docs w).

(** The query of [get_pending_batches]: the status list and the optional
    bounds on [batch_date], both inclusive. *)
Definition pending_query (start_date end_date : option datetime)
    (include_failed : bool) (doc : BatchState) : bool :=
  let status_list :=
    (BatchStatus.PENDING
     :: (if include_failed then [BatchStatus.FAILED; BatchStatus.PARTIAL]
         else []))%list in
  existsb (BatchStatus.eqb (status doc)) status_list
  && match start_date with
     | Some d => (d <=? batch_date doc)%Z
     | None => true
     end
  && match end_date with
     | Some d => (batch_date doc <=? d)%Z
     | None => true
     end.

(** [cursor.sort("batch_date", 1)] *)
Fixpoint insert_by_date (doc : BatchState) (l : list BatchState)
    : list BatchState :=
  match l with
  | [] => [doc]
  | x :: rest =>
      if (batch_date doc <? batch_date x)%Z then doc :: l
      else x :: insert_by_date doc rest
  end.

Definition sort_by_date (l : list BatchState) : list BatchState :=
  fold_right insert_by_date [] l.

(** The [async for doc in cursor] loop of [get_pending_batches]. *)
Fixpoint keep_retryable (docs : list BatchState) (states : list BatchState)
    : M World (list BatchState) :=
  match docs with
  | [] => ret states
  | doc :: rest =>
      state <- BatchState_of_doc env doc ;;
      ok <- can_retry env state ;;
      keep_retryable rest (if ok then (states ++ [state])%list else states)
  end.

(** [StateService.get_pending_batches] *)
Definition get_pending_batches (start_date end_date : option datetime)
    (include_failed : bool) : M World (list BatchState) :=
  fun w =>
    keep_retryable
      (sort_by_date
         (filter (pending_query start_date end_date include_failed)
            (batch_states w))) [] w.

(** [collection.find_one({"batch_date": d, "status": "completed"})] *)
Definition find_completed (d : datetime) (docs : list BatchState)
    : option BatchState :=
  find
    (fun doc =>
       same_date d doc
       && BatchStatus.eqb (status doc) BatchStatus.COMPLETED) docs.

(** One turn of the loop of [check_missing_batches]. *)
Definition is_missing (current_date : datetime) : M World bool :=
  fun w =>
    match find_completed current_date (batch_states w) with
    | Some _ => (Returned false, w)
    | None =>
        (has_data <- has_data_for_date env current_date ;;
         if has_data then
           fun w1 =>
             match find_one current_date (batch_states w1) with
             | Some failed_doc =>
                 (state <- BatchState_of_doc env failed_doc ;;
                  can_retry env state) w1
             | None => (Returned true, w1)
             end
         else ret false) w
    end.

Fixpoint check_dates (turns : nat) (current_date end_date : datetime)
    (missing_dates : list datetime) : M World (list datetime) :=
  match turns with
  | O => ret missing_dates
  | S turns' =>
      if (current_date <? end_date)%Z then
        missing <- is_missing current_date ;;
        let missing_dates :=
          if missing then (missing_dates ++ [current_date])%list
          else missing_dates in
        check_dates turns' (current_date + td_days 1)%Z end_date missing_dates
      else ret missing_dates
  end.

(** [StateService.check_missing_batches] *)
Definition check_missing_batches (lookback_days : Z)
    : M World (list datetime) :=
  now <- utcnow env ;;
  let end_date := start_of_day now in
  let start_date := (end_date - td_days lookback_days)%Z in
  check_dates (Z.to_nat lookback_days) start_date end_date [].

(** One turn of the first loop of [check_and_recover_missed_batches]. *)
Definition needs_quick_recovery (current_date : datetime) : M World bool :=
  state <- get_or_create_batch_state env current_date ;;
  if existsb (BatchStatus.eqb (status state))
       [BatchStatus.FAILED; BatchStatus.PENDING; BatchStatus.PARTIAL]
  then can_retry env state
  else ret false.

Fixpoint quick_scan (turns : nat) (current_date end_date : datetime)
    (dates_to_recover : list datetime) : M World (list datetime) :=
  match turns with
  | O => ret dates_to_recover
  | S turns' =>
      if (current_date <? end_date)%Z then
        needed <- needs_quick_recovery current_date ;;
        let dates_to_recover :=
          if needed then (dates_to_recover ++ [current_date])%list
          else dates_to_recover in
        quick_scan turns' (current_date + td_days 1)%Z end_date
          dates_to_recover
      else ret dates_to_recover
  end.

(** The second loop of [check_and_recover_missed_batches]. *)
Fixpoint quick_recover (dates : list datetime) (recovered_count : nat)
    : M World nat :=
  match dates with
  | [] => ret recovered_count
  | date :: rest =>
      success <- _recover_single_batch env date ;;
      quick_recover rest
        (if success then recovered_count + 1 else recovered_count)
  end.

(** [RecoveryManager.check_and_recover_missed_batches] *)
Definition check_and_recover_missed_batches : M World nat :=
  let recent_days := Z.min 3 (RECOVERY_LOOKBACK_DAYS env) in
  now <- utcnow env ;;
  let end_date := start_of_day now in
  let start_date := (end_date - td_days recent_days)%Z in
  dates_to_recover <-
    quick_scan (Z.to_nat recent_days) start_date end_date [] ;;
  quick_recover dates_to_recover 0.

End MoreServices.

(** ** Sub-batches, retries and provider fallback *)

(** [ValueError("range() arg 3 must not be zero")] *)
Definition range_step_zero : PyException :=
  CollaboratorError "ValueError" "builtins" "range() arg 3 must not be zero".

(** [len(range(start, stop, step))] for a non-zero [step]. *)
Definition range_length (start stop step : Z) : nat :=
  if (0 <? step)%Z then
    if (start <? stop)%Z then Z.to_nat ((stop - start - 1) / step + 1)
    else 0
  else
    if (stop <? start)%Z then Z.to_nat ((start - stop - 1) / (- step) + 1)
    else 0.

(** [list(range(start, stop, step))] *)
Definition py_range (start stop step : Z) : Outcome (list Z) :=
  if (step =? 0)%Z then Raised range_step_zero
  else
    Returned
      (map (fun k => (start + Z.of_nat k * step)%Z)
         (seq 0 (range_length start stop step))).

(** A slice bound brought into [0, len]: a negative bound counts from the
    end. *)
Definition slice_bound (len : nat) (k : Z) : nat :=
  if (k <? 0)%Z then Z.to_nat (Z.max (k + Z.of_nat len) 0)
  else Nat.min (Z.to_nat k) len.

(** [items[i:j]] *)
Definition py_slice {A : Type} (items : list A) (i j : Z) : list A :=
  let lo := slice_bound (List.length items) i in
  let hi := slice_bound (List.length items) j in
  firstn (hi - lo) (skipn lo items).

(** [list(chunk_list(items, chunk_size))] ([src/utils/helpers.py]) *)
Definition chunk_list {A : Type} (items : list A) (chunk_size : Z)
    : Outcome (list (list A)) :=
  match py_range 0 (Z.of_nat (List.length items)) chunk_size with
  | Returned starts =>
      Returned (map (fun i => py_slice items i (i + chunk_size)%Z) starts)
  | Raised e => Raised e
  end.

Section SubBatches.

Variable env : Env.

(** [_process_sub_batch]: one result per pair of the sub-batch, in
    order. *)
Definition _process_sub_batch (pairs : list TranscriptSummaryPair.t)
    (batch_id : BatchId) : list EvaluationResult.t :=
  map (fun pair => _evaluate_single_pair env pair batch_id) pairs.

(** [evaluate_batch] with its loop over sub-batches of [batch_size]
    pairs. *)
Definition evaluate_batch_in_sub_batches (batch_size : Z)
    (pairs : list TranscriptSummaryPair.t)
    : M World (list EvaluationResult.t * BatchEvaluation.t) :=
  let batch_id := UuidBatchId (uuid4_hex8 env) in
  start_time <- utcnow env ;;
  match py_range 0 (Z.of_nat (List.length pairs)) batch_size with
  | Raised e => raise e
  | Returned starts =>
      let evaluation_results :=
        flat_map
          (fun i =>
             _process_sub_batch (py_slice pairs i (i + batch_size)%Z)
               batch_id) starts in
      end_time <- utcnow env ;;
      let processing_time := (end_time - start_time)%Z in
      batch_stats <-
        _calculate_batch_statistics env evaluation_results batch_id
          processing_time ;;
      ret (evaluation_results, batch_stats)
  end.

End SubBatches.

(** [parse_evaluation_response]: the status it derives from the score. *)
Definition status_of_score (score threshold : Q) : EvaluationStatus.t :=
  if Qle_bool threshold score then EvaluationStatus.PASS
  else EvaluationStatus.FAIL.

(** The bounds [ge=0.0, le=1.0] of [EvaluationResult.confidence_score]. *)
Definition valid_confidence (score : Q) : bool :=
  Qle_bool (inject_Z 0) score && Qle_bool score (inject_Z 1).

(** [_create_error_result] *)
Definition _create_error_result (pair : TranscriptSummaryPair.t)
    (batch_id : BatchId) : EvaluationResult.t :=
  EvaluationResult.mk batch_id (TranscriptSummaryPair.interaction_id pair)
    EvaluationStatus.ERROR (Some (inject_Z 0)).

(** The [while retries < self.max_retries] loop of
    [_evaluate_single_pair].  [judge k] is the outcome of the [k]-th call
    of the metric: the score it sets, or the exception it raises; building
    the result raises too when the score is outside [0, 1].  The result
    comes with the number of calls made. *)
Fixpoint retry_loop (judge : nat -> Outcome Q) (threshold : Q)
    (pair : TranscriptSummaryPair.t) (batch_id : BatchId) (max_retries : Z)
    (turns retries calls : nat) : EvaluationResult.t * nat :=
  match turns with
  | O => (_create_error_result pair batch_id, calls)
  | S turns' =>
      if (Z.of_nat retries <? max_retries)%Z then
        match judge calls with
        | Returned score =>
            if valid_confidence score then
              (EvaluationResult.mk batch_id
                 (TranscriptSummaryPair.interaction_id pair)
                 (status_of_score score threshold) (Some score), S calls)
            else
              if (max_retries <=? Z.of_nat (S retries))%Z
              then (_create_error_result pair batch_id, S calls)
              else retry_loop judge threshold pair batch_id max_retries
                     turns' (S retries) (S calls)
        | Raised e =>
            if (max_retries <=? Z.of_nat (S retries))%Z
            then (_create_error_result pair batch_id, S calls)
            else retry_loop judge threshold pair batch_id max_retries
                   turns' (S retries) (S calls)
        end
      else (_create_error_result pair batch_id, calls)
  end.

(** [_evaluate_single_pair] with its retries: at most [max_retries] turns
    can run. *)
Definition evaluate_with_retries (judge : nat -> Outcome Q) (threshold : Q)
    (max_retries : Z) (pair : TranscriptSummaryPair.t) (batch_id : BatchId)
    : EvaluationResult.t * nat :=
  retry_loop judge threshold pair batch_id max_retries
    (Z.to_nat max_retries) 0 0.

(** [_send_with_fallback] over the list of providers: [outcomes] holds,
    provider by provider, what [send_email] does with this message.  The
    result comes with the number of providers tried. *)
Fixpoint try_providers (outcomes : list (Outcome bool)) (tried : nat)
    : bool * nat :=
  match outcomes with
  | [] => (false, tried)
  | Returned true :: _ => (true, S tried)
  | Returned false :: rest => try_providers rest (S tried)
  | Raised _ :: rest => try_providers rest (S tried)
  end.

Definition send_with_fallback (outcomes : list (Outcome bool)) : bool * nat :=
  match outcomes with
  | [] => (false, 0)
  | _ :: _ => try_providers outcomes 0
  end.

(** What the record of a day selected by the recovery scan looks like. *)
Definition may_run (env : Env) (d : datetime) (doc : BatchState) : Prop :=
  match status doc with
  | BatchStatus.COMPLETED | BatchStatus.SKIPPED | BatchStatus.CANCELLED =>
      False
  | BatchStatus.FAILED | BatchStatus.PARTIAL =>
      retry_count doc < max_retries doc
  | BatchStatus.PENDING =>
      forall w0, has_data_for_date env d w0 = (Returned true, w0)
  | BatchStatus.RUNNING => exists started, started_at doc = Some started
  end.

(** ** Invariants of a run *)

(** [c] takes every state to one related to it by [R], whether it returns
    or raises. *)
Definition respects {St A : Type} (R : St -> St -> Prop) (c : M St A)
    : Prop :=
  forall s, R s (snd (c s)).

(** The collection and the log of runs are as they were. *)
Definition same_store (w w' : World) : Prop :=
  batch_states w' = batch_states w /\ runs w' = runs w.

(** Only the record of day [d] may differ: the record of every other day
    is as it was, the unique index still holds, and the log of runs is as
    it was. *)
Definition keeps_other_days (d : datetime) (w w' : World) : Prop :=
  (forall d', d' <> d ->
     find_one d' (batch_states w') = find_one d' (batch_states w))
  /\ (Race.unique_dates (batch_states w) ->
      Race.unique_dates (batch_states w'))
  /\ runs w' = runs w.

(** The local [state] object stays on its day, and only the record of
    that day may differ. *)
Definition on_day (f f' : Frame) : Prop :=
  batch_date (state f') = batch_date (state f)
  /\ keeps_other_days (batch_date (state f)) (world f) (world f').

(** The [k]-th call of the metric does not give a result: it raises, or
    it sets a score that the result model rejects. *)
Definition attempt_fails (judge : nat -> Outcome Q) (k : nat) : bool :=
  match judge k with
  | Returned score => negb (valid_confidence score)
  | Raised _ => true
  end.

(** The record of every day outside [start_date, end_date) is as it was,
    and the unique index still holds. *)
Definition keeps_outside (start_date end_date : datetime) (w w' : World)
    : Prop :=
  (forall d, ~ (start_date <= d < end_date)%Z ->
     find_one d (batch_states w') = find_one d (batch_states w))
  /\ (Race.unique_dates (batch_states w) ->
      Race.unique_dates (batch_states w')).

(** * Properties *)

(** ** The collection *)

Lemma find_one_date (d : datetime) (docs : list BatchState)
    (doc : BatchState) :
  find_one d docs = Some doc -> batch_date doc = d.
Proof.
  unfold find_one. intros H. apply find_some in H. destruct H as [_ H].
  unfold same_date in H. now apply Z.eqb_eq in H.
Qed.

Lemma find_one_update_one (doc : BatchState) (docs : list BatchState) :
  find_one (batch_date doc) (update_one doc docs) = Some doc.
Proof.
  unfold find_one. induction docs as [|d rest IH]; simpl.
  - unfold same_date. now rewrite Z.eqb_refl.
  - destruct (same_date (batch_date doc) d) eqn:E; simpl.
    + unfold same_date. now rewrite Z.eqb_refl.
    + rewrite E. exact IH.
Qed.

Lemma start_of_day_idempotent (d : datetime) :
  start_of_day (start_of_day d) = start_of_day d.
Proof.
  unfold start_of_day, microseconds_per_day.
  rewrite Z.div_mul by lia. reflexivity.
Qed.

(** ** The scheduler *)

Lemma scheduler_geb_same_day (a b : Scheduler.t) :
  Scheduler.valid a -> Scheduler.valid b ->
  Scheduler.day a = Scheduler.day b ->
  Scheduler.geb a b
  = (Scheduler.to_microseconds b <=? Scheduler.to_microseconds a)%Z.
Proof.
  unfold Scheduler.valid, Scheduler.geb, Scheduler.compare,
    Scheduler.to_microseconds, microseconds_per_day, microseconds_per_hour,
    microseconds_per_minute.
  intros (Ha1 & Ha2 & Ha3 & Ha4) (Hb1 & Hb2 & Hb3 & Hb4) Hday.
  rewrite Hday, Z.compare_refl.
  symmetry.
  destruct (Z.compare_spec (Scheduler.hour a) (Scheduler.hour b));
    [ destruct (Z.compare_spec (Scheduler.minute a) (Scheduler.minute b));
      [ destruct (Z.compare_spec (Scheduler.second a) (Scheduler.second b));
        [ destruct (Z.compare_spec (Scheduler.microsecond a)
                      (Scheduler.microsecond b)) | | ] | | ] | | ];
    (apply Z.leb_le || apply Z.leb_gt); lia.
Qed.

(** C9. The next fire time is today's configured fire time when the
    current wall-clock time is strictly before it, and tomorrow's fire time
    otherwise (in particular when the two are equal); with fire time 00:01
    and current time 00:01:30 it is tomorrow at 00:01:00. *)
Theorem next_run_is_next_fire_time (run_time : Scheduler.time)
    (current_time : Scheduler.t) :
  Scheduler.valid current_time ->
  Scheduler.valid_time run_time ->
  let today :=
    Scheduler.fire_time_on run_time (Scheduler.day current_time) in
  let tomorrow :=
    Scheduler.fire_time_on run_time (Scheduler.day current_time + 1)%Z in
  ((Scheduler.to_microseconds current_time
    < Scheduler.to_microseconds today)%Z ->
   Scheduler._calculate_next_run run_time current_time = today)
  /\ ((Scheduler.to_microseconds today
       <= Scheduler.to_microseconds current_time)%Z ->
      Scheduler._calculate_next_run run_time current_time = tomorrow)
  /\ (forall d : Z,
        Scheduler._calculate_next_run (Scheduler.mk_time 0 1)
          (Scheduler.mk d 0 1 30 0)
        = Scheduler.mk (d + 1) 0 1 0 0).
Proof.
  intros Hc Hr today tomorrow.
  assert (Hgeb :
    Scheduler.geb current_time today
    = (Scheduler.to_microseconds today
       <=? Scheduler.to_microseconds current_time)%Z).
  { apply scheduler_geb_same_day; [exact Hc | | reflexivity].
    unfold Scheduler.valid, Scheduler.valid_time in *. simpl. lia. }
  unfold Scheduler._calculate_next_run, Scheduler.replace.
  change (Scheduler.mk (Scheduler.day current_time)
            (Scheduler.time_hour run_time) (Scheduler.time_minute run_time)
            0 0) with today.
  rewrite Hgeb.
  split; [| split].
  - intros Hlt. apply Z.leb_gt in Hlt. now rewrite Hlt.
  - intros Hle. apply Z.leb_le in Hle. now rewrite Hle.
  - intros d. unfold Scheduler._calculate_next_run, Scheduler.replace,
      Scheduler.geb, Scheduler.compare, Scheduler.add_days. simpl.
    now rewrite Z.compare_refl.
Qed.

Lemma next_run_is_next_fire_time_witness :
  Scheduler._calculate_next_run (Scheduler.mk_time 0 1)
    (Scheduler.mk 20000 0 0 59 999999)
  = Scheduler.mk 20000 0 1 0 0
  /\ Scheduler._calculate_next_run (Scheduler.mk_time 0 1)
       (Scheduler.mk 20000 0 1 0 0)
     = Scheduler.mk 20001 0 1 0 0.
Proof.
  assert (Hc1 : Scheduler.valid (Scheduler.mk 20000 0 0 59 999999))
    by (unfold Scheduler.valid; simpl; lia).
  assert (Hc2 : Scheduler.valid (Scheduler.mk 20000 0 1 0 0))
    by (unfold Scheduler.valid; simpl; lia).
  assert (Hr : Scheduler.valid_time (Scheduler.mk_time 0 1))
    by (unfold Scheduler.valid_time; simpl; lia).
  split.
  - apply (proj1 (next_run_is_next_fire_time _ _ Hc1 Hr)).
    vm_compute. reflexivity.
  - apply (proj1 (proj2 (next_run_is_next_fire_time _ _ Hc2 Hr))).
    vm_compute. discriminate.
Defined.

(** ** The decision procedure *)

Lemma can_retry_running (env : Env) (s : BatchState) (w : World) :
  status s = BatchStatus.RUNNING ->
  exists w', can_retry env s w = (Returned false, w')
             /\ batch_states w' = batch_states w.
Proof.
  intros Hs. unfold can_retry.
  destruct (max_retries s <=? retry_count s).
  - eexists; split; reflexivity.
  - destruct (retry_after s) as [after|].
    + unfold bind, utcnow, ret.
      destruct (clock env (reads w) <? after)%Z; rewrite ?Hs;
        eexists; split; reflexivity.
    + rewrite Hs. eexists; split; reflexivity.
Qed.

Lemma running_without_start_once (env : Env) (d : datetime) (w : World)
    (doc : BatchState) :
  find_one (start_of_day d) (batch_states w) = Some doc ->
  status doc = BatchStatus.RUNNING ->
  started_at doc = None ->
  exists w',
    should_process_batch env d w
    = (Returned (false, MaxRetriesExceeded (max_retries doc)), w')
    /\ batch_states w' = batch_states w.
Proof.
  intros Hfind Hst Hstart.
  unfold should_process_batch, bind at 1.
  unfold get_or_create_batch_state. rewrite Hfind.
  unfold BatchState_of_doc, bind, utcnow, ret. simpl.
  rewrite Hst, Hstart. simpl.
  unfold should_process_checks, bind.
  destruct (can_retry_running env
              (with_updated_at (clock env (reads w)) doc)
              (with_reads (S (reads w)) w) Hst) as (w' & Hcr & Hdocs).
  rewrite Hcr. simpl. exists w'. split; [reflexivity | exact Hdocs].
Qed.



(** C5. For a stored RUNNING record with [started_at] set, let [now] be
    the clock reading taken by the stuck check.  If [now - started_at]
    exceeds two hours, [should_process_batch] stores the record as FAILED
    with the stuck-batch error message (and RUNNING as previous status) and
    answers true with the reason "Batch was stuck, marked as failed for
    retry"; this holds for every retry count, retry limit, retry delay and
    data probe, none of which is consulted.  Otherwise it answers false
    with the reason "Batch currently running" and leaves the collection as
    it was. *)
Theorem stuck_running_is_failed_first (env : Env) (d : datetime) (w : World)
    (doc : BatchState) (started : datetime) :
  find_one (start_of_day d) (batch_states w) = Some doc ->
  status doc = BatchStatus.RUNNING ->
  started_at doc = Some started ->
  let now := clock env (S (reads w)) in
  ((td_hours 2 < now - started)%Z ->
   exists w' doc',
     should_process_batch env d w = (Returned (true, WasStuck), w')
     /\ find_one (start_of_day d) (batch_states w') = Some doc'
     /\ status doc' = BatchStatus.FAILED
     /\ previous_status doc' = Some BatchStatus.RUNNING
     /\ error_message doc' = Some (StuckInRunning (now - started)%Z)
     /\ retry_count doc' = retry_count doc
     /\ retry_after doc' = retry_after doc
     /\ reads w' = reads w + 3
     /\ outbox w' = outbox w)
  /\ ((now - started <= td_hours 2)%Z ->
      exists w',
        should_process_batch env d w
        = (Returned (false, CurrentlyRunning (now - started)%Z), w')
        /\ batch_states w' = batch_states w).
Proof.
  intros Hfind Hst Hstart now.
  pose proof (find_one_date _ _ _ Hfind) as Hdate.
  split; intros Hcmp;
    unfold should_process_batch, bind at 1;
    unfold get_or_create_batch_state; rewrite Hfind;
    unfold BatchState_of_doc, bind, utcnow, ret; simpl;
    rewrite Hst, Hstart; simpl; fold now;
    match goal with
    | |- context [if ?c then _ else _] => destruct c eqn:E
    end;
    try (apply Z.ltb_ge in E;
         cbv beta delta [td_hours microseconds_per_hour] in *; lia);
    try (apply Z.ltb_lt in E;
         cbv beta delta [td_hours microseconds_per_hour] in *; lia).
  - clear E.
    unfold update_batch_state, bind, utcnow, ret. simpl.
    rewrite Hdate, Hfind, Hst. simpl.
    eexists. eexists. split; [reflexivity |]. simpl.
    split.
    + rewrite <- Hdate at 1.
      exact (find_one_update_one
               (with_updated_at (clock env (S (S (reads w))))
                  (with_previous_status (Some BatchStatus.RUNNING)
                     (with_error_message
                        (Some (StuckInRunning (now - started)%Z))
                        (with_status BatchStatus.FAILED
                           (with_updated_at (clock env (reads w)) doc)))))
               (batch_states w)).
    + simpl. repeat split; try reflexivity. lia.
  - clear E.
    eexists. split; reflexivity.
Qed.

Lemma stuck_running_is_failed_first_witness :
  fst (should_process_batch
         (example_env (midnight 20001 + td_hours 3)%Z [] EvaluationStatus.PASS
            None)
         (midnight 20000)
         (world_of [stored (midnight 20000) BatchStatus.RUNNING 0
                      (Some (midnight 20001))]))
  = Returned (true, WasStuck).
Proof.
  assert (Hcmp :
    (td_hours 2
     < clock (example_env (midnight 20001 + td_hours 3)%Z []
                EvaluationStatus.PASS None)
         (S (reads (world_of [stored (midnight 20000) BatchStatus.RUNNING 0
                                (Some (midnight 20001))])))
       - midnight 20001)%Z) by (vm_compute; reflexivity).
  destruct (proj1 (stuck_running_is_failed_first
                     (example_env (midnight 20001 + td_hours 3)%Z []
                        EvaluationStatus.PASS None)
                     (midnight 20000)
                     (world_of [stored (midnight 20000) BatchStatus.RUNNING 0
                                  (Some (midnight 20001))])
                     (stored (midnight 20000) BatchStatus.RUNNING 0
                        (Some (midnight 20001)))
                     (midnight 20001) eq_refl eq_refl eq_refl) Hcmp)
    as (w' & doc' & Heq & _).
  rewrite Heq. reflexivity.
Defined.

(** ** Building blocks of the orchestrator *)

Lemma can_retry_returns (env : Env) (s : BatchState) (w : World) :
  exists b w', can_retry env s w = (Returned b, w') /\ only_clock_read w w'.
Proof.
  unfold can_retry, only_clock_read.
  destruct (max_retries s <=? retry_count s).
  - repeat eexists.
  - destruct (retry_after s) as [after|].
    + unfold bind, utcnow, ret.
      destruct (clock env (reads w) <? after)%Z; repeat eexists.
    + repeat eexists.
Qed.

Ltac name_can_retry env b w' H Hsame :=
  match goal with
  | |- context [can_retry env ?s ?w] =>
      destruct (can_retry_returns env s w) as (b & w' & H & Hsame);
      rewrite H
  end.

Lemma update_batch_state_spec (env : Env) (s : BatchState) (w : World) :
  exists s' w',
    update_batch_state env s w = (Returned (s', tt), w')
    /\ find_one (batch_date s) (batch_states w') = Some s'
    /\ same_but_audit s s'
    /\ updated_at s' = clock env (reads w)
    /\ outbox w' = outbox w /\ saved_results w' = saved_results w
    /\ runs w' = runs w /\ reads w' = S (reads w).
Proof.
  unfold update_batch_state, bind, utcnow, ret, same_but_audit.
  destruct (find_one (batch_date s) (batch_states w)) as [cur|];
    [destruct (BatchStatus.eqb (status cur) (status s)) |];
    simpl;
    (eexists; eexists; split; [reflexivity |]; split;
     [ simpl;
       match goal with
       | |- find_one _ (update_one ?doc _) = _ =>
           exact (find_one_update_one doc (batch_states w))
       end
     | simpl; repeat split ]).
Qed.

Lemma substring_length_le (n : nat) (s : string) :
  String.length (substring 0 n s) <= n.
Proof.
  revert s. induction n as [|n IH]; intros s.
  - destruct s; simpl; lia.
  - destruct s as [|c s]; simpl; [lia |]. specialize (IH s). lia.
Qed.

Lemma on_failure_spec (env : Env) (d : datetime) (e : PyException)
    (s1 : BatchState) (w1 : World) :
  exists s2 w2 sE wE can wC will_retry,
    on_failure env d e (mkFrame s1 w1) = (Returned false, mkFrame s2 w2)
    /\ set_error env e s1 w1 = (Returned (sE, tt), wE)
    /\ can_retry env sE wE = (Returned can, wC)
    /\ batch_date s2 = batch_date s1
    /\ status s2 = BatchStatus.FAILED
    /\ error_message s2
       = Some (ExceptionText (substring 0 5000 (exc_str e)))
    /\ error_type s2 = Some (exc_name e)
    /\ failed_at s2 = Some (clock env (reads w1))
    /\ retry_count s2 = retry_count s1
    /\ retry_after s2
       = (if can
          then Some (clock env (reads wC)
                     + td_minutes (Z.of_nat (delay_minutes (retry_count s1))))%Z
          else retry_after s1)
    /\ batch_states w2 = batch_states w1
    /\ outbox w2
       = (outbox w1
          ++ [mkEmail (BatchFailed d will_retry) high
                (provider_accepts env (BatchFailed d will_retry) high)])%list.
Proof.
  unfold on_failure, call, bind, get_state, put_state, lift, set_error,
    bind, utcnow, ret, assign, bind, get_state, put_state,
    _send_batch_failure_alert, send_alert, _send_with_fallback,
    bind, utcnow, ret. simpl.
  name_can_retry env can wC Hcan Hsame. simpl.
  destruct Hsame as (Hd & Ho & _ & _).
  destruct can; simpl;
    name_can_retry env will wA Hwill HsameA; simpl;
    destruct HsameA as (HdA & HoA & _ & _); simpl in *;
    do 7 eapply ex_intro;
    (split; [reflexivity |]); (split; [reflexivity |]);
    (split; [exact Hcan |]);
    simpl; rewrite HdA, HoA, Hd, Ho; simpl;
    repeat (split; [reflexivity |]); reflexivity.
Qed.

(** ** Failure handling of the orchestrator *)



(** ** Uniqueness of the record of a day *)

Lemma with_updated_at_same (s : BatchState) :
  with_updated_at (updated_at s) s = s.
Proof. destruct s. reflexivity. Qed.

Lemma find_one_app (d : datetime) (docs : list BatchState)
    (doc x : BatchState) :
  find_one d docs = Some doc -> find_one d (docs ++ [x]) = Some doc.
Proof.
  unfold find_one. induction docs as [|y rest IH]; simpl; [discriminate |].
  destruct (same_date d y); [trivial | exact IH].
Qed.

Lemma existsb_same_date_false (d : datetime) (docs : list BatchState) :
  existsb (same_date d) docs = false -> ~ In d (map batch_date docs).
Proof.
  induction docs as [|y rest IH]; simpl; [tauto |].
  intros H. apply orb_false_iff in H. destruct H as [H1 H2].
  intros [Heq | Hin]; [| exact (IH H2 Hin)].
  unfold same_date in H1. apply Z.eqb_neq in H1. congruence.
Qed.

Lemma existsb_same_date_true (d : datetime) (docs : list BatchState) :
  existsb (same_date d) docs = true ->
  exists doc, find_one d docs = Some doc.
Proof.
  unfold find_one. induction docs as [|y rest IH]; simpl; [discriminate |].
  destruct (same_date d y); [eauto | exact IH].
Qed.

Lemma NoDup_snoc (A : Type) (a : A) (l : list A) :
  NoDup l -> ~ In a l -> NoDup (l ++ [a]).
Proof.
  induction l as [|b l IH]; simpl; intros Hn Hin.
  - constructor; [tauto | constructor].
  - inversion Hn as [|? ? Hb Hl]; subst. constructor.
    + rewrite in_app_iff. simpl. intros [H | [H | []]]; [tauto |].
      apply Hin. now left.
    + apply IH; [assumption | tauto].
Qed.

Lemma find_one_snoc_new (x : BatchState) (docs : list BatchState) :
  existsb (same_date (batch_date x)) docs = false ->
  find_one (batch_date x) (docs ++ [x]) = Some x.
Proof.
  unfold find_one. induction docs as [|y rest IH]; simpl.
  - intros _. unfold same_date. now rewrite Z.eqb_refl.
  - intros H. apply orb_false_iff in H. destruct H as [H1 H2].
    rewrite H1. exact (IH H2).
Qed.

Lemma insert_one_unique (x : BatchState) (docs docs' : list BatchState) :
  Race.unique_dates docs -> insert_one x docs = Some docs' ->
  Race.unique_dates docs' /\ Race.grows docs docs'
  /\ find_one (batch_date x) docs' = Some x.
Proof.
  unfold Race.unique_dates, insert_one. intros Hu H.
  destruct (existsb (same_date (batch_date x)) docs) eqn:E; [discriminate |].
  injection H as <-.
  split; [| split].
  - rewrite map_app. simpl.
    apply NoDup_snoc; [exact Hu | now apply existsb_same_date_false].
  - intros d doc Hf. now apply find_one_app.
  - now apply find_one_snoc_new.
Qed.

Lemma insert_one_conflict (x : BatchState) (docs : list BatchState) :
  insert_one x docs = None ->
  exists doc, find_one (batch_date x) docs = Some doc.
Proof.
  unfold insert_one.
  destruct (existsb (same_date (batch_date x)) docs) eqn:E; [| discriminate].
  intros _. now apply existsb_same_date_true.
Qed.

Lemma grows_refl (docs : list BatchState) : Race.grows docs docs.
Proof. intros d doc H. exact H. Qed.

Lemma caller_ok_grows (docs docs' : list BatchState) (d : datetime)
    (c : Race.Caller) :
  Race.grows docs docs' -> Race.caller_ok docs d c ->
  Race.caller_ok docs' d c.
Proof.
  intros Hg. destruct c as [d' | st | d' | r]; simpl; try tauto.
  - intros [Hd [doc Hf]]. split; [exact Hd | exists doc; now apply Hg].
  - intros (s & doc & Hr & Hf & Hs). exists s, doc.
    split; [exact Hr | split; [now apply Hg | exact Hs]].
Qed.

(** One transition of one caller keeps the index unique, only adds
    records, and keeps the caller on track. *)
Lemma step_preserves (env : Env) (d : datetime) (c c' : Race.Caller)
    (w w' : World) :
  Race.unique_dates (batch_states w) ->
  Race.caller_ok (batch_states w) d c ->
  Race.step env c w = (c', w') ->
  Race.unique_dates (batch_states w')
  /\ Race.grows (batch_states w) (batch_states w')
  /\ Race.caller_ok (batch_states w') d c'.
Proof.
  intros Hu Hok Hstep.
  destruct c as [d' | st | d' | r]; simpl in Hok, Hstep.
  - subst d'.
    destruct (find_one (start_of_day d) (batch_states w)) as [doc|] eqn:Hf.
    + unfold BatchState_of_doc, bind, utcnow, ret in Hstep. simpl in Hstep.
      injection Hstep as <- <-. simpl.
      split; [exact Hu | split; [apply grows_refl |]].
      exists (with_updated_at (clock env (reads w)) doc), doc.
      split; [reflexivity | split; [exact Hf | reflexivity]].
    + injection Hstep as <- <-. simpl.
      split; [exact Hu | split; [apply grows_refl |]].
      unfold default_BatchState. simpl. apply start_of_day_idempotent.
  - destruct (insert_one st (batch_states w)) as [docs|] eqn:Hi.
    + injection Hstep as <- <-. simpl.
      destruct (insert_one_unique _ _ _ Hu Hi) as (Hu' & Hg & Hnew).
      split; [exact Hu' | split; [exact Hg |]].
      exists st, st. rewrite <- Hok.
      split; [reflexivity | split; [exact Hnew | apply with_updated_at_same]].
    + injection Hstep as <- <-. simpl.
      split; [exact Hu | split; [apply grows_refl |]].
      split; [exact Hok | now apply insert_one_conflict].
  - destruct Hok as [-> [doc Hf]]. rewrite Hf in Hstep.
    unfold BatchState_of_doc, bind, utcnow, ret in Hstep. simpl in Hstep.
    injection Hstep as <- <-. simpl.
    split; [exact Hu | split; [apply grows_refl |]].
    exists (with_updated_at (clock env (reads w)) doc), doc.
    split; [reflexivity | split; [exact Hf | reflexivity]].
  - injection Hstep as <- <-.
    split; [exact Hu | split; [apply grows_refl | exact Hok]].
Qed.

Lemma step_nth_preserves (env : Env) (i : nat) (days : list datetime)
    (callers callers' : list Race.Caller) (w w' : World) :
  Race.unique_dates (batch_states w) ->
  Forall2 (Race.caller_ok (batch_states w)) days callers ->
  Race.step_nth env i callers w = (callers', w') ->
  Race.unique_dates (batch_states w')
  /\ Race.grows (batch_states w) (batch_states w')
  /\ Forall2 (Race.caller_ok (batch_states w')) days callers'.
Proof.
  intros Hu Hall. revert i callers' w'.
  induction Hall as [|d c days callers Hc Hall IH]; intros i callers' w' Hstep.
  - destruct i; simpl in Hstep; injection Hstep as <- <-;
      (split; [exact Hu | split; [apply grows_refl | constructor]]).
  - destruct i as [|i]; simpl in Hstep.
    + destruct (Race.step env c w) as [c1 w1] eqn:Hs.
      injection Hstep as <- <-.
      destruct (step_preserves env d c c1 w w1 Hu Hc Hs) as (Hu' & Hg & Hc').
      split; [exact Hu' | split; [exact Hg |]].
      constructor; [exact Hc' |].
      eapply Forall2_impl; [| exact Hall].
      intros d0 c0. now apply caller_ok_grows.
    + destruct (Race.step_nth env i callers w) as [rest1 w1] eqn:Hs.
      injection Hstep as <- <-.
      destruct (IH i rest1 w1 Hs) as (Hu' & Hg & Hrest).
      split; [exact Hu' | split; [exact Hg |]].
      constructor; [now apply caller_ok_grows with (docs := batch_states w) |].
      exact Hrest.
Qed.

Lemma run_preserves (env : Env) (schedule : list nat)
    (days : list datetime) (callers callers' : list Race.Caller)
    (w w' : World) :
  Race.unique_dates (batch_states w) ->
  Forall2 (Race.caller_ok (batch_states w)) days callers ->
  Race.run env schedule callers w = (callers', w') ->
  Race.unique_dates (batch_states w')
  /\ Forall2 (Race.caller_ok (batch_states w')) days callers'.
Proof.
  revert callers w. induction schedule as [|i schedule IH];
    intros callers w Hu Hall Hrun; simpl in Hrun.
  - injection Hrun as <- <-. split; assumption.
  - destruct (Race.step_nth env i callers w) as [callers1 w1] eqn:Hs.
    destruct (step_nth_preserves env i days callers callers1 w w1 Hu Hall Hs)
      as (Hu1 & _ & Hall1).
    exact (IH callers1 w1 Hu1 Hall1 Hrun).
Qed.

Lemma unique_record_count (d : datetime) (docs : list BatchState)
    (doc : BatchState) :
  Race.unique_dates docs -> find_one d docs = Some doc ->
  Race.records_for d docs = 1.
Proof.
  unfold Race.unique_dates, Race.records_for, find_one.
  induction docs as [|y rest IH]; simpl; [discriminate |].
  intros Hu Hf. inversion Hu as [|? ? Hnot Hrest]; subst.
  destruct (same_date d y) eqn:E.
  - simpl. f_equal.
    unfold same_date in E. apply Z.eqb_eq in E. subst d.
    clear - Hnot. induction rest as [|z rest IH]; simpl; [reflexivity |].
    destruct (same_date (batch_date y) z) eqn:Ez.
    + exfalso. apply Hnot. left. unfold same_date in Ez.
      now apply Z.eqb_eq in Ez.
    + apply IH. intros Hin. apply Hnot. now right.
  - now apply IH.
Qed.

Lemma Forall2_nth_error (A B : Type) (R : A -> B -> Prop) (l : list A)
    (l' : list B) (i : nat) (a : A) (b : B) :
  Forall2 R l l' -> nth_error l i = Some a -> nth_error l' i = Some b ->
  R a b.
Proof.
  intros H. revert i. induction H as [|x y l l' Hxy H IH]; intros i Ha Hb.
  - destruct i; discriminate.
  - destruct i as [|i]; simpl in Ha, Hb.
    + injection Ha as <-. injection Hb as <-. exact Hxy.
    + exact (IH i Ha Hb).
Qed.

(** [get_or_create_batch_state] is the caller automaton run alone: three
    transitions from [Start] reach [Done] with the function's outcome and
    world. *)
Lemma get_or_create_as_steps (env : Env) (d : datetime) (w : World) :
  Race.run env [0; 0; 0] [Race.Start d] w
  = ([Race.Done (fst (get_or_create_batch_state env d w))],
     snd (get_or_create_batch_state env d w)).
Proof.
  unfold get_or_create_batch_state, Race.run, Race.step_nth, Race.step.
  destruct (find_one (start_of_day d) (batch_states w)) as [doc|] eqn:Hf.
  - unfold BatchState_of_doc, bind, utcnow, ret. simpl. reflexivity.
  - unfold bind, utcnow, ret. simpl.
    destruct (insert_one _ (batch_states w)) as [docs|] eqn:Hi; simpl.
    + reflexivity.
    + rewrite start_of_day_idempotent, Hf. reflexivity.
Qed.

(** C6. Start any number of [get_or_create_batch_state] calls, for any
    days, on a collection whose unique index holds, and let their database
    operations interleave in any order.  Then the index still holds (no
    day ever has two records), and every call that has finished returned
    the record stored for its normalized day, of which there is exactly
    one.  An insert that hits the unique-key conflict adds nothing to the
    collection: the caller re-reads and returns the record that is
    there. *)
Theorem get_or_create_converges_on_one_record (env : Env)
    (schedule : list nat) (days : list datetime) (w w' : World)
    (callers' : list Race.Caller) :
  Race.unique_dates (batch_states w) ->
  Race.run env schedule (map Race.Start days) w = (callers', w') ->
  Race.unique_dates (batch_states w')
  /\ (forall (i : nat) (d : datetime) (r : Outcome BatchState),
        nth_error days i = Some d ->
        nth_error callers' i = Some (Race.Done r) ->
        exists s doc,
          r = Returned s
          /\ batch_date s = start_of_day d
          /\ find_one (start_of_day d) (batch_states w') = Some doc
          /\ with_updated_at (updated_at s) doc = s
          /\ Race.records_for (start_of_day d) (batch_states w') = 1)
  /\ (forall (st : BatchState) (w1 : World),
        insert_one st (batch_states w1) = None ->
        Race.step env (Race.Creating st) w1
        = (Race.Rereading (batch_date st), w1)
        /\ exists doc,
             find_one (batch_date st) (batch_states w1) = Some doc
             /\ Race.step env (Race.Rereading (batch_date st)) w1
                = (Race.Done
                     (Returned (with_updated_at (clock env (reads w1)) doc)),
                   with_reads (S (reads w1)) w1)).
Proof.
  intros Hu Hrun.
  assert (Hinit :
    Forall2 (Race.caller_ok (batch_states w)) days (map Race.Start days)).
  { clear. induction days as [|d days IH]; simpl; constructor;
      [reflexivity | exact IH]. }
  destruct (run_preserves env schedule days _ callers' w w' Hu Hinit Hrun)
    as (Hu' & Hall').
  split; [exact Hu' | split].
  - intros i d r Hd Hc.
    pose proof (Forall2_nth_error _ _ _ _ _ i d (Race.Done r) Hall' Hd Hc)
      as (s & doc & Hr & Hf & Hs).
    exists s, doc.
    split; [exact Hr |]. split.
    + rewrite <- Hs. simpl. now apply find_one_date in Hf.
    + split; [exact Hf | split; [exact Hs |]].
      now apply unique_record_count with (doc := doc).
  - intros st w1 Hi. simpl. rewrite Hi. split; [reflexivity |].
    destruct (insert_one_conflict _ _ Hi) as [doc Hf].
    exists doc. split; [exact Hf |]. rewrite Hf.
    unfold BatchState_of_doc, bind, utcnow, ret. reflexivity.
Qed.

Lemma get_or_create_converges_on_one_record_witness :
  Race.records_for (midnight 20000)
    (batch_states
       (snd (Race.run
               (example_env (midnight 20001) [] EvaluationStatus.PASS None)
               [0; 1; 0; 1; 1]
               (map Race.Start [midnight 20000; (midnight 20000 + 5)%Z])
               empty_world)))
  = 1.
Proof.
  edestruct (get_or_create_converges_on_one_record
               (example_env (midnight 20001) [] EvaluationStatus.PASS None)
               [0; 1; 0; 1; 1] [midnight 20000; (midnight 20000 + 5)%Z]
               empty_world)
    as (_ & Hdone & _).
  - constructor.
  - vm_compute. reflexivity.
  - edestruct (Hdone 1 (midnight 20000 + 5)%Z)
      as (s & doc & _ & _ & _ & _ & Hone).
    + reflexivity.
    + vm_compute. reflexivity.
    + exact Hone.
Defined.

(** ** Where the code departs from its specification *)

(** The scan selects a RUNNING day that has been running for more than
    two hours. *)
Lemma stuck_day_is_selected (env : Env) (d : datetime) (w : World)
    (doc : BatchState) (started : datetime) :
  find_one (start_of_day d) (batch_states w) = Some doc ->
  status doc = BatchStatus.RUNNING ->
  started_at doc = Some started ->
  (td_hours 2 < clock env (S (reads w)) - started)%Z ->
  fst (needs_evaluation env d w) = Returned true.
Proof.
  intros Hfind Hst Hstart Hstuck.
  unfold needs_evaluation, bind, get_or_create_batch_state. rewrite Hfind.
  unfold BatchState_of_doc, bind, utcnow, ret.
  cbn [status started_at with_updated_at reads with_reads fst snd].
  rewrite Hst, Hstart. cbn [fst reads with_reads].
  apply Z.ltb_lt in Hstuck. rewrite Hstuck. reflexivity.
Qed.

(** [_recover_single_batch] never enters the orchestrator for a day
    stored as RUNNING, stuck or not: it sends the "max retries" alert and
    returns false. *)
Lemma running_day_is_refused (env : Env) (d : datetime) (w : World)
    (doc : BatchState) :
  find_one (start_of_day d) (batch_states w) = Some doc ->
  status doc = BatchStatus.RUNNING ->
  exists w',
    _recover_single_batch env d w = (Returned false, w')
    /\ runs w' = runs w
    /\ batch_states w' = batch_states w
    /\ outbox w'
       = (outbox w
          ++ [mkEmail (MaxRetryAlert d) critical
                (provider_accepts env (MaxRetryAlert d) critical)])%list.
Proof.
  intros Hfind Hst.
  unfold _recover_single_batch, try_except, bind at 1, utcnow.
  unfold bind at 1. unfold get_or_create_batch_state.
  cbn [batch_states with_reads]. rewrite Hfind.
  unfold BatchState_of_doc, bind at 1, utcnow, ret.
  cbn [status with_updated_at BatchStatus.eqb]. rewrite Hst.
  cbn [BatchStatus.eqb]. unfold bind at 1.
  match goal with
  | |- context [can_retry env ?s ?w0] =>
      destruct (can_retry_returns env s w0) as (b & w1 & Hcr & Hsame);
      destruct (can_retry_running env s w0 Hst) as (w2 & Hcr' & _)
  end.
  rewrite Hcr' in Hcr. injection Hcr as <- <-. rewrite Hcr'.
  cbn [negb]. unfold _send_max_retry_alert, send_alert, _send_with_fallback,
    bind, ret.
  destruct Hsame as (Hd & Ho & _ & Hr).
  eexists. split; [reflexivity |].
  cbn [runs batch_states outbox with_outbox].
  rewrite Hd, Ho, Hr. cbn. repeat split.
Qed.

(** [update_batch_state] records the stored status as [previous_status]
    when it differs from the new one. *)
Lemma update_batch_state_previous (env : Env) (s cur : BatchState)
    (w : World) :
  find_one (batch_date s) (batch_states w) = Some cur ->
  BatchStatus.eqb (status cur) (status s) = false ->
  update_batch_state env s w
  = (Returned
       (with_updated_at (clock env (reads w))
          (with_previous_status (Some (status cur)) s), tt),
     with_batch_states
       (update_one
          (with_updated_at (clock env (reads w))
             (with_previous_status (Some (status cur)) s))
          (batch_states w))
       (with_reads (S (reads w)) w)).
Proof.
  intros Hf He. unfold update_batch_state, bind, utcnow, ret.
  rewrite Hf, He. reflexivity.
Qed.

(** Every run whose fetch returns no pair ends with the day stored as
    COMPLETED, SKIPPED being its previous status. *)
Lemma empty_fetch_ends_completed (env : Env) (d : datetime)
    (w w0 w1 : World) (s0 : BatchState) (reason : Reason) (f0 : Frame) :
  get_or_create_batch_state env (start_of_day d)
    (with_runs (runs w ++ [start_of_day d])%list w) = (Returned s0, w0) ->
  should_process_batch env (start_of_day d) w0
  = (Returned (true, reason), w1) ->
  mark_running env (mkFrame s0 w1) = (Returned tt, f0) ->
  aggregate env (start_of_day d) (start_of_day d + td_days 1)%Z
  = Returned [] ->
  exists w' s',
    run_daily_evaluation env d w = (Returned true, w')
    /\ find_one (batch_date (state f0)) (batch_states w') = Some s'
    /\ status s' = BatchStatus.COMPLETED
    /\ previous_status s' = Some BatchStatus.SKIPPED
    /\ saved_results w' = saved_results (world f0)
    /\ outbox w'
       = (outbox (world f0)
          ++ [mkEmail (NoDataFound (start_of_day d)) low
                (provider_accepts env (NoDataFound (start_of_day d)) low)])%list.
Proof.
  intros Hget Hdecide Hmark Hagg. destruct f0 as [sa wa].
  unfold run_daily_evaluation, bind, enter. rewrite Hget, Hdecide.
  cbv beta iota delta [negb].
  unfold with_local, bind. rewrite Hmark.
  unfold attempt, try_finally, try_except, bind.
  unfold _execute_evaluation_pipeline, bind, lift, get_unevaluated_pairs,
    utcnow, ret, assign, call, bind, get_state, put_state, lift, ret.
  cbn [state world fst snd reads with_reads]. rewrite Hagg.
  cbn [state world fst snd reads with_reads].
  match goal with
  | |- context [update_batch_state env ?s ?w0] =>
      destruct (update_batch_state_spec env s w0)
        as (sc & wu & Hupd & Hfind & Hsame & _ & Hout & Hsaved & _ & Hreads);
      rewrite Hupd
  end.
  destruct Hsame as (Hdate & Hst & _).
  cbn [state world fst snd status batch_date with_status with_completed_at
       with_batch_id with_processed_pairs with_total_pairs] in Hdate, Hst, Hfind.
  unfold _send_empty_batch_notification, send_alert, _send_with_fallback,
    bind, ret.
  cbn [state world fst snd reads with_reads with_outbox batch_states outbox].
  rewrite update_batch_state_previous with (cur := sc).
  - eexists. eexists. split; [reflexivity |].
    cbn [world state batch_states with_batch_states with_reads with_outbox
         saved_results outbox fst snd status previous_status
         with_updated_at with_previous_status with_status with_completed_at].
    rewrite Hst.
    split.
    + rewrite <- Hdate.
      match goal with
      | |- find_one _ (update_one ?doc _) = _ =>
          exact (find_one_update_one doc (batch_states wu))
      end.
    + rewrite Hsaved, Hout. repeat split.
  - cbn [batch_date with_completed_at with_status batch_states with_outbox
         with_reads]. rewrite Hdate. exact Hfind.
  - cbn [status with_completed_at with_status]. rewrite Hst. reflexivity.
Qed.

(** [evaluate_batch] always returns, and touches only the clock. *)
Lemma evaluate_batch_returns (env : Env)
    (pairs : list TranscriptSummaryPair.t) (w : World) :
  exists results batch w',
    evaluate_batch env pairs w = (Returned (results, batch), w')
    /\ batch_states w' = batch_states w /\ outbox w' = outbox w
    /\ saved_results w' = saved_results w.
Proof.
  unfold evaluate_batch, _calculate_batch_statistics, bind, utcnow, ret.
  destruct (List.length _ =? 0); repeat eexists.
Qed.

(** Whenever the pairs are fetched, saved and reported on and the
    accuracy is not below the threshold, the pipeline sends no email, leaves
    [email_sent] as it was and raises [UnboundLocalError]. *)
Lemma pipeline_above_threshold_raises (env : Env) (d : datetime)
    (f0 : Frame) (p : TranscriptSummaryPair.t)
    (ps : list TranscriptSummaryPair.t) (path : string) :
  aggregate env d (d + td_days 1)%Z = Returned (p :: ps) ->
  (forall results batch, save_failure env results batch = None) ->
  (forall batch results, excel_report env batch results = Returned path) ->
  (forall w results batch w',
     evaluate_batch env (p :: ps) w = (Returned (results, batch), w') ->
     Qlt_bool (BatchEvaluation.accuracy batch) (ACCURACY_THRESHOLD env)
     = false) ->
  exists f1,
    _execute_evaluation_pipeline env d f0
    = (Raised (UnboundLocalError "email_duration"), f1)
    /\ outbox (world f1) = outbox (world f0)
    /\ email_sent (state f1) = email_sent (state f0)
    /\ report_generated (state f1) = true.
Proof.
  intros Hagg Hsave Hreport Habove. destruct f0 as [sa wa].
  unfold _execute_evaluation_pipeline, bind, lift, get_unevaluated_pairs,
    save_evaluation_results, generate_excel_report,
    utcnow, ret, assign, call, bind, get_state, put_state, lift, ret, raise.
  cbn [state world fst snd reads with_reads]. rewrite Hagg.
  cbn [state world fst snd reads with_reads].
  match goal with
  | |- context [update_batch_state env ?s ?w0] =>
      destruct (update_batch_state_spec env s w0)
        as (s1 & w1 & Hupd1 & _ & Hsame1 & _ & Hout1 & _ & _ & _);
      rewrite Hupd1
  end.
  cbn [state world fst snd reads with_reads].
  match goal with
  | |- context [evaluate_batch env ?l ?w0] =>
      destruct (evaluate_batch_returns env l w0)
        as (results & batch & we & Hev & _ & Houte & _);
      rewrite Hev; pose proof (Habove _ _ _ _ Hev) as Hacc
  end.
  cbn [state world fst snd reads with_reads].
  match goal with
  | |- context [update_batch_state env ?s ?w0] =>
      destruct (update_batch_state_spec env s w0)
        as (s2 & w2 & Hupd2 & _ & Hsame2 & _ & Hout2 & _ & _ & _);
      rewrite Hupd2
  end.
  cbn [state world fst snd reads with_reads]. rewrite Hsave.
  cbn [state world fst snd reads with_reads with_saved_results]. rewrite Hreport.
  cbn [state world fst snd reads with_reads].
  match goal with
  | |- context [update_batch_state env ?s ?w0] =>
      destruct (update_batch_state_spec env s w0)
        as (s3 & w3 & Hupd3 & _ & Hsame3 & _ & Hout3 & _ & _ & _);
      rewrite Hupd3
  end.
  cbn [state world fst snd reads with_reads]. rewrite Hacc.
  cbn [state world fst snd reads with_reads].
  eexists. split; [reflexivity |].
  cbn [state world outbox with_reads with_saved_results] in *.
  destruct Hsame1 as (_ & _ & _ & _ & _ & _ & _ & _ & _ & _ & He1 & _ & _).
  destruct Hsame2 as (_ & _ & _ & _ & _ & _ & _ & _ & _ & _ & He2 & _ & _).
  destruct Hsame3 as (_ & _ & _ & _ & _ & _ & _ & _ & _ & _ & He3 & _ & Hg3).
  cbn in He1, He2, He3, Hg3.
  split; [congruence |]. split; [congruence | exact Hg3].
Qed.

(** The validator recomputes the accuracy over all evaluations. *)
Lemma accuracy_is_passed_over_total (env : Env)
    (results : list EvaluationResult.t) (id : BatchId) (t : timedelta)
    (w : World) :
  results <> [] ->
  exists b w',
    _calculate_batch_statistics env results id t w = (Returned b, w')
    /\ BatchEvaluation.accuracy b
       = py_round
           (true_div (count_status EvaluationStatus.PASS results)
              (List.length results)) 4.
Proof.
  intros Hne. unfold _calculate_batch_statistics.
  destruct results as [|r rest]; [congruence |].
  cbn [List.length Nat.eqb]. unfold bind, utcnow, ret.
  eexists. eexists. split; [reflexivity |]. reflexivity.
Qed.

(** C4 (the code departs from the claim).  On 80 passes, 15 failures and
    5 errors [_calculate_batch_statistics] computes 80/95, but the
    [accuracy] validator of [BatchEvaluation] replaces it by
    [round(passed / total_evaluations, 4)], so the recorded accuracy is
    0.8 and not 0.8421 (which is what [round(80/95, 4)] would give): the
    errors are counted in the denominator. *)
Theorem accuracy_counts_errors_in_denominator :
  let env := example_env (midnight 20001) [] EvaluationStatus.PASS None in
  let b :=
    fst (_calculate_batch_statistics env hundred_results
           (UuidBatchId "0a1b2c3d") 0%Z empty_world) in
  py_round (true_div 80 (80 + 15)) 4 = (8421 # 10000)%Q
  /\ exists batch,
       b = Returned batch
       /\ BatchEvaluation.total_evaluations batch = 100
       /\ BatchEvaluation.passed batch = 80
       /\ BatchEvaluation.failed batch = 15
       /\ BatchEvaluation.errors batch = 5
       /\ BatchEvaluation.accuracy batch = (8000 # 10000)%Q
       /\ ~ (BatchEvaluation.accuracy batch == 8421 # 10000)%Q.
Proof.
  split; [vm_compute; reflexivity |].
  eexists. split; [vm_compute; reflexivity |].
  cbn [BatchEvaluation.total_evaluations BatchEvaluation.passed
       BatchEvaluation.failed BatchEvaluation.errors
       BatchEvaluation.accuracy].
  repeat (split; [reflexivity |]).
  unfold Qeq. simpl. discriminate.
Qed.

(** The transition to RUNNING never increments the retry count: the
    status is overwritten before it is compared with FAILED. *)
Lemma mark_running_keeps_retry_count (env : Env) (s0 : BatchState)
    (w1 : World) :
  exists f0,
    mark_running env (mkFrame s0 w1) = (Returned tt, f0)
    /\ status (state f0) = BatchStatus.RUNNING
    /\ retry_count (state f0) = retry_count s0
    /\ last_retry_at (state f0) = last_retry_at s0
    /\ find_one (batch_date s0) (batch_states (world f0)) = Some (state f0).
Proof.
  unfold mark_running, assign, call, bind, get_state, put_state, lift,
    utcnow, ret.
  cbn [state world fst snd status with_status with_started_at
       BatchStatus.eqb].
  destruct (update_batch_state_spec env
              (with_started_at (Some (clock env (reads w1)))
                 (with_status BatchStatus.RUNNING s0))
              (with_reads (S (reads w1)) w1))
    as (s' & w' & Hupd & Hfind & Hsame & _).
  rewrite Hupd. cbn [fst snd].
  eexists. split; [reflexivity |]. cbn [state world].
  destruct Hsame as (_ & Hst & Hrc & _).
  split; [exact Hst |]. split; [exact Hrc |].
  split; [| exact Hfind].
  unfold update_batch_state, bind, utcnow, ret in Hupd.
  destruct (find_one _ _) as [cur|] in Hupd;
    [destruct (BatchStatus.eqb _ _) in Hupd |];
    injection Hupd as <- _; reflexivity.
Qed.





(** * Further properties of the modelled code *)

(** ** Statuses *)

(** X1. No status is both terminal and retryable, and RUNNING is the only
    status that is neither: a day that is COMPLETED, SKIPPED or CANCELLED
    can never pass [can_retry]. *)
Theorem terminal_statuses_are_never_retried (s : BatchStatus.t) :
  BatchStatus.is_terminal s && BatchStatus.can_retry s = false
  /\ negb (BatchStatus.is_terminal s) && negb (BatchStatus.can_retry s)
     = BatchStatus.eqb s BatchStatus.RUNNING.
Proof. destruct s; split; reflexivity. Qed.

(** ** Retries over time *)

(** X2. Under a clock that never runs backwards, a state that passes
    [can_retry] keeps passing it at every later reading: once the retry
    delay has elapsed it stays elapsed. *)
Theorem can_retry_persists (env : Env) (s : BatchState) (w w' : World) :
  (forall n m : nat, n <= m -> (clock env n <= clock env m)%Z) ->
  reads w <= reads w' ->
  fst (can_retry env s w) = Returned true ->
  fst (can_retry env s w') = Returned true.
Proof.
  intros Hmono Hlater. unfold can_retry.
  destruct (max_retries s <=? retry_count s); [trivial |].
  destruct (retry_after s) as [after|]; [| trivial].
  unfold bind, utcnow, ret.
  destruct (clock env (reads w) <? after)%Z eqn:E; [discriminate |].
  intros Hok. apply Z.ltb_ge in E.
  pose proof (Hmono _ _ Hlater) as Hle.
  destruct (clock env (reads w') <? after)%Z eqn:E'; [| exact Hok].
  apply Z.ltb_lt in E'. lia.
Qed.

Lemma can_retry_persists_witness :
  fst (can_retry (example_env (midnight 20001) [] EvaluationStatus.PASS None)
         (with_retry_after (Some (midnight 20001))
            (stored (midnight 20000) BatchStatus.FAILED 1 None))
         (with_reads 7 empty_world))
  = Returned true.
Proof.
  apply (can_retry_persists
           (example_env (midnight 20001) [] EvaluationStatus.PASS None)
           (with_retry_after (Some (midnight 20001))
              (stored (midnight 20000) BatchStatus.FAILED 1 None))
           empty_world (with_reads 7 empty_world)).
  - intros n m Hnm. unfold example_env, ticking, clock. lia.
  - simpl. lia.
  - vm_compute. reflexivity.
Defined.
(** ** Rounding stays within integer bounds *)

Lemma round_half_even_between (q : Q) (a b : Z) :
  (inject_Z a <= q)%Q -> (q <= inject_Z b)%Q ->
  (a <= round_half_even q <= b)%Z.
Proof.
  destruct q as [n d]. unfold Qle, inject_Z, round_half_even.
  cbn [Qnum Qden]. rewrite !Z.mul_1_r. intros Ha Hb.
  assert (Hd : (0 < Z.pos d)%Z) by reflexivity.
  pose proof (Z.div_mod n (Z.pos d)) as Hdm.
  pose proof (Z.mod_pos_bound n (Z.pos d) Hd) as Hr.
  assert (Hdm' : (n = Z.pos d * (n / Z.pos d) + n mod Z.pos d)%Z)
    by (apply Hdm; lia).
  clear Hdm.
  set (f := (n / Z.pos d)%Z) in *. set (r := (n mod Z.pos d)%Z) in *.
  assert (Hfa : (a <= f)%Z) by nia.
  assert (Hfb : (f <= b)%Z) by nia.
  assert (Hstrict : (f = b -> r = 0)%Z) by nia.
  destruct (Z.compare_spec (2 * r) (Z.pos d)) as [He | Hl | Hg].
  - destruct (Z.even f); [lia |].
    destruct (Z.eq_dec f b) as [Eb | Nb]; [| lia].
    specialize (Hstrict Eb). lia.
  - lia.
  - destruct (Z.eq_dec f b) as [Eb | Nb]; [| lia].
    specialize (Hstrict Eb). lia.
Qed.

Lemma py_round_between (q : Q) (k : nat) (a b : Z) :
  (inject_Z a <= q)%Q -> (q <= inject_Z b)%Q ->
  (inject_Z a <= py_round q k)%Q /\ (py_round q k <= inject_Z b)%Q.
Proof.
  intros Ha Hb. unfold py_round.
  set (scale := (10 ^ Z.of_nat k)%Z).
  assert (Hs : (0 < scale)%Z) by (apply Z.pow_pos_nonneg; lia).
  assert (Hlo : (inject_Z (a * scale) <= q * inject_Z scale)%Q).
  { rewrite inject_Z_mult. apply Qmult_le_compat_r; [exact Ha |].
    unfold Qle, inject_Z. simpl. lia. }
  assert (Hhi : (q * inject_Z scale <= inject_Z (b * scale))%Q).
  { rewrite inject_Z_mult. apply Qmult_le_compat_r; [exact Hb |].
    unfold Qle, inject_Z. simpl. lia. }
  pose proof (round_half_even_between _ _ _ Hlo Hhi) as [H1 H2].
  unfold Qle, inject_Z. simpl. rewrite !Z.mul_1_r, Z2Pos.id by exact Hs.
  fold (inject_Z scale). split; lia.
Qed.

Lemma Zpos_of_nat (b : nat) : 0 < b -> Z.pos (Pos.of_nat b) = Z.of_nat b.
Proof.
  intros Hb. rewrite <- positive_nat_Z, Nat2Pos.id by lia. reflexivity.
Qed.

Lemma true_div_between (a b : nat) :
  a <= b -> 0 < b ->
  (inject_Z 0 <= true_div a b)%Q /\ (true_div a b <= inject_Z 1)%Q.
Proof.
  intros Hab Hb. unfold true_div, Qle, inject_Z. cbn [Qnum Qden].
  rewrite (Zpos_of_nat b Hb). split; lia.
Qed.

Lemma percentage_between (a b : nat) :
  a <= b -> 0 < b ->
  (inject_Z 0 <= true_div a b * inject_Z 100)%Q
  /\ (true_div a b * inject_Z 100 <= inject_Z 100)%Q.
Proof.
  intros Hab Hb. destruct (true_div_between a b Hab Hb) as [H0 H1].
  split.
  - apply Qmult_le_0_compat; [exact H0 |]. unfold Qle, inject_Z. simpl. lia.
  - setoid_replace (inject_Z 100) with (inject_Z 1 * inject_Z 100)%Q at 2
      by (unfold Qeq; simpl; lia).
    apply Qmult_le_compat_r; [exact H1 |].
    unfold Qle, inject_Z. simpl. lia.
Qed.

Lemma count_status_total (results : list EvaluationResult.t) :
  count_status EvaluationStatus.PASS results
  + count_status EvaluationStatus.FAIL results
  + count_status EvaluationStatus.ERROR results
  = List.length results.
Proof.
  unfold count_status. induction results as [|r rest IH]; [reflexivity |].
  destruct r as [id iid st c]. cbn [filter EvaluationResult.status].
  destruct st; cbn [EvaluationStatus.eqb List.length]; lia.
Qed.
(** ** Batch statistics *)

(** X3. For every list of results, [_calculate_batch_statistics] returns
    a batch whose pass, fail and error counts add up to the number of
    results, and whose accuracy lies in [0, 1] and percentages in
    [0, 100]: the range constraints of [BatchEvaluation] can never
    reject it. *)
Theorem batch_statistics_are_consistent (env : Env)
    (results : list EvaluationResult.t) (id : BatchId) (t : timedelta)
    (w : World) :
  exists b w',
    _calculate_batch_statistics env results id t w = (Returned b, w')
    /\ BatchEvaluation.total_evaluations b = List.length results
    /\ BatchEvaluation.passed b + BatchEvaluation.failed b
       + BatchEvaluation.errors b = BatchEvaluation.total_evaluations b
    /\ (inject_Z 0 <= BatchEvaluation.accuracy b)%Q
    /\ (BatchEvaluation.accuracy b <= inject_Z 1)%Q
    /\ (inject_Z 0 <= BatchEvaluation.pass_percentage b)%Q
    /\ (BatchEvaluation.pass_percentage b <= inject_Z 100)%Q
    /\ (inject_Z 0 <= BatchEvaluation.fail_percentage b)%Q
    /\ (BatchEvaluation.fail_percentage b <= inject_Z 100)%Q
    /\ (inject_Z 0 <= BatchEvaluation.error_percentage b)%Q
    /\ (BatchEvaluation.error_percentage b <= inject_Z 100)%Q.
Proof.
  unfold _calculate_batch_statistics.
  pose proof (count_status_total results) as Htotal.
  destruct (List.length results =? 0) eqn:E.
  - apply Nat.eqb_eq in E. unfold bind, utcnow, ret.
    eexists. eexists. split; [reflexivity |].
    cbn [BatchEvaluation.init BatchEvaluation.total_evaluations
         BatchEvaluation.passed BatchEvaluation.failed BatchEvaluation.errors
         BatchEvaluation.accuracy BatchEvaluation.pass_percentage
         BatchEvaluation.fail_percentage BatchEvaluation.error_percentage].
    split; [symmetry; exact E |]. split; [reflexivity |].
    repeat split; vm_compute; discriminate.
  - apply Nat.eqb_neq in E. unfold bind, utcnow, ret.
    eexists. eexists. split; [reflexivity |].
    cbn [BatchEvaluation.init BatchEvaluation.total_evaluations
         BatchEvaluation.passed BatchEvaluation.failed BatchEvaluation.errors
         BatchEvaluation.accuracy BatchEvaluation.pass_percentage
         BatchEvaluation.fail_percentage BatchEvaluation.error_percentage].
    split; [reflexivity |]. split; [exact Htotal |].
    unfold BatchEvaluation.validate_accuracy,
      BatchEvaluation.validate_percentages.
    assert (Hpos : 0 < List.length results) by lia.
    apply Nat.ltb_lt in Hpos as Hpos'. rewrite Hpos'.
    assert (Hp : count_status EvaluationStatus.PASS results
                 <= List.length results) by lia.
    assert (Hf : count_status EvaluationStatus.FAIL results
                 <= List.length results) by lia.
    assert (He : count_status EvaluationStatus.ERROR results
                 <= List.length results) by lia.
    destruct (true_div_between _ _ Hp Hpos) as [A0 A1].
    destruct (py_round_between _ 4 _ _ A0 A1) as [B0 B1].
    destruct (percentage_between _ _ Hp Hpos) as [P0 P1].
    destruct (percentage_between _ _ Hf Hpos) as [F0 F1].
    destruct (percentage_between _ _ He Hpos) as [E0 E1].
    destruct (py_round_between _ 2 _ _ P0 P1) as [P0' P1'].
    destruct (py_round_between _ 2 _ _ F0 F1) as [F0' F1'].
    destruct (py_round_between _ 2 _ _ E0 E1) as [E0' E1'].
    repeat split; assumption.
Qed.

(** X4. [get_progress_percentage] is 0 for a batch without pairs, and lies
    between 0 and 100 whenever no more pairs are processed than there are. *)
Theorem progress_percentage_is_a_percentage (s : BatchState) :
  processed_pairs s <= total_pairs s ->
  (inject_Z 0 <= get_progress_percentage s)%Q
  /\ (get_progress_percentage s <= inject_Z 100)%Q
  /\ (total_pairs s = 0 -> get_progress_percentage s = inject_Z 0)
  /\ (0 < total_pairs s -> processed_pairs s = total_pairs s ->
      (get_progress_percentage s == inject_Z 100)%Q).
Proof.
  intros Hle. unfold get_progress_percentage.
  destruct (total_pairs s =? 0) eqn:E.
  - apply Nat.eqb_eq in E.
    repeat split; try (vm_compute; discriminate); try reflexivity. lia.
  - apply Nat.eqb_neq in E. assert (Hpos : 0 < total_pairs s) by lia.
    destruct (percentage_between _ _ Hle Hpos) as [P0 P1].
    destruct (py_round_between _ 2 _ _ P0 P1) as [P0' P1'].
    split; [exact P0' |]. split; [exact P1' |]. split; [lia |].
    intros _ Heq. apply Qle_antisym; [exact P1' |].
    rewrite Heq in *.
    assert (H100 : (inject_Z 100
                    <= true_div (total_pairs s) (total_pairs s)
                       * inject_Z 100)%Q).
    { unfold true_div, Qle, Qmult, inject_Z. cbn [Qnum Qden].
      rewrite (Zpos_of_nat _ Hpos) || rewrite Pos.mul_1_r.
      rewrite ?Pos.mul_1_r, ?(Zpos_of_nat _ Hpos). lia. }
    destruct (py_round_between _ 2 100 100 H100 P1) as [Q0 _]. exact Q0.
Qed.

Lemma progress_percentage_is_a_percentage_witness :
  (get_progress_percentage
     (with_processed_pairs 1 (with_total_pairs 3
        (stored (midnight 20000) BatchStatus.RUNNING 0 None)))
   <= inject_Z 100)%Q.
Proof.
  apply (progress_percentage_is_a_percentage
           (with_processed_pairs 1 (with_total_pairs 3
              (stored (midnight 20000) BatchStatus.RUNNING 0 None)))).
  simpl. lia.
Defined.
(** ** The state store, call after call *)

Lemma find_one_none_existsb (d : datetime) (docs : list BatchState) :
  find_one d docs = None -> existsb (same_date d) docs = false.
Proof.
  unfold find_one. induction docs as [|x rest IH]; simpl; [reflexivity |].
  destruct (same_date d x); [discriminate | exact IH].
Qed.

Lemma can_retry_refuses (env : Env) (s : BatchState) (w : World) :
  BatchStatus.can_retry (status s) = false ->
  exists w', can_retry env s w = (Returned false, w') /\ only_clock_read w w'.
Proof.
  intros Hs. unfold can_retry, only_clock_read.
  destruct (max_retries s <=? retry_count s).
  - repeat eexists.
  - destruct (retry_after s) as [after|].
    + unfold bind, utcnow, ret.
      destruct (clock env (reads w) <? after)%Z; rewrite ?Hs; repeat eexists.
    + rewrite Hs. repeat eexists.
Qed.

(** What one call of [get_or_create_batch_state] does, found or not. *)
Lemma get_or_create_returns (env : Env) (d : datetime) (w : World) :
  exists s w1 doc,
    get_or_create_batch_state env d w = (Returned s, w1)
    /\ find_one (start_of_day d) (batch_states w1) = Some doc
    /\ with_updated_at (updated_at s) doc = s
    /\ outbox w1 = outbox w /\ saved_results w1 = saved_results w
    /\ runs w1 = runs w
    /\ (forall doc0, find_one (start_of_day d) (batch_states w) = Some doc0 ->
        doc = doc0 /\ batch_states w1 = batch_states w
        /\ reads w1 = S (reads w))
    /\ (find_one (start_of_day d) (batch_states w) = None ->
        s = default_BatchState (start_of_day d) (clock env (reads w))
              (clock env (S (reads w)))
        /\ batch_states w1 = (batch_states w ++ [s])%list).
Proof.
  unfold get_or_create_batch_state.
  destruct (find_one (start_of_day d) (batch_states w)) as [doc|] eqn:Hf.
  - unfold BatchState_of_doc, bind, utcnow, ret.
    exists (with_updated_at (clock env (reads w)) doc),
      (with_reads (S (reads w)) w), doc.
    cbn [batch_states outbox saved_results runs reads with_reads].
    repeat split; try reflexivity; try assumption; try discriminate;
      congruence.
  - unfold bind, utcnow, ret. cbn [reads with_reads batch_states].
    set (st := default_BatchState (start_of_day d) (clock env (reads w))
                 (clock env (S (reads w)))).
    assert (Hdate : batch_date st = start_of_day d)
      by (unfold st, default_BatchState; simpl;
          apply start_of_day_idempotent).
    assert (Hins : insert_one st (batch_states w)
                   = Some (batch_states w ++ [st])%list).
    { unfold insert_one. rewrite Hdate, (find_one_none_existsb _ _ Hf).
      reflexivity. }
    rewrite Hins.
    exists st, (with_batch_states (batch_states w ++ [st])
                  (with_reads (S (S (reads w))) w)), st.
    cbn [batch_states outbox saved_results runs reads with_reads
         with_batch_states].
    split; [reflexivity |]. split.
    { rewrite <- Hdate. apply find_one_snoc_new.
      rewrite Hdate. now apply find_one_none_existsb. }
    split; [apply with_updated_at_same |].
    repeat split; try reflexivity; discriminate.
Qed.

Lemma update_one_new (doc : BatchState) (docs : list BatchState) :
  existsb (same_date (batch_date doc)) docs = false ->
  update_one doc docs = (docs ++ [doc])%list.
Proof.
  induction docs as [|x rest IH]; simpl; [reflexivity |].
  intros H. apply orb_false_iff in H. destruct H as [H1 H2].
  rewrite H1, (IH H2). reflexivity.
Qed.

Lemma update_one_dates (doc : BatchState) (docs : list BatchState) :
  existsb (same_date (batch_date doc)) docs = true ->
  map batch_date (update_one doc docs) = map batch_date docs.
Proof.
  induction docs as [|x rest IH]; simpl; [discriminate |].
  destruct (same_date (batch_date doc) x) eqn:E; simpl.
  - intros _. unfold same_date in E. apply Z.eqb_eq in E. now rewrite E.
  - intros H. now rewrite (IH H).
Qed.

Lemma update_one_other (doc : BatchState) (docs : list BatchState)
    (d : datetime) :
  d <> batch_date doc ->
  find_one d (update_one doc docs) = find_one d docs.
Proof.
  intros Hd. unfold find_one.
  assert (Hdoc : same_date d doc = false)
    by (unfold same_date; apply Z.eqb_neq; congruence).
  induction docs as [|x rest IH]; simpl.
  - now rewrite Hdoc.
  - destruct (same_date (batch_date doc) x) eqn:E; simpl.
    + rewrite Hdoc.
      assert (Hx : same_date d x = false).
      { unfold same_date in *. apply Z.eqb_eq in E. apply Z.eqb_neq.
        congruence. }
      now rewrite Hx.
    + destruct (same_date d x); [reflexivity | exact IH].
Qed.

Lemma update_one_unique (doc : BatchState) (docs : list BatchState) :
  Race.unique_dates docs -> Race.unique_dates (update_one doc docs).
Proof.
  unfold Race.unique_dates. intros Hu.
  destruct (existsb (same_date (batch_date doc)) docs) eqn:E.
  - now rewrite update_one_dates.
  - rewrite (update_one_new _ _ E), map_app. simpl.
    apply NoDup_snoc; [exact Hu | now apply existsb_same_date_false].
Qed.

(** X6. [update_batch_state] is an upsert keyed by [batch_date]: on a
    collection whose unique index holds, the index still holds afterwards,
    the day of the state has exactly one record, which is the state as
    returned, and the record of every other day is as it was. *)
Theorem update_is_an_upsert_by_day (env : Env) (s : BatchState) (w : World) :
  Race.unique_dates (batch_states w) ->
  exists s' w',
    update_batch_state env s w = (Returned (s', tt), w')
    /\ Race.unique_dates (batch_states w')
    /\ Race.records_for (batch_date s) (batch_states w') = 1
    /\ find_one (batch_date s) (batch_states w') = Some s'
    /\ (forall d, d <> batch_date s ->
        find_one d (batch_states w') = find_one d (batch_states w))
    /\ List.length (batch_states w')
       = List.length (batch_states w)
         + match find_one (batch_date s) (batch_states w) with
           | Some _ => 0
           | None => 1
           end.
Proof.
  intros Hu.
  unfold update_batch_state, bind, utcnow, ret.
  cbn [batch_states with_reads with_batch_states reads].
  set (st := with_updated_at (clock env (reads w))
               match find_one (batch_date s) (batch_states w) with
               | Some cur =>
                   if BatchStatus.eqb (status cur) (status s) then s
                   else with_previous_status (Some (status cur)) s
               | None => s
               end).
  assert (Hdate : batch_date st = batch_date s).
  { unfold st. destruct (find_one _ _) as [cur|];
      [destruct (BatchStatus.eqb _ _) |]; reflexivity. }
  exists st, (with_batch_states (update_one st (batch_states w))
                (with_reads (S (reads w)) w)).
  cbn [batch_states with_reads with_batch_states].
  split; [reflexivity |].
  pose proof (update_one_unique st _ Hu) as Hu'.
  pose proof (find_one_update_one st (batch_states w)) as Hf.
  rewrite Hdate in Hf.
  split; [exact Hu' |]. split.
  { now apply unique_record_count with (doc := st). }
  split; [exact Hf |]. split.
  { intros d Hd. apply update_one_other. congruence. }
  destruct (find_one (batch_date s) (batch_states w)) as [cur|] eqn:Hcur.
  - assert (He : existsb (same_date (batch_date st)) (batch_states w) = true).
    { rewrite Hdate. destruct (existsb _ _) eqn:E; [reflexivity |].
      exfalso. apply existsb_same_date_false in E. apply E.
      apply find_some in Hcur. destruct Hcur as [Hin Hsd].
      unfold same_date in Hsd. apply Z.eqb_eq in Hsd. rewrite <- Hsd.
      now apply in_map. }
    rewrite <- (length_map batch_date), (update_one_dates _ _ He),
      length_map. lia.
  - rewrite update_one_new
      by (rewrite Hdate; now apply find_one_none_existsb).
    rewrite length_app. simpl. lia.
Qed.

Lemma update_is_an_upsert_by_day_witness :
  Race.records_for (midnight 20000)
    (batch_states
       (snd (update_batch_state
               (example_env (midnight 20001) [] EvaluationStatus.PASS None)
               (stored (midnight 20000) BatchStatus.FAILED 1 None)
               (world_of [stored (midnight 20000) BatchStatus.RUNNING 0 None;
                          stored (midnight 19999) BatchStatus.COMPLETED 0
                            None]))))
  = 1.
Proof.
  edestruct (update_is_an_upsert_by_day
               (example_env (midnight 20001) [] EvaluationStatus.PASS None)
               (stored (midnight 20000) BatchStatus.FAILED 1 None)
               (world_of [stored (midnight 20000) BatchStatus.RUNNING 0 None;
                          stored (midnight 19999) BatchStatus.COMPLETED 0
                            None]))
    as (s' & w' & Hcall & _ & Hone & _).
  - unfold Race.unique_dates. simpl.
    repeat constructor; simpl; intuition discriminate.
  - rewrite Hcall. exact Hone.
Defined.

(** X7. The audit trail of [update_batch_state]: when a state is stored
    and then stored again with a different status, the record ends with
    the second status, with the first status as [previous_status], and
    with [updated_at] set to the time of the second write, whatever the
    caller had put there. *)
Theorem update_records_the_transition (env : Env) (s1 s2 : BatchState)
    (w : World) :
  batch_date s2 = batch_date s1 ->
  BatchStatus.eqb (status s1) (status s2) = false ->
  exists w1 w2 stored1 stored2,
    update_batch_state env s1 w = (Returned (stored1, tt), w1)
    /\ update_batch_state env s2 w1 = (Returned (stored2, tt), w2)
    /\ find_one (batch_date s1) (batch_states w2) = Some stored2
    /\ status stored2 = status s2
    /\ previous_status stored2 = Some (status s1)
    /\ updated_at stored2 = clock env (S (reads w)).
Proof.
  intros Hdate Hne.
  destruct (update_batch_state_spec env s1 w)
    as (st1 & w1 & Hupd1 & Hfind1 & Hsame1 & _ & _ & _ & _ & Hreads1).
  destruct Hsame1 as (_ & Hst1 & _).
  assert (Hfind1' : find_one (batch_date s2) (batch_states w1) = Some st1)
    by (rewrite Hdate; exact Hfind1).
  assert (Hne' : BatchStatus.eqb (status st1) (status s2) = false)
    by (rewrite Hst1; exact Hne).
  pose proof (update_batch_state_previous env s2 st1 w1 Hfind1' Hne')
    as Hupd2.
  do 4 eapply ex_intro.
  split; [exact Hupd1 |]. split; [exact Hupd2 |].
  cbn [batch_states with_batch_states with_reads].
  split.
  { rewrite <- Hdate.
    match goal with
    | |- find_one _ (update_one ?doc _) = _ =>
        exact (find_one_update_one doc (batch_states w1))
    end. }
  cbn. rewrite Hst1, Hreads1. repeat split.
Qed.

Lemma update_records_the_transition_witness :
  let env := example_env (midnight 20001) [] EvaluationStatus.PASS None in
  let s1 := stored (midnight 20000) BatchStatus.RUNNING 0 None in
  let s2 := stored (midnight 20000) BatchStatus.COMPLETED 0 None in
  exists w1 w2 stored1 stored2,
    update_batch_state env s1 empty_world = (Returned (stored1, tt), w1)
    /\ update_batch_state env s2 w1 = (Returned (stored2, tt), w2)
    /\ find_one (batch_date s1) (batch_states w2) = Some stored2
    /\ status stored2 = status s2
    /\ previous_status stored2 = Some (status s1)
    /\ updated_at stored2 = clock env (S (reads empty_world)).
Proof.
  exact (update_records_the_transition
           (example_env (midnight 20001) [] EvaluationStatus.PASS None)
           (stored (midnight 20000) BatchStatus.RUNNING 0 None)
           (stored (midnight 20000) BatchStatus.COMPLETED 0 None)
           empty_world eq_refl eq_refl).
Defined.
(** ** Decisions *)

Lemma has_data_for_date_pure (env : Env) (d : datetime) (w : World) :
  exists b, has_data_for_date env d w = (Returned b, w)
            /\ forall w0, has_data_for_date env d w0 = (Returned b, w0).
Proof.
  unfold has_data_for_date.
  destruct (count_documents env _ _) as [c|]; eexists; split;
    try reflexivity; intros; reflexivity.
Qed.

(** The decision on a stored day whose status is terminal. *)
Lemma terminal_day_is_refused (env : Env) (d : datetime) (w : World)
    (doc : BatchState) :
  find_one (start_of_day d) (batch_states w) = Some doc ->
  BatchStatus.is_terminal (status doc) = true ->
  exists reason w',
    should_process_batch env d w = (Returned (false, reason), w')
    /\ only_clock_read w w'.
Proof.
  intros Hfind Hterm.
  unfold should_process_batch, bind at 1.
  unfold get_or_create_batch_state. rewrite Hfind.
  unfold BatchState_of_doc, bind at 1, utcnow, ret.
  cbn [status with_updated_at].
  destruct (status doc) eqn:Hst; try discriminate; cbn [BatchStatus.eqb].
  - eexists. eexists. split; [reflexivity |]. repeat split.
  - unfold should_process_checks, bind at 1.
    match goal with
    | |- context [can_retry env ?s ?w0] =>
        destruct (can_retry_refuses env s w0) as (w1 & Hcr & Hsame);
        [cbn [status with_updated_at]; rewrite Hst; reflexivity |];
        rewrite Hcr
    end.
    cbn [negb]. eexists. eexists. split; [reflexivity |].
    destruct Hsame as (H1 & H2 & H3 & H4). repeat split; assumption.
  - unfold should_process_checks, bind at 1.
    match goal with
    | |- context [can_retry env ?s ?w0] =>
        destruct (can_retry_refuses env s w0) as (w1 & Hcr & Hsame);
        [cbn [status with_updated_at]; rewrite Hst; reflexivity |];
        rewrite Hcr
    end.
    cbn [negb]. eexists. eexists. split; [reflexivity |].
    destruct Hsame as (H1 & H2 & H3 & H4). repeat split; assumption.
Qed.


Lemma can_retry_true (env : Env) (s : BatchState) (w w' : World) :
  can_retry env s w = (Returned true, w') ->
  retry_count s < max_retries s
  /\ BatchStatus.can_retry (status s) = true
  /\ only_clock_read w w'.
Proof.
  unfold can_retry, only_clock_read.
  destruct (max_retries s <=? retry_count s) eqn:E.
  - unfold ret. intros H. discriminate.
  - apply Nat.leb_gt in E.
    destruct (retry_after s) as [after|].
    + unfold bind, utcnow, ret.
      destruct (clock env (reads w) <? after)%Z; intros H;
        [discriminate |].
      injection H as H1 H2. subst w'. repeat split; assumption.
    + unfold ret. intros H. injection H as H1 H2. subst w'.
      repeat split; assumption.
Qed.

Lemma should_process_checks_true (env : Env) (d : datetime)
    (s : BatchState) (w w' : World) (reason : Reason) :
  should_process_checks env d s w = (Returned (true, reason), w') ->
  retry_count s < max_retries s
  /\ BatchStatus.can_retry (status s) = true
  /\ fst (has_data_for_date env d w) = Returned true
  /\ only_clock_read w w'
  /\ reason
     = (if BatchStatus.eqb (status s) BatchStatus.FAILED
        then RetryingFailed (retry_count s + 1) (max_retries s)
        else ReadyForProcessing).
Proof.
  unfold should_process_checks, bind at 1.
  destruct (can_retry_returns env s w) as (b & w1 & Hcr & Hsame1).
  rewrite Hcr. destruct b; cbn [negb]; [| unfold ret; discriminate].
  destruct (can_retry_true env s w w1 Hcr) as (Hrc & Hst & _).
  assert (Hcont :
    forall w2,
      (has_data <- has_data_for_date env d ;;
       if negb has_data then ret (false, NoDataAvailable)
       else if BatchStatus.eqb (status s) BatchStatus.FAILED
       then ret (true, RetryingFailed (retry_count s + 1) (max_retries s))
       else ret (true, ReadyForProcessing)) w2
      = (Returned (true, reason), w') ->
      fst (has_data_for_date env d w) = Returned true /\ w' = w2
      /\ reason
         = (if BatchStatus.eqb (status s) BatchStatus.FAILED
            then RetryingFailed (retry_count s + 1) (max_retries s)
            else ReadyForProcessing)).
  { intros w2. unfold bind.
    destruct (has_data_for_date_pure env d w2) as (b & Hb & Hall).
    rewrite Hb, (Hall w). destruct b; cbn [negb fst]; unfold ret.
    - destruct (BatchStatus.eqb (status s) BatchStatus.FAILED);
        intros H; injection H as H1 H2; subst; repeat split.
    - discriminate. }
  destruct Hsame1 as (A1 & A2 & A3 & A4).
  destruct (retry_after s) as [after|].
  - unfold bind at 1, utcnow.
    destruct (clock env (reads w1) <? after)%Z.
    + unfold bind, utcnow, ret. discriminate.
    + intros H. destruct (Hcont _ H) as (Hd & Hw & Hr). subst w'.
      cbn [batch_states outbox saved_results runs with_reads].
      unfold only_clock_read.
      cbn [batch_states outbox saved_results runs with_reads].
      repeat split; assumption.
  - intros H. destruct (Hcont _ H) as (Hd & Hw & Hr). subst w'.
    unfold only_clock_read. repeat split; assumption.
Qed.


(** ** Retention *)

Lemma filter_split_length (A : Type) (p : A -> bool) (l : list A) :
  List.length (filter p l) + List.length (filter (fun x => negb (p x)) l)
  = List.length l.
Proof.
  induction l as [|x rest IH]; [reflexivity |].
  simpl. destruct (p x); simpl; lia.
Qed.

(** Deleting documents keeps the unique index. *)
Lemma unique_dates_filter (keep : BatchState -> bool)
    (docs : list BatchState) :
  Race.unique_dates docs -> Race.unique_dates (filter keep docs).
Proof.
  unfold Race.unique_dates.
  induction docs as [|doc rest IH]; simpl; [trivial |].
  intros Hu. inversion Hu as [|? ? Hnew Hrest]; subst.
  destruct (keep doc); simpl; [| now apply IH].
  constructor; [| now apply IH].
  intros Hin. apply Hnew. apply in_map_iff in Hin.
  destruct Hin as (other & Hdate & Hin). apply filter_In in Hin.
  apply in_map_iff. exists other. tauto.
Qed.

(** X10. [cleanup_old_states] deletes exactly the COMPLETED records whose
    day lies before [now - retention_days]: every other record is kept,
    the returned count is the number of records removed, and the unique
    index is preserved; with the cutoff unchanged a second sweep would
    find nothing to delete. *)
Theorem cleanup_deletes_only_old_completed (env : Env) (retention_days : Z)
    (w : World) :
  let cutoff := (clock env (reads w) - td_days retention_days)%Z in
  let old_completed doc :=
    (batch_date doc <? cutoff)%Z
    && BatchStatus.eqb (status doc) BatchStatus.COMPLETED in
  exists deleted w',
    cleanup_old_states env retention_days w = (Returned deleted, w')
    /\ (forall doc,
          In doc (batch_states w')
          <-> In doc (batch_states w) /\ old_completed doc = false)
    /\ deleted + List.length (batch_states w')
       = List.length (batch_states w)
    /\ (Race.unique_dates (batch_states w) ->
        Race.unique_dates (batch_states w'))
    /\ filter old_completed (batch_states w') = []
    /\ outbox w' = outbox w.
Proof.
  intros cutoff old_completed.
  unfold cleanup_old_states, bind, utcnow, delete_many.
  cbn [reads with_reads batch_states]. fold cutoff. fold old_completed.
  eexists. eexists. split; [reflexivity |].
  cbn [batch_states with_batch_states with_reads outbox].
  split.
  { intros doc. rewrite filter_In. split; intros [H1 H2]; split; trivial.
    - now apply negb_true_iff in H2.
    - now apply negb_true_iff. }
  split; [apply filter_split_length |]. split.
  { apply unique_dates_filter. }
  split; [| reflexivity].
  induction (batch_states w) as [|x rest IH]; [reflexivity |].
  cbn [filter]. change ((batch_date x <? cutoff)%Z
                        && BatchStatus.eqb (status x) BatchStatus.COMPLETED)
    with (old_completed x).
  destruct (old_completed x) eqn:E; cbn [negb filter]; [exact IH |].
  rewrite E. exact IH.
Qed.

(** ** Pending batches *)

Lemma insert_by_date_In (doc x : BatchState) (l : list BatchState) :
  In x (insert_by_date doc l) <-> x = doc \/ In x l.
Proof.
  induction l as [|y rest IH]; simpl; [intuition |].
  destruct (batch_date doc <? batch_date y)%Z; simpl; [intuition |].
  rewrite IH. intuition.
Qed.

Lemma sort_by_date_In (x : BatchState) (l : list BatchState) :
  In x (sort_by_date l) <-> In x l.
Proof.
  unfold sort_by_date. induction l as [|y rest IH]; simpl; [tauto |].
  rewrite insert_by_date_In, IH. intuition.
Qed.

Lemma insert_by_date_sorted (doc : BatchState) (l : list BatchState) :
  StronglySorted Z.le (map batch_date l) ->
  StronglySorted Z.le (map batch_date (insert_by_date doc l)).
Proof.
  induction l as [|y rest IH]; simpl; intros Hs.
  - repeat constructor.
  - inversion Hs as [|? ? Hrest Hall]; subst.
    destruct (batch_date doc <? batch_date y)%Z eqn:E; simpl.
    + apply Z.ltb_lt in E. constructor; [exact Hs |].
      constructor; [lia |].
      eapply Forall_impl; [| exact Hall]. intros a Ha. lia.
    + apply Z.ltb_ge in E. constructor; [now apply IH |].
      apply Forall_forall. intros a Ha. apply in_map_iff in Ha.
      destruct Ha as (z & <- & Hz). apply insert_by_date_In in Hz.
      destruct Hz as [-> | Hz]; [exact E |].
      rewrite Forall_forall in Hall. apply Hall. now apply in_map.
Qed.

Lemma sort_by_date_sorted (l : list BatchState) :
  StronglySorted Z.le (map batch_date (sort_by_date l)).
Proof.
  unfold sort_by_date. induction l as [|y rest IH]; simpl.
  - constructor.
  - now apply insert_by_date_sorted.
Qed.

Lemma keep_retryable_spec (env : Env) (docs acc : list BatchState)
    (w : World) :
  exists kept w',
    keep_retryable env docs acc w = (Returned (acc ++ kept)%list, w')
    /\ only_clock_read w w'
    /\ Forall
         (fun s =>
            retry_count s < max_retries s
            /\ BatchStatus.can_retry (status s) = true
            /\ exists doc, In doc docs /\ with_updated_at (updated_at s) doc = s)
         kept
    /\ (forall x, In x (map batch_date kept) -> In x (map batch_date docs))
    /\ (StronglySorted Z.le (map batch_date docs) ->
        StronglySorted Z.le (map batch_date kept)).
Proof.
  revert acc w. induction docs as [|doc rest IH]; intros acc w.
  - exists [], w. simpl. rewrite app_nil_r. unfold ret, only_clock_read.
    repeat split; try constructor; tauto.
  - cbn [keep_retryable]. unfold bind at 1, BatchState_of_doc, bind at 1,
      utcnow, ret. unfold bind at 1.
    destruct (can_retry_returns env
                (with_updated_at (clock env (reads w)) doc)
                (with_reads (S (reads w)) w)) as (b & w1 & Hcr & Hsame1).
    rewrite Hcr.
    destruct (IH (if b
                  then (acc ++ [with_updated_at (clock env (reads w)) doc])%list
                  else acc) w1)
      as (kept & w' & Hrun & Hsame & Hgood & Hin & Hsorted).
    rewrite Hrun.
    assert (Hclock : only_clock_read w w').
    { destruct Hsame1 as (A1 & A2 & A3 & A4).
      destruct Hsame as (B1 & B2 & B3 & B4).
      unfold only_clock_read.
      cbn [batch_states outbox saved_results runs with_reads] in *.
      repeat split; congruence. }
    assert (Hgood' :
      Forall
        (fun s =>
           retry_count s < max_retries s
           /\ BatchStatus.can_retry (status s) = true
           /\ exists doc0,
                In doc0 (doc :: rest)
                /\ with_updated_at (updated_at s) doc0 = s) kept).
    { eapply Forall_impl; [| exact Hgood].
      intros s (H1 & H2 & doc0 & H3 & H4). repeat split; trivial.
      exists doc0. split; [now right | exact H4]. }
    destruct b.
    + exists (with_updated_at (clock env (reads w)) doc :: kept), w'.
      split; [now rewrite <- app_assoc |]. split; [exact Hclock |].
      destruct (can_retry_true env _ _ _ Hcr) as (C1 & C2 & _).
      split.
      { constructor; [| exact Hgood'].
        split; [exact C1 |]. split; [exact C2 |].
        exists doc. split; [now left | reflexivity]. }
      split.
      { intros x [Hx | Hx]; [left; exact Hx | right; now apply Hin]. }
      intros Hs. cbn [map] in *. inversion Hs as [|? ? Hrest Hall]; subst.
      constructor; [now apply Hsorted |].
      apply Forall_forall. intros x Hx. rewrite Forall_forall in Hall.
      apply Hall. now apply Hin.
    + exists kept, w'. split; [reflexivity |]. split; [exact Hclock |].
      split; [exact Hgood' |]. split.
      { intros x Hx. right. now apply Hin. }
      intros Hs. cbn [map] in Hs. inversion Hs; subst. now apply Hsorted.
Qed.


(** ** Missing batches *)

Lemma only_clock_read_refl (w : World) : only_clock_read w w.
Proof. unfold only_clock_read. tauto. Qed.

Lemma only_clock_read_trans (w1 w2 w3 : World) :
  only_clock_read w1 w2 -> only_clock_read w2 w3 -> only_clock_read w1 w3.
Proof.
  unfold only_clock_read. intros (A1 & A2 & A3 & A4) (B1 & B2 & B3 & B4).
  repeat split; congruence.
Qed.

Lemma only_clock_read_tick (w : World) (n : nat) :
  only_clock_read w (with_reads n w).
Proof. unfold only_clock_read. destruct w; cbn. tauto. Qed.

Lemma is_missing_spec (env : Env) (d : datetime) (w : World) :
  exists b w',
    is_missing env d w = (Returned b, w')
    /\ only_clock_read w w'
    /\ (b = true ->
        find_completed d (batch_states w) = None
        /\ (forall w0, has_data_for_date env d w0 = (Returned true, w0))
        /\ forall doc,
             find_one d (batch_states w) = Some doc ->
             BatchStatus.can_retry (status doc) = true
             /\ retry_count doc < max_retries doc).
Proof.
  unfold is_missing.
  destruct (find_completed d (batch_states w)) as [done|] eqn:Hdone.
  { exists false, w. split; [reflexivity |].
    split; [apply only_clock_read_refl | discriminate]. }
  destruct (has_data_for_date_pure env d w) as (b & Hb & Hall).
  unfold bind at 1. rewrite Hb. destruct b.
  2:{ exists false, w. split; [reflexivity |].
      split; [apply only_clock_read_refl | discriminate]. }
  destruct (find_one d (batch_states w)) as [failed_doc|] eqn:Hfind.
  - unfold bind at 1, BatchState_of_doc, bind at 1, utcnow, ret.
    destruct (can_retry_returns env
                (with_updated_at (clock env (reads w)) failed_doc)
                (with_reads (S (reads w)) w)) as (b & w' & Hcr & Hsame).
    rewrite Hcr. exists b, w'. split; [reflexivity |]. split.
    { eapply only_clock_read_trans; [apply only_clock_read_tick | exact Hsame]. }
    intros ->. split; [reflexivity |]. split; [exact Hall |].
    intros doc Hdoc. injection Hdoc as <-.
    destruct (can_retry_true env _ _ _ Hcr) as (C1 & C2 & _).
    split; [exact C2 | exact C1].
  - exists true, w. split; [reflexivity |].
    split; [apply only_clock_read_refl |]. intros _.
    split; [reflexivity |]. split; [exact Hall |]. discriminate.
Qed.

Lemma td_days_1_pos : (0 < td_days 1)%Z.
Proof. reflexivity. Qed.

Lemma check_dates_spec (env : Env) (turns : nat)
    (current_date end_date : datetime) (acc : list datetime) (w : World) :
  exists found w',
    check_dates env turns current_date end_date acc w
    = (Returned (acc ++ found)%list, w')
    /\ only_clock_read w w'
    /\ Forall
         (fun d =>
            (current_date <= d < end_date)%Z
            /\ find_completed d (batch_states w) = None
            /\ (forall w0, has_data_for_date env d w0 = (Returned true, w0))
            /\ forall doc,
                 find_one d (batch_states w) = Some doc ->
                 BatchStatus.can_retry (status doc) = true
                 /\ retry_count doc < max_retries doc) found
    /\ StronglySorted Z.lt found.
Proof.
  revert current_date acc w.
  induction turns as [|turns IH]; intros current_date acc w.
  { exists [], w. cbn [check_dates]. rewrite app_nil_r.
    split; [reflexivity |]. split; [apply only_clock_read_refl |].
    split; constructor. }
  cbn [check_dates].
  destruct (current_date <? end_date)%Z eqn:Hlt.
  2:{ exists [], w. rewrite app_nil_r.
      split; [reflexivity |]. split; [apply only_clock_read_refl |].
      split; constructor. }
  apply Z.ltb_lt in Hlt.
  destruct (is_missing_spec env current_date w)
    as (b & w1 & Hmiss & Hsame1 & Hgood).
  unfold bind at 1. rewrite Hmiss.
  destruct (IH (current_date + td_days 1)%Z
              (if b then (acc ++ [current_date])%list else acc) w1)
    as (found & w' & Hrun & Hsame & Hall & Hsorted).
  rewrite Hrun.
  assert (Hstates : batch_states w1 = batch_states w) by apply Hsame1.
  assert (Hall' :
    Forall
      (fun d =>
         (current_date + td_days 1 <= d < end_date)%Z
         /\ find_completed d (batch_states w) = None
         /\ (forall w0, has_data_for_date env d w0 = (Returned true, w0))
         /\ forall doc,
              find_one d (batch_states w) = Some doc ->
              BatchStatus.can_retry (status doc) = true
              /\ retry_count doc < max_retries doc) found).
  { rewrite Hstates in Hall. exact Hall. }
  pose proof td_days_1_pos as Hday.
  destruct b.
  - exists (current_date :: found), w'.
    split; [now rewrite <- app_assoc |].
    split; [eapply only_clock_read_trans; eassumption |]. split.
    + constructor.
      * split; [lia |]. now apply Hgood.
      * eapply Forall_impl; [| exact Hall'].
        intros d (H1 & H2). split; [lia | exact H2].
    + constructor; [exact Hsorted |].
      eapply Forall_impl; [| exact Hall']. intros d (H1 & _). lia.
  - exists found, w'. split; [reflexivity |].
    split; [eapply only_clock_read_trans; eassumption |]. split.
    + eapply Forall_impl; [| exact Hall'].
      intros d (H1 & H2). split; [lia | exact H2].
    + exact Hsorted.
Qed.


(** ** The recovery scan *)

Lemma grows_trans (a b c : list BatchState) :
  Race.grows a b -> Race.grows b c -> Race.grows a c.
Proof. intros H1 H2 d doc H. apply H2, H1, H. Qed.

Lemma start_of_day_next (d : datetime) :
  start_of_day d = d ->
  start_of_day (d + td_days 1)%Z = (d + td_days 1)%Z.
Proof.
  unfold start_of_day, td_days, microseconds_per_day. intros H.
  rewrite Z.div_add by lia. lia.
Qed.

Lemma start_of_day_minus_days (d : datetime) (n : Z) :
  start_of_day (start_of_day d - td_days n)%Z
  = (start_of_day d - td_days n)%Z.
Proof.
  unfold start_of_day, td_days, microseconds_per_day.
  replace (d / 86400000000 * 86400000000 - n * 86400000000)%Z
    with ((d / 86400000000 - n) * 86400000000)%Z by lia.
  rewrite Z.div_mul by lia. reflexivity.
Qed.

Lemma sorted_of_ascending (l : list datetime) :
  StronglySorted Z.lt l -> sorted l = l.
Proof.
  unfold sorted. induction 1 as [|x l Hs IH Hall]; [reflexivity |].
  cbn [fold_right]. rewrite IH. destruct l as [|y rest]; [reflexivity |].
  cbn [insert_sorted]. inversion Hall; subst.
  destruct (x <=? y)%Z eqn:E; [reflexivity |]. apply Z.leb_gt in E. lia.
Qed.

Lemma needs_evaluation_spec (env : Env) (d : datetime) (w : World) :
  exists b w' doc,
    needs_evaluation env d w = (Returned b, w')
    /\ find_one (start_of_day d) (batch_states w') = Some doc
    /\ Race.grows (batch_states w) (batch_states w')
    /\ outbox w' = outbox w /\ saved_results w' = saved_results w
    /\ runs w' = runs w
    /\ (b = true -> may_run env d doc).
Proof.
  destruct (get_or_create_returns env d w)
    as (s & w1 & doc & Hcall & Hfind & Hs & Hout & Hsaved & Hruns & Hold
        & Hnew).
  assert (Hgrows : Race.grows (batch_states w) (batch_states w1)).
  { destruct (find_one (start_of_day d) (batch_states w)) as [doc0|] eqn:Hf.
    - destruct (Hold doc0 eq_refl) as (_ & -> & _). apply grows_refl.
    - destruct (Hnew eq_refl) as (_ & ->). intros d0 doc0.
      apply find_one_app. }
  assert (Hst : status s = status doc) by (now rewrite <- Hs).
  assert (Hrc : retry_count s = retry_count doc) by (now rewrite <- Hs).
  assert (Hmr : max_retries s = max_retries doc) by (now rewrite <- Hs).
  assert (Hsa : started_at s = started_at doc) by (now rewrite <- Hs).
  assert (Hdoc : may_run env d s -> may_run env d doc).
  { unfold may_run. now rewrite Hst, Hrc, Hmr, Hsa. }
  unfold needs_evaluation, bind at 1. rewrite Hcall.
  destruct (status s) eqn:Hstatus.
  - (* PENDING *)
    destruct (has_data_for_date_pure env d w1) as (b & Hb & Hall).
    exists b, w1, doc. rewrite Hb. repeat split; trivial.
    intros ->. apply Hdoc. unfold may_run. rewrite Hstatus. exact Hall.
  - (* RUNNING *)
    destruct (started_at s) as [started|] eqn:Hstarted.
    + unfold bind, utcnow, ret. do 3 eapply ex_intro.
      split; [reflexivity |]. cbn [batch_states outbox saved_results runs].
      split; [destruct w1; exact Hfind |].
      split; [destruct w1; exact Hgrows |].
      split; [destruct w1; exact Hout |].
      split; [destruct w1; exact Hsaved |].
      split; [destruct w1; exact Hruns |].
      intros _. apply Hdoc. unfold may_run. rewrite Hstatus.
      now exists started.
    + exists false, w1, doc. unfold ret. repeat split; trivial. discriminate.
  - (* COMPLETED *)
    exists false, w1, doc. unfold ret. repeat split; trivial. discriminate.
  - (* FAILED *)
    destruct (can_retry_returns env s w1) as (b & w2 & Hcr & A1 & A2 & A3 & A4).
    exists b, w2, doc. rewrite Hcr. rewrite A1, A2, A3, A4.
    repeat split; trivial. intros ->. apply Hdoc. unfold may_run.
    rewrite Hstatus.
    now destruct (can_retry_true env _ _ _ Hcr) as (C1 & _).
  - (* PARTIAL *)
    destruct (can_retry_returns env s w1) as (b & w2 & Hcr & A1 & A2 & A3 & A4).
    exists b, w2, doc. rewrite Hcr. rewrite A1, A2, A3, A4.
    repeat split; trivial. intros ->. apply Hdoc. unfold may_run.
    rewrite Hstatus.
    now destruct (can_retry_true env _ _ _ Hcr) as (C1 & _).
  - (* SKIPPED *)
    exists false, w1, doc. unfold ret. repeat split; trivial. discriminate.
  - (* CANCELLED *)
    exists false, w1, doc. unfold ret. repeat split; trivial. discriminate.
Qed.

Lemma scan_dates_spec (env : Env) (turns : nat)
    (current_date end_date : datetime) (acc : list datetime) (w : World) :
  start_of_day current_date = current_date ->
  exists found w',
    scan_dates env turns current_date end_date acc w
    = (Returned (acc ++ found)%list, w')
    /\ Race.grows (batch_states w) (batch_states w')
    /\ outbox w' = outbox w /\ saved_results w' = saved_results w
    /\ runs w' = runs w
    /\ Forall
         (fun d =>
            (current_date <= d < end_date)%Z
            /\ exists doc,
                 find_one d (batch_states w') = Some doc
                 /\ may_run env d doc) found
    /\ StronglySorted Z.lt found
    /\ (forall k : nat,
          k < turns ->
          (current_date + td_days (Z.of_nat k) < end_date)%Z ->
          exists doc,
            find_one (current_date + td_days (Z.of_nat k))%Z (batch_states w')
            = Some doc).
Proof.
  revert current_date acc w.
  induction turns as [|turns IH]; intros current_date acc w Hday.
  { exists [], w. cbn [scan_dates]. rewrite app_nil_r.
    split; [reflexivity |]. split; [apply grows_refl |].
    repeat split; try constructor. intros k Hk. lia. }
  cbn [scan_dates].
  destruct (current_date <? end_date)%Z eqn:Hlt.
  2:{ exists [], w. rewrite app_nil_r.
      split; [reflexivity |]. split; [apply grows_refl |].
      repeat split; try constructor. intros k _ Hk. apply Z.ltb_ge in Hlt.
      unfold td_days, microseconds_per_day in Hk. lia. }
  apply Z.ltb_lt in Hlt.
  destruct (needs_evaluation_spec env current_date w)
    as (b & w1 & doc & Hneed & Hfind & Hgrows1 & Hout1 & Hsaved1 & Hruns1
        & Hmay).
  rewrite Hday in Hfind.
  unfold bind at 1. rewrite Hneed.
  destruct (IH (current_date + td_days 1)%Z
              (if b then (acc ++ [current_date])%list else acc) w1
              (start_of_day_next _ Hday))
    as (found & w' & Hrun & Hgrows & Hout & Hsaved & Hruns & Hall & Hsorted
        & Hcover).
  rewrite Hrun.
  pose proof td_days_1_pos as Hpos.
  assert (Hcover' :
    forall k : nat,
      k < S turns ->
      (current_date + td_days (Z.of_nat k) < end_date)%Z ->
      exists doc0,
        find_one (current_date + td_days (Z.of_nat k))%Z (batch_states w')
        = Some doc0).
  { intros [|k] Hk Hin.
    - exists doc. apply Hgrows.
      replace (current_date + td_days (Z.of_nat 0))%Z with current_date
        by (unfold td_days; simpl; lia).
      exact Hfind.
    - replace (current_date + td_days (Z.of_nat (S k)))%Z
        with (current_date + td_days 1 + td_days (Z.of_nat k))%Z in *
        by (unfold td_days; lia).
      apply Hcover; [lia | exact Hin]. }
  assert (Hall' :
    Forall
      (fun d =>
         (current_date < d < end_date)%Z
         /\ exists doc0,
              find_one d (batch_states w') = Some doc0
              /\ may_run env d doc0) found).
  { eapply Forall_impl; [| exact Hall].
    intros d (H1 & H2). split; [lia | exact H2]. }
  destruct b.
  - exists (current_date :: found), w'.
    split; [now rewrite <- app_assoc |].
    split; [eapply grows_trans; eassumption |].
    split; [congruence |]. split; [congruence |]. split; [congruence |].
    split; [| split; [| exact Hcover']].
    + constructor.
      * split; [lia |]. exists doc. split; [now apply Hgrows | now apply Hmay].
      * eapply Forall_impl; [| exact Hall'].
        intros d (H1 & H2). split; [lia | exact H2].
    + constructor; [exact Hsorted |].
      eapply Forall_impl; [| exact Hall']. intros d (H1 & _). lia.
  - exists found, w'. split; [reflexivity |].
    split; [eapply grows_trans; eassumption |].
    split; [congruence |]. split; [congruence |]. split; [congruence |].
    split; [| split; [exact Hsorted | exact Hcover']].
    eapply Forall_impl; [| exact Hall'].
    intros d (H1 & H2). split; [lia | exact H2].
Qed.


(** ** What a run touches *)

Section Respects.

Context {St : Type} (R : St -> St -> Prop).
Hypothesis R_refl : forall s, R s s.
Hypothesis R_trans : forall a b c, R a b -> R b c -> R a c.

Lemma respects_ret (A : Type) (a : A) : respects R (ret a).
Proof. intros s. apply R_refl. Qed.

Lemma respects_raise (A : Type) (e : PyException) :
  respects R (@raise St A e).
Proof. intros s. apply R_refl. Qed.

Lemma respects_bind (A B : Type) (c : M St A) (k : A -> M St B) :
  respects R c -> (forall a, respects R (k a)) -> respects R (bind c k).
Proof.
  intros Hc Hk s. unfold bind. specialize (Hc s).
  destruct (c s) as [[a|e] s1]; cbn [snd] in *; [| exact Hc].
  eapply R_trans; [exact Hc | apply Hk].
Qed.

Lemma respects_try_except (A : Type) (body : M St A)
    (handler : PyException -> M St A) :
  respects R body -> (forall e, respects R (handler e)) ->
  respects R (try_except body handler).
Proof.
  intros Hc Hk s. unfold try_except. specialize (Hc s).
  destruct (body s) as [[a|e] s1]; cbn [snd] in *; [exact Hc |].
  eapply R_trans; [exact Hc | apply Hk].
Qed.

Lemma respects_try_finally (A : Type) (body : M St A) (final : M St unit) :
  respects R body -> respects R final -> respects R (try_finally body final).
Proof.
  intros Hc Hk s. unfold try_finally. specialize (Hc s).
  destruct (body s) as [r s1]; cbn [snd] in *. specialize (Hk s1).
  destruct (final s1) as [[u|e] s2]; cbn [snd] in *;
    eapply R_trans; eassumption.
Qed.

End Respects.

Lemma same_store_refl (w : World) : same_store w w.
Proof. unfold same_store. tauto. Qed.

Lemma same_store_trans (a b c : World) :
  same_store a b -> same_store b c -> same_store a c.
Proof. unfold same_store. intros [A1 A2] [B1 B2]. split; congruence. Qed.

Lemma keeps_other_days_refl (d : datetime) (w : World) :
  keeps_other_days d w w.
Proof. unfold keeps_other_days. tauto. Qed.

Lemma keeps_other_days_trans (d : datetime) (a b c : World) :
  keeps_other_days d a b -> keeps_other_days d b c -> keeps_other_days d a c.
Proof.
  unfold keeps_other_days. intros (A1 & A2 & A3) (B1 & B2 & B3).
  split; [| split; [tauto | congruence]].
  intros d' Hd. rewrite B1, A1; trivial.
Qed.

Lemma same_store_keeps (d : datetime) (w w' : World) :
  same_store w w' -> keeps_other_days d w w'.
Proof.
  unfold same_store, keeps_other_days. intros [H1 H2]. rewrite H1.
  tauto.
Qed.

Lemma on_day_refl (f : Frame) : on_day f f.
Proof. split; [reflexivity | apply keeps_other_days_refl]. Qed.

Lemma on_day_trans (a b c : Frame) : on_day a b -> on_day b c -> on_day a c.
Proof.
  unfold on_day. intros [A1 A2] [B1 B2]. split; [congruence |].
  rewrite A1 in B2. eapply keeps_other_days_trans; eassumption.
Qed.

(** The operations on the world that leave the collection alone. *)
Lemma same_store_utcnow (env : Env) : respects same_store (utcnow env).
Proof. intros w. destruct w; split; reflexivity. Qed.

Lemma same_store_can_retry (env : Env) (s : BatchState) :
  respects same_store (can_retry env s).
Proof.
  intros w. destruct (can_retry_returns env s w) as (b & w' & H & A1 & _ & _ & A4).
  rewrite H. split; assumption.
Qed.

Lemma same_store_send (env : Env) (subject : Subject) (priority : Priority) :
  respects same_store (_send_with_fallback env subject priority).
Proof. intros w. destruct w; split; reflexivity. Qed.

Lemma same_store_send_alert (env : Env) (subject : Subject)
    (priority : Priority) :
  respects same_store (send_alert env subject priority).
Proof.
  unfold send_alert.
  apply (respects_bind same_store same_store_trans);
    [apply same_store_send |].
  intros _. apply (respects_ret same_store same_store_refl).
Qed.

Lemma same_store_evaluate_batch (env : Env)
    (pairs : list TranscriptSummaryPair.t) :
  respects same_store (evaluate_batch env pairs).
Proof.
  intros w. unfold evaluate_batch, _calculate_batch_statistics, bind, utcnow,
    ret.
  destruct (List.length _ =? 0); destruct w; split; reflexivity.
Qed.

Lemma same_store_save (env : Env) (results : list EvaluationResult.t)
    (batch : BatchEvaluation.t) :
  respects same_store (save_evaluation_results env results batch).
Proof.
  intros w. unfold save_evaluation_results.
  destruct (save_failure env results batch); destruct w; split; reflexivity.
Qed.

Lemma same_store_has_data (env : Env) (d : datetime) :
  respects same_store (has_data_for_date env d).
Proof.
  intros w. destruct (has_data_for_date_pure env d w) as (b & -> & _).
  apply same_store_refl.
Qed.

(** Steps on the world, seen from the frame of the call. *)
Lemma on_day_lift (A : Type) (c : M World A) :
  respects same_store c -> respects on_day (lift c).
Proof.
  intros Hc f. unfold lift. specialize (Hc (world f)).
  destruct (c (world f)) as [r w']. cbn [snd state world] in *.
  split; [reflexivity | now apply same_store_keeps].
Qed.

Lemma on_day_get_state : respects on_day get_state.
Proof. intros f. apply on_day_refl. Qed.

Lemma on_day_assign (g : BatchState -> BatchState) :
  (forall s, batch_date (g s) = batch_date s) -> respects on_day (assign g).
Proof.
  intros Hg f. unfold assign, bind, get_state, put_state. cbn.
  split; [apply Hg | apply keeps_other_days_refl].
Qed.

Lemma on_day_call (A : Type) (m : BatchState -> M World (BatchState * A)) :
  (forall s w,
     keeps_other_days (batch_date s) w (snd (m s w))
     /\ forall x, fst (m s w) = Returned x -> batch_date (fst x) = batch_date s) ->
  respects on_day (call m).
Proof.
  intros Hm f. unfold call, bind, get_state, lift, put_state, ret.
  cbn [state world]. destruct (Hm (state f) (world f)) as [H1 H2].
  destruct (m (state f) (world f)) as [[x|e] w']; cbn [snd fst state world] in *.
  - split; [now apply H2 | exact H1].
  - split; [reflexivity | exact H1].
Qed.

Lemma update_batch_state_keeps (env : Env) (s : BatchState) (w : World) :
  keeps_other_days (batch_date s) w (snd (update_batch_state env s w))
  /\ forall x,
       fst (update_batch_state env s w) = Returned x ->
       batch_date (fst x) = batch_date s.
Proof.
  unfold update_batch_state, bind, utcnow, ret. cbn [snd fst].
  set (s1 := match find_one (batch_date s) (batch_states w) with
             | Some current_doc =>
                 if BatchStatus.eqb (status current_doc) (status s) then s
                 else with_previous_status (Some (status current_doc)) s
             | None => s
             end).
  assert (Hdate : batch_date s1 = batch_date s).
  { unfold s1. destruct (find_one _ _) as [cur|]; [| reflexivity].
    destruct (BatchStatus.eqb _ _); reflexivity. }
  split.
  - unfold keeps_other_days. destruct w; cbn. split; [| split; [| reflexivity]].
    + intros d' Hd. apply update_one_other. cbn. congruence.
    + apply update_one_unique.
  - intros x Hx. injection Hx as <-. exact Hdate.
Qed.

Lemma on_day_update (env : Env) :
  respects on_day (call (update_batch_state env)).
Proof. apply on_day_call. apply update_batch_state_keeps. Qed.

Lemma on_day_set_error (env : Env) (e : PyException) :
  respects on_day (call (set_error env e)).
Proof.
  apply on_day_call. intros s w. unfold set_error, bind, utcnow, ret.
  cbn [snd fst]. split.
  - apply same_store_keeps. destruct w; split; reflexivity.
  - intros x Hx. injection Hx as <-. reflexivity.
Qed.

Lemma on_day_increment_retry (env : Env) :
  respects on_day (call (increment_retry env)).
Proof.
  apply on_day_call. intros s w. unfold increment_retry, bind, utcnow, ret.
  cbn [snd fst]. split.
  - apply same_store_keeps. destruct w; split; reflexivity.
  - intros x Hx. injection Hx as <-. reflexivity.
Qed.

Ltac on_day_step :=
  lazymatch goal with
  | |- respects on_day (assign _) =>
      apply on_day_assign; intros ?; reflexivity
  | |- respects on_day (call (update_batch_state _)) => apply on_day_update
  | |- respects on_day (call (set_error _ _)) => apply on_day_set_error
  | |- respects on_day (call (increment_retry _)) =>
      apply on_day_increment_retry
  | |- respects on_day get_state => apply on_day_get_state
  | |- respects on_day (lift _) => apply on_day_lift
  | |- respects on_day (bind _ _) =>
      apply (respects_bind on_day on_day_trans); [| intros ? ]
  | |- respects on_day (ret _) => apply (respects_ret on_day on_day_refl)
  | |- respects on_day (raise _) => apply (respects_raise on_day on_day_refl)
  | |- respects same_store (utcnow _) => apply same_store_utcnow
  | |- respects same_store (can_retry _ _) => apply same_store_can_retry
  | |- respects same_store (send_alert _ _ _) => apply same_store_send_alert
  | |- respects same_store (_send_with_fallback _ _ _) =>
      apply same_store_send
  | |- respects same_store (evaluate_batch _ _) =>
      apply same_store_evaluate_batch
  | |- respects same_store (save_evaluation_results _ _ _) =>
      apply same_store_save
  | |- respects same_store (bind _ _) =>
      apply (respects_bind same_store same_store_trans); [| intros ? ]
  | |- respects same_store (ret _) =>
      apply (respects_ret same_store same_store_refl)
  | |- respects same_store (raise _) =>
      apply (respects_raise same_store same_store_refl)
  | |- respects _ (match ?x with _ => _ end) => destruct x
  | |- respects same_store (fun _ => _) =>
      intros [? ? ? ? ?]; split; reflexivity
  end.

Lemma on_day_pipeline (env : Env) (d : datetime) :
  respects on_day (_execute_evaluation_pipeline env d).
Proof.
  unfold _execute_evaluation_pipeline, get_unevaluated_pairs,
    generate_excel_report, _send_empty_batch_notification,
    _send_accuracy_alert, send_evaluation_report.
  repeat on_day_step.
Qed.

Lemma on_day_on_failure (env : Env) (d : datetime) (e : PyException) :
  respects on_day (on_failure env d e).
Proof.
  unfold on_failure, _send_batch_failure_alert.
  repeat on_day_step.
Qed.

Lemma on_day_mark_running (env : Env) : respects on_day (mark_running env).
Proof. unfold mark_running. repeat on_day_step. Qed.

Lemma on_day_attempt (env : Env) (d : datetime) :
  respects on_day (attempt env d).
Proof.
  unfold attempt.
  apply (respects_try_finally on_day on_day_trans); [| apply on_day_update].
  apply (respects_try_except on_day on_day_trans);
    [| intros e; apply on_day_on_failure].
  apply (respects_bind on_day on_day_trans); [apply on_day_pipeline |].
  intros _. repeat on_day_step.
Qed.

Lemma find_one_snoc_other (d : datetime) (x : BatchState)
    (docs : list BatchState) :
  d <> batch_date x -> find_one d (docs ++ [x]) = find_one d docs.
Proof.
  intros Hd. unfold find_one. induction docs as [|y rest IH]; simpl.
  - unfold same_date. destruct (Z.eqb_spec (batch_date x) d); congruence.
  - destruct (same_date d y); [reflexivity | exact IH].
Qed.

Lemma get_or_create_keeps (env : Env) (d : datetime) (w : World) :
  keeps_other_days (start_of_day d) w
    (snd (get_or_create_batch_state env d w)).
Proof.
  destruct (get_or_create_returns env d w)
    as (s & w1 & doc & Hcall & Hfind & Hs & _ & _ & Hruns & Hold & Hnew).
  rewrite Hcall. cbn [snd]. unfold keeps_other_days.
  destruct (find_one (start_of_day d) (batch_states w)) as [doc0|] eqn:Hf.
  - destruct (Hold doc0 eq_refl) as (_ & -> & _). tauto.
  - destruct (Hnew eq_refl) as (Hdef & Hdocs). rewrite Hdocs.
    assert (Hbd : batch_date s = start_of_day d).
    { rewrite Hdef. cbn. apply start_of_day_idempotent. }
    split; [| split; [| exact Hruns]].
    + intros d' Hd. apply find_one_snoc_other. congruence.
    + unfold Race.unique_dates. intros Hu. rewrite map_app. cbn [map].
      apply NoDup_snoc; [exact Hu |]. rewrite Hbd.
      apply existsb_same_date_false, find_one_none_existsb. exact Hf.
Qed.

Lemma should_process_checks_returns (env : Env) (d : datetime)
    (s : BatchState) (w : World) :
  exists b reason w',
    should_process_checks env d s w = (Returned (b, reason), w')
    /\ same_store w w'.
Proof.
  assert (Hcont : forall w0,
    exists b reason w',
      (has_data <- has_data_for_date env d ;;
       if negb has_data then ret (false, NoDataAvailable)
       else if BatchStatus.eqb (status s) BatchStatus.FAILED
       then ret (true, RetryingFailed (retry_count s + 1) (max_retries s))
       else ret (true, ReadyForProcessing)) w0
      = (Returned (b, reason), w')
      /\ same_store w0 w').
  { intros w0. unfold bind.
    destruct (has_data_for_date_pure env d w0) as (b & -> & _).
    destruct b; cbn [negb]; [destruct (BatchStatus.eqb _ _) |];
      do 3 eapply ex_intro; (split; [reflexivity | apply same_store_refl]). }
  unfold should_process_checks, bind at 1.
  destruct (can_retry_returns env s w) as (b & w1 & Hcr & A1 & _ & _ & A4).
  rewrite Hcr.
  assert (H1 : same_store w w1) by (split; assumption).
  destruct b; cbn [negb].
  2:{ do 3 eapply ex_intro. split; [reflexivity | exact H1]. }
  destruct (retry_after s) as [after|].
  - unfold bind at 1, utcnow at 1.
    destruct (clock env (reads w1) <? after)%Z.
    + unfold bind, utcnow, ret. do 3 eapply ex_intro.
      split; [reflexivity |]. destruct H1 as [B1 B2].
      split; cbn; assumption.
    + destruct (Hcont (with_reads (S (reads w1)) w1))
        as (b & reason & w' & Hrun & Hsame).
      exists b, reason, w'. split; [exact Hrun |].
      eapply same_store_trans; [exact H1 |].
      eapply same_store_trans; [| exact Hsame]. split; reflexivity.
  - destruct (Hcont w1) as (b & reason & w' & Hrun & Hsame).
    exists b, reason, w'. split; [exact Hrun |].
    eapply same_store_trans; eassumption.
Qed.

Lemma should_process_batch_returns (env : Env) (d : datetime) (w : World) :
  exists b reason w',
    should_process_batch env d w = (Returned (b, reason), w')
    /\ keeps_other_days (start_of_day d) w w'
    /\ (b = false ->
        forall doc,
          find_one (start_of_day d) (batch_states w) = Some doc ->
          batch_states w' = batch_states w).
Proof.
  pose proof (get_or_create_keeps env d w) as Hkeep.
  destruct (get_or_create_returns env d w)
    as (s & w1 & doc & Hcall & Hfind & Hs & _ & _ & _ & Hold & _).
  rewrite Hcall in Hkeep. cbn [snd] in Hkeep.
  assert (Hstore : forall doc0,
            find_one (start_of_day d) (batch_states w) = Some doc0 ->
            batch_states w1 = batch_states w).
  { intros doc0 H0. now destruct (Hold doc0 H0) as (_ & ? & _). }
  assert (Hdate : batch_date s = start_of_day d).
  { rewrite <- Hs. cbn. now apply find_one_date in Hfind. }
  assert (Hchecks :
    exists b reason w',
      should_process_checks env d s w1 = (Returned (b, reason), w')
      /\ keeps_other_days (start_of_day d) w w'
      /\ (b = false ->
          forall doc0,
            find_one (start_of_day d) (batch_states w) = Some doc0 ->
            batch_states w' = batch_states w)).
  { destruct (should_process_checks_returns env d s w1)
      as (b & reason & w' & Hrun & Hsame).
    exists b, reason, w'. split; [exact Hrun |]. split.
    - eapply keeps_other_days_trans; [exact Hkeep |].
      now apply same_store_keeps.
    - intros _ doc0 H0. destruct Hsame as [-> _]. eapply Hstore, H0. }
  unfold should_process_batch, bind at 1. rewrite Hcall.
  destruct (BatchStatus.eqb (status s) BatchStatus.COMPLETED).
  { exists false, AlreadyCompleted, w1. unfold ret.
    split; [reflexivity |]. split; [exact Hkeep |].
    intros _. exact Hstore. }
  destruct (BatchStatus.eqb (status s) BatchStatus.RUNNING); [| exact Hchecks].
  destruct (started_at s) as [started|]; [| exact Hchecks].
  unfold bind at 1, utcnow at 1.
  destruct (td_hours 2 <? clock env (reads w1) - started)%Z.
  - unfold bind, ret.
    set (stuck :=
           with_error_message
             (Some (StuckInRunning (clock env (reads w1) - started)%Z))
             (with_status BatchStatus.FAILED s)).
    pose proof (update_batch_state_keeps env stuck (with_reads (S (reads w1)) w1))
      as [Hupd _].
    destruct (update_batch_state_spec env stuck (with_reads (S (reads w1)) w1))
      as (s' & w' & Hrun & _).
    rewrite Hrun in *. cbn [snd] in Hupd.
    exists true, WasStuck, w'. split; [reflexivity |]. split; [| discriminate].
    eapply keeps_other_days_trans; [exact Hkeep |].
    replace (batch_date stuck) with (start_of_day d) in Hupd
      by (unfold stuck; cbn; congruence).
    eapply keeps_other_days_trans; [| exact Hupd].
    apply same_store_keeps. split; reflexivity.
  - unfold ret. do 3 eapply ex_intro. split; [reflexivity |].
    split.
    + eapply keeps_other_days_trans; [exact Hkeep |].
      apply same_store_keeps. split; reflexivity.
    + intros _ doc0 H0. cbn. eapply Hstore, H0.
Qed.

Lemma attempt_returns (env : Env) (d : datetime) (f : Frame) :
  exists b f',
    attempt env d f = (Returned b, f')
    /\ on_day f f'
    /\ find_one (batch_date (state f)) (batch_states (world f'))
       = Some (state f')
    /\ status (state f')
       = (if b then BatchStatus.COMPLETED else BatchStatus.FAILED)
    /\ (b = true -> completed_at (state f') <> None)
    /\ (b = false ->
        error_message (state f') <> None /\ failed_at (state f') <> None).
Proof.
  pose proof (on_day_attempt env d f) as Hday.
  pose proof (on_day_pipeline env d f) as Hpipe.
  unfold attempt, try_finally, try_except in *. unfold bind at 1 in Hday.
  unfold bind at 1.
  destruct (_execute_evaluation_pipeline env d f) as [[batch|e] [s1 w1]].
  - unfold call, assign, bind, get_state, put_state, lift, utcnow, ret in *.
    cbn [state world fst snd] in *.
    destruct (update_batch_state_spec env
                (with_completed_at (Some (clock env (reads w1)))
                   (with_status BatchStatus.COMPLETED s1))
                (with_reads (S (reads w1)) w1))
      as (s' & w' & Hupd & Hfind & Hsame & _).
    rewrite Hupd in *. cbn [state world fst snd] in *.
    exists true, (mkFrame s' w'). cbn [state world].
    split; [reflexivity |].
    split; [exact Hday |]. destruct Hpipe as [Hdate _].
    cbn [state] in Hdate. cbn in Hfind. rewrite Hdate in Hfind.
    split; [exact Hfind |].
    destruct Hsame as (_ & Hst & _ & _ & _ & _ & _ & _ & _ & Hdone & _).
    split; [rewrite Hst; reflexivity |].
    split; [| discriminate]. intros _. rewrite Hdone. discriminate.
  - destruct (on_failure_spec env d e s1 w1)
      as (s2 & w2 & sE & wE & can & wC & will & Hfail & _ & _ & Hdate2
          & Hst & Hmsg & _ & Hat & _).
    rewrite Hfail in *.
    unfold call, bind, get_state, lift, put_state, ret in *.
    cbn [state world fst snd] in *.
    destruct (update_batch_state_spec env s2 w2)
      as (s' & w' & Hupd & Hfind & Hsame & _).
    rewrite Hupd in *. cbn [state world fst snd] in *.
    exists false, (mkFrame s' w'). cbn [state world].
    split; [reflexivity |].
    split; [exact Hday |]. destruct Hpipe as [Hdate _].
    cbn [state] in Hdate. rewrite Hdate2, Hdate in Hfind.
    split; [exact Hfind |].
    destruct Hsame
      as (_ & Hst' & _ & _ & _ & Hmsg' & _ & Hat' & _).
    split; [cbn; congruence |]. split; [discriminate |].
    intros _. cbn. rewrite Hmsg', Hat', Hmsg, Hat. split; discriminate.
Qed.


(** ** Chunks and sub-batches *)

Lemma firstn_app_next (A : Type) (a b : nat) (l : list A) :
  a <= b ->
  (firstn a l ++ firstn (b - a) (skipn a l))%list = firstn b l.
Proof.
  intros Hab. rewrite firstn_skipn_comm.
  replace (a + (b - a)) with b by lia.
  rewrite <- (firstn_skipn a (firstn b l)) at 2.
  rewrite firstn_firstn. now replace (Nat.min a b) with a by lia.
Qed.

(** The slice taken at the [k]-th start of the range. *)
Lemma py_slice_chunk (A : Type) (items : list A) (n : Z) (k : nat) :
  (0 < n)%Z ->
  py_slice items (0 + Z.of_nat k * n) (0 + Z.of_nat k * n + n)
  = firstn (Nat.min ((k + 1) * Z.to_nat n) (List.length items)
            - Nat.min (k * Z.to_nat n) (List.length items))
      (skipn (Nat.min (k * Z.to_nat n) (List.length items)) items).
Proof.
  intros Hn. unfold py_slice, slice_bound.
  destruct (0 + Z.of_nat k * n <? 0)%Z eqn:E1; [apply Z.ltb_lt in E1; nia |].
  destruct (0 + Z.of_nat k * n + n <? 0)%Z eqn:E2;
    [apply Z.ltb_lt in E2; nia |].
  replace (Z.to_nat (0 + Z.of_nat k * n)) with (k * Z.to_nat n) by nia.
  replace (Z.to_nat (0 + Z.of_nat k * n + n)) with ((k + 1) * Z.to_nat n)
    by nia.
  reflexivity.
Qed.

Lemma chunks_concat (A : Type) (items : list A) (n : Z) (k : nat) :
  (0 < n)%Z ->
  List.concat
    (map (fun i => py_slice items i (i + n))
       (map (fun j => (0 + Z.of_nat j * n)%Z) (seq 0 k)))
  = firstn (Nat.min (k * Z.to_nat n) (List.length items)) items.
Proof.
  intros Hn. induction k as [|k IH]; [reflexivity |].
  rewrite seq_S, !map_app, concat_app, IH. cbn [map List.concat plus].
  rewrite app_nil_r, py_slice_chunk by exact Hn.
  replace (S k) with (k + 1) by lia.
  apply firstn_app_next. nia.
Qed.

Lemma range_covers (len : nat) (n : Z) :
  (0 < n)%Z ->
  len <= range_length 0 (Z.of_nat len) n * Z.to_nat n
  /\ forall j, j < range_length 0 (Z.of_nat len) n -> j * Z.to_nat n < len.
Proof.
  intros Hn. unfold range_length.
  replace (0 <? n)%Z with true by (symmetry; now apply Z.ltb_lt).
  destruct (0 <? Z.of_nat len)%Z eqn:E.
  - apply Z.ltb_lt in E. rewrite Z.sub_0_r.
    pose proof (Z.div_mod (Z.of_nat len - 1) n ltac:(lia)) as Hdm.
    pose proof (Z.mod_pos_bound (Z.of_nat len - 1) n Hn) as Hmod.
    assert (Hq : (0 <= (Z.of_nat len - 1) / n)%Z)
      by (apply Z.div_pos; lia).
    split; [nia |]. intros j Hj.
    assert (Hj' : (Z.of_nat j <= (Z.of_nat len - 1) / n)%Z) by lia.
    nia.
  - apply Z.ltb_ge in E. split; [lia |]. intros j Hj. lia.
Qed.

(** X15. For a positive [chunk_size], [chunk_list] cuts the list into
    consecutive pieces: put back together they are the list, no piece is
    empty or longer than [chunk_size], and every piece but the last has
    exactly [chunk_size] items.  A [chunk_size] of zero raises the
    [ValueError] of [range]; a negative one yields no piece at all,
    whatever the list holds. *)
Theorem chunk_list_cuts_the_list (A : Type) (items : list A)
    (chunk_size : Z) :
  ((0 < chunk_size)%Z ->
   exists chunks,
     chunk_list items chunk_size = Returned chunks
     /\ List.concat chunks = items
     /\ Forall
          (fun c => 0 < List.length c <= Z.to_nat chunk_size) chunks
     /\ forall j,
          S j < List.length chunks ->
          List.length (nth j chunks []) = Z.to_nat chunk_size)
  /\ (chunk_size = 0%Z -> chunk_list items chunk_size = Raised range_step_zero)
  /\ ((chunk_size < 0)%Z -> chunk_list items chunk_size = Returned []).
Proof.
  split; [| split].
  - intros Hn. unfold chunk_list, py_range.
    replace (chunk_size =? 0)%Z with false by (symmetry; apply Z.eqb_neq; lia).
    destruct (range_covers (List.length items) chunk_size Hn)
      as [Hcover Hstart].
    set (L := range_length 0 (Z.of_nat (List.length items)) chunk_size) in *.
    eexists. split; [reflexivity |]. split; [| split].
    + rewrite chunks_concat by exact Hn.
      replace (Nat.min _ _) with (List.length items) by lia.
      apply firstn_all.
    + rewrite !Forall_map. apply Forall_forall. intros j Hj.
      apply in_seq in Hj. rewrite py_slice_chunk by exact Hn.
      rewrite length_firstn, length_skipn.
      specialize (Hstart j ltac:(lia)). nia.
    + intros j Hj. rewrite !length_map, length_seq in Hj.
      rewrite map_map.
      rewrite (nth_indep _ []
                 (py_slice items (0 + Z.of_nat 0 * chunk_size)
                    (0 + Z.of_nat 0 * chunk_size + chunk_size)))
        by (rewrite length_map, length_seq; lia).
      rewrite (map_nth (fun j0 =>
                 py_slice items (0 + Z.of_nat j0 * chunk_size)
                   (0 + Z.of_nat j0 * chunk_size + chunk_size)) (seq 0 L) 0 j).
      rewrite seq_nth by lia. cbn [plus].
      rewrite py_slice_chunk by exact Hn.
      rewrite length_firstn, length_skipn.
      specialize (Hstart (S j) Hj). nia.
  - intros ->. reflexivity.
  - intros Hn. unfold chunk_list, py_range, range_length.
    replace (chunk_size =? 0)%Z with false by (symmetry; apply Z.eqb_neq; lia).
    replace (0 <? chunk_size)%Z with false by (symmetry; apply Z.ltb_ge; lia).
    replace (Z.of_nat (List.length items) <? 0)%Z with false
      by (symmetry; apply Z.ltb_ge; lia).
    reflexivity.
Qed.

Lemma chunk_list_cuts_the_list_witness :
  exists chunks,
    chunk_list [1; 2; 3; 4; 5]%Z 2 = Returned chunks
    /\ List.concat chunks = [1; 2; 3; 4; 5]%Z.
Proof.
  destruct (proj1 (chunk_list_cuts_the_list Z [1; 2; 3; 4; 5]%Z 2) eq_refl)
    as (chunks & H1 & H2 & _).
  exists chunks. split; assumption.
Defined.

(** X16. With a positive [batch_size], evaluating a batch sub-batch by
    sub-batch gives what evaluating its pairs one after the other gives:
    one result per pair, in the order of the pairs, and the same
    statistics.  With [batch_size] zero the call raises [ValueError] after
    its first reading of the clock; with a negative [batch_size] no pair is
    evaluated and the statistics are those of an empty batch. *)
Theorem sub_batches_keep_every_pair (env : Env) (batch_size : Z)
    (pairs : list TranscriptSummaryPair.t) (w : World) :
  ((0 < batch_size)%Z ->
   evaluate_batch_in_sub_batches env batch_size pairs w
   = evaluate_batch env pairs w)
  /\ (batch_size = 0%Z ->
      evaluate_batch_in_sub_batches env batch_size pairs w
      = (Raised range_step_zero, with_reads (S (reads w)) w))
  /\ ((batch_size < 0)%Z ->
      evaluate_batch_in_sub_batches env batch_size pairs w
      = evaluate_batch env [] w).
Proof.
  split; [| split].
  - intros Hn. unfold evaluate_batch_in_sub_batches, evaluate_batch, py_range.
    replace (batch_size =? 0)%Z with false by (symmetry; apply Z.eqb_neq; lia).
    unfold _process_sub_batch. rewrite flat_map_concat_map.
    rewrite <- (map_map (fun i => py_slice pairs i (i + batch_size)%Z)
                  (map (fun pair =>
                          _evaluate_single_pair env pair
                            (UuidBatchId (uuid4_hex8 env))))).
    rewrite <- concat_map, chunks_concat by exact Hn.
    destruct (range_covers (List.length pairs) batch_size Hn) as [Hcover _].
    replace (Nat.min _ _) with (List.length pairs) by lia.
    rewrite firstn_all. reflexivity.
  - intros ->. reflexivity.
  - intros Hn. unfold evaluate_batch_in_sub_batches, evaluate_batch, py_range,
      range_length.
    replace (batch_size =? 0)%Z with false by (symmetry; apply Z.eqb_neq; lia).
    replace (0 <? batch_size)%Z with false by (symmetry; apply Z.ltb_ge; lia).
    replace (Z.of_nat (List.length pairs) <? 0)%Z with false
      by (symmetry; apply Z.ltb_ge; lia).
    reflexivity.
Qed.

Lemma sub_batches_keep_every_pair_witness :
  let env :=
    example_env (midnight 20001) [a_pair "INT-1"] EvaluationStatus.PASS
      None in
  let pairs := [a_pair "INT-1"; a_pair "INT-2"; a_pair "INT-3"] in
  evaluate_batch_in_sub_batches env 2 pairs empty_world
  = evaluate_batch env pairs empty_world.
Proof.
  intros env pairs.
  exact (proj1 (sub_batches_keep_every_pair env 2 pairs empty_world) eq_refl).
Defined.

(** ** Retries of the judge and fallback of the mail providers *)

Lemma retry_loop_spec (judge : nat -> Outcome Q) (threshold : Q)
    (pair : TranscriptSummaryPair.t) (batch_id : BatchId) (max_retries : Z)
    (turns n : nat) :
  n + turns = Z.to_nat max_retries ->
  let r := retry_loop judge threshold pair batch_id max_retries turns n n in
  n <= snd r <= Z.to_nat max_retries
  /\ (forall k, n <= k -> S k < snd r -> attempt_fails judge k = true)
  /\ ((exists score,
         n < snd r
         /\ judge (snd r - 1) = Returned score
         /\ valid_confidence score = true
         /\ fst r
            = EvaluationResult.mk batch_id
                (TranscriptSummaryPair.interaction_id pair)
                (status_of_score score threshold) (Some score))
      \/ (snd r = Z.to_nat max_retries
          /\ (forall k, n <= k -> k < snd r -> attempt_fails judge k = true)
          /\ fst r = _create_error_result pair batch_id)).
Proof.
  revert n. induction turns as [|turns IH]; intros n Hn; cbn [retry_loop].
  { cbn [fst snd]. split; [lia |]. split; [intros; lia |]. right.
    split; [lia |]. split; [intros; lia | reflexivity]. }
  replace (Z.of_nat n <? max_retries)%Z with true
    by (symmetry; apply Z.ltb_lt; lia).
  assert (Hlast :
    (max_retries <=? Z.of_nat (S n))%Z = true -> S n = Z.to_nat max_retries).
  { intros H. apply Z.leb_le in H. lia. }
  assert (Hgo :
    attempt_fails judge n = true ->
    let r :=
      if (max_retries <=? Z.of_nat (S n))%Z
      then (_create_error_result pair batch_id, S n)
      else retry_loop judge threshold pair batch_id max_retries turns (S n)
             (S n) in
    n <= snd r <= Z.to_nat max_retries
    /\ (forall k, n <= k -> S k < snd r -> attempt_fails judge k = true)
    /\ ((exists score,
           n < snd r
           /\ judge (snd r - 1) = Returned score
           /\ valid_confidence score = true
           /\ fst r
              = EvaluationResult.mk batch_id
                  (TranscriptSummaryPair.interaction_id pair)
                  (status_of_score score threshold) (Some score))
        \/ (snd r = Z.to_nat max_retries
            /\ (forall k, n <= k -> k < snd r -> attempt_fails judge k = true)
            /\ fst r = _create_error_result pair batch_id))).
  { intros Hfail.
    destruct (max_retries <=? Z.of_nat (S n))%Z eqn:E; cbv zeta.
    - specialize (Hlast eq_refl). cbn [fst snd].
      split; [lia |]. split; [intros; lia |]. right.
      split; [exact Hlast |]. split; [| reflexivity].
      intros k H1 H2. replace k with n by lia. exact Hfail.
    - apply Z.leb_gt in E.
      destruct (IH (S n) ltac:(lia)) as (Hb & Hbefore & Hend).
      split; [lia |]. split.
      + intros k H1 H2. destruct (Nat.eq_dec k n) as [-> | Hne];
          [exact Hfail | apply Hbefore; lia].
      + destruct Hend as [(score & H1 & H2 & H3 & H4) | (H1 & H2 & H3)].
        * left. exists score. repeat split; trivial. lia.
        * right. split; [exact H1 |]. split; [| exact H3].
          intros k Hk1 Hk2. destruct (Nat.eq_dec k n) as [-> | Hne];
            [exact Hfail | apply H2; lia]. }
  destruct (judge n) as [score | e] eqn:Hjudge.
  - destruct (valid_confidence score) eqn:Hvalid.
    + cbn [fst snd]. split; [lia |]. split; [intros; lia |]. left.
      exists score. replace (S n - 1) with n by lia.
      repeat split; trivial. lia.
    + apply Hgo. unfold attempt_fails. now rewrite Hjudge, Hvalid.
  - apply Hgo. unfold attempt_fails. now rewrite Hjudge.
Qed.

(** X17. [_evaluate_single_pair] calls the judge at most [max_retries]
    times and always yields a result for the pair.  Every call before the
    last one failed.  Either the last call set a score within [0, 1], and
    the result carries that score with PASS when it reaches the threshold
    and FAIL otherwise; or all [max_retries] calls failed and the result is
    the ERROR result, with confidence 0. *)
Theorem retries_stop_at_the_first_valid_score (judge : nat -> Outcome Q)
    (threshold : Q) (max_retries : Z) (pair : TranscriptSummaryPair.t)
    (batch_id : BatchId) :
  let r := evaluate_with_retries judge threshold max_retries pair batch_id in
  let result := fst r in
  let calls := snd r in
  calls <= Z.to_nat max_retries
  /\ EvaluationResult.interaction_id result
     = TranscriptSummaryPair.interaction_id pair
  /\ (forall k, S k < calls -> attempt_fails judge k = true)
  /\ ((exists score,
         0 < calls
         /\ judge (calls - 1) = Returned score
         /\ valid_confidence score = true
         /\ EvaluationResult.status result = status_of_score score threshold
         /\ EvaluationResult.status result <> EvaluationStatus.ERROR
         /\ EvaluationResult.confidence_score result = Some score)
      \/ (calls = Z.to_nat max_retries
          /\ (forall k, k < calls -> attempt_fails judge k = true)
          /\ result = _create_error_result pair batch_id
          /\ EvaluationResult.status result = EvaluationStatus.ERROR)).
Proof.
  intros r result calls.
  destruct (retry_loop_spec judge threshold pair batch_id max_retries
              (Z.to_nat max_retries) 0 eq_refl)
    as (Hb & Hbefore & Hend).
  fold (evaluate_with_retries judge threshold max_retries pair batch_id) in *.
  fold r in Hb, Hbefore, Hend. fold result in Hend. fold calls in Hb, Hbefore, Hend.
  split; [lia |]. split.
  { destruct Hend as [(score & _ & _ & _ & ->) | (_ & _ & ->)]; reflexivity. }
  split; [intros k Hk; apply Hbefore; lia |].
  destruct Hend as [(score & H1 & H2 & H3 & H4) | (H1 & H2 & H3)].
  - left. exists score. rewrite H4. cbn. repeat split; trivial.
    unfold status_of_score. destruct (Qle_bool threshold score); discriminate.
  - right. split; [exact H1 |]. split; [intros k Hk; apply H2; lia |].
    split; [exact H3 | now rewrite H3].
Qed.

Lemma try_providers_spec (outcomes : list (Outcome bool)) (tried : nat) :
  let r := try_providers outcomes tried in
  tried <= snd r <= tried + List.length outcomes
  /\ (fst r = true ->
      tried < snd r
      /\ nth_error outcomes (snd r - tried - 1) = Some (Returned true))
  /\ (fst r = false ->
      snd r = tried + List.length outcomes
      /\ ~ In (Returned true) outcomes)
  /\ forall k,
       S (tried + k) < snd r -> nth_error outcomes k <> Some (Returned true).
Proof.
  revert tried. induction outcomes as [|o rest IH]; intros tried.
  { cbn. split; [lia |]. split; [discriminate |].
    split; [intros _; split; [lia | tauto] |]. intros k Hk. lia. }
  assert (Hnext :
    o <> Returned true ->
    let r := try_providers rest (S tried) in
    tried <= snd r <= tried + List.length (o :: rest)
    /\ (fst r = true ->
        tried < snd r
        /\ nth_error (o :: rest) (snd r - tried - 1) = Some (Returned true))
    /\ (fst r = false ->
        snd r = tried + List.length (o :: rest)
        /\ ~ In (Returned true) (o :: rest))
    /\ forall k,
         S (tried + k) < snd r ->
         nth_error (o :: rest) k <> Some (Returned true)).
  { intros Ho. destruct (IH (S tried)) as (Hb & Ht & Hf & Hbefore).
    cbv zeta. cbn [List.length]. split; [lia |]. split; [| split].
    - intros H. destruct (Ht H) as [H1 H2]. split; [lia |].
      replace (snd (try_providers rest (S tried)) - tried - 1)
        with (S (snd (try_providers rest (S tried)) - S tried - 1)) by lia.
      exact H2.
    - intros H. destruct (Hf H) as [H1 H2]. split; [lia |].
      intros [Hin | Hin]; [now apply Ho | now apply H2].
    - intros [|k] Hk; cbn [nth_error].
      + intros Heq. apply Ho. now injection Heq.
      + apply Hbefore. lia. }
  destruct o as [[|] | e]; cbn [try_providers].
  - cbn [fst snd List.length]. split; [lia |]. split.
    + intros _. split; [lia |]. now replace (S tried - tried - 1) with 0 by lia.
    + split; [discriminate |]. intros k Hk. lia.
  - apply Hnext. discriminate.
  - apply Hnext. discriminate.
Qed.

(** X18. [_send_with_fallback] never raises whatever the providers do.
    It answers true exactly when some provider accepts the message; the
    providers are tried in order, a provider that raises or declines only
    makes the next one be tried, and no provider is tried after the first
    one that accepted.  With no provider at all the answer is false. *)
Theorem fallback_stops_at_the_first_success
    (outcomes : list (Outcome bool)) :
  let r := send_with_fallback outcomes in
  let sent := fst r in
  let tried := snd r in
  tried <= List.length outcomes
  /\ (sent = true <-> In (Returned true) outcomes)
  /\ (sent = true ->
      0 < tried /\ nth_error outcomes (tried - 1) = Some (Returned true))
  /\ (sent = false -> tried = List.length outcomes)
  /\ forall k, S k < tried -> nth_error outcomes k <> Some (Returned true).
Proof.
  intros r sent tried.
  assert (Heq : r = try_providers outcomes 0)
    by (unfold r, send_with_fallback; destruct outcomes; reflexivity).
  destruct (try_providers_spec outcomes 0) as (Hb & Ht & Hf & Hbefore).
  rewrite <- Heq in *. fold sent in Ht, Hf. fold tried in Hb, Ht, Hf, Hbefore.
  split; [lia |]. split; [| split; [| split]].
  - split.
    + intros H. destruct (Ht H) as [_ H2]. eapply nth_error_In, H2.
    + intros Hin. destruct sent; [reflexivity |].
      now destruct (Hf eq_refl) as [_ H2].
  - intros H. destruct (Ht H) as [H1 H2]. split; [lia |].
    now replace (tried - 1) with (tried - 0 - 1) by lia.
  - intros H. now destruct (Hf H) as [H1 _].
  - intros k Hk. apply Hbefore. lia.
Qed.

(** ** What the recovery manager touches *)

Lemma respects_impl (St A : Type) (R R' : St -> St -> Prop) (c : M St A) :
  (forall s s', R s s' -> R' s s') -> respects R c -> respects R' c.
Proof. intros H Hc s. apply H, Hc. Qed.

Lemma keeps_outside_refl (a b : datetime) (w : World) : keeps_outside a b w w.
Proof. unfold keeps_outside. tauto. Qed.

Lemma keeps_outside_trans (a b : datetime) (w1 w2 w3 : World) :
  keeps_outside a b w1 w2 -> keeps_outside a b w2 w3 ->
  keeps_outside a b w1 w3.
Proof.
  unfold keeps_outside. intros (A1 & A2) (B1 & B2). split; [| tauto].
  intros d Hd. rewrite B1, A1; trivial.
Qed.

Lemma keeps_outside_widen (a b a' b' : datetime) (w w' : World) :
  (a' <= a)%Z -> (b <= b')%Z ->
  keeps_outside a b w w' -> keeps_outside a' b' w w'.
Proof.
  unfold keeps_outside. intros Ha Hb (H1 & H2). split; [| exact H2].
  intros d Hd. apply H1. lia.
Qed.

Lemma keeps_day_outside (a b d : datetime) (w w' : World) :
  (a <= d < b)%Z -> keeps_other_days d w w' -> keeps_outside a b w w'.
Proof.
  unfold keeps_outside, keeps_other_days. intros Hd (H1 & H2 & _).
  split; [| exact H2]. intros d' Hd'. apply H1. lia.
Qed.

Lemma same_store_outside (a b : datetime) (w w' : World) :
  same_store w w' -> keeps_outside a b w w'.
Proof.
  unfold same_store, keeps_outside. intros [H _]. rewrite H. tauto.
Qed.

Lemma try_except_returns (St A : Type) (body : M St A) (a : A) (s : St) :
  exists b, fst (try_except body (fun _ => ret a) s) = Returned b.
Proof.
  unfold try_except, ret. destruct (body s) as [[b|e] s']; eexists; reflexivity.
Qed.

Lemma insert_sorted_In (x d : datetime) (l : list datetime) :
  In x (insert_sorted d l) <-> x = d \/ In x l.
Proof.
  induction l as [|y rest IH]; cbn [insert_sorted]; [cbn; intuition |].
  destruct (d <=? y)%Z; cbn [In]; [intuition |]. rewrite IH. intuition.
Qed.

Lemma sorted_In (x : datetime) (l : list datetime) :
  In x (sorted l) <-> In x l.
Proof.
  unfold sorted. induction l as [|y rest IH]; cbn [fold_right]; [tauto |].
  rewrite insert_sorted_In, IH. cbn [In]. intuition.
Qed.

Lemma insert_sorted_length (d : datetime) (l : list datetime) :
  List.length (insert_sorted d l) = S (List.length l).
Proof.
  induction l as [|y rest IH]; cbn [insert_sorted]; [reflexivity |].
  destruct (d <=? y)%Z; cbn [List.length]; [reflexivity | now rewrite IH].
Qed.

Lemma sorted_length (l : list datetime) :
  List.length (sorted l) = List.length l.
Proof.
  unfold sorted. induction l as [|y rest IH]; cbn [fold_right]; [reflexivity |].
  rewrite insert_sorted_length, IH. reflexivity.
Qed.

Section Window.

Variable env : Env.
Variables start_date end_date : datetime.

Local Abbreviation R := (keeps_outside start_date end_date).

Lemma outside_refl (w : World) : R w w.
Proof. apply keeps_outside_refl. Qed.

Lemma outside_trans (a b c : World) : R a b -> R b c -> R a c.
Proof. apply keeps_outside_trans. Qed.

Lemma outside_quiet (A : Type) (c : M World A) : respects same_store c -> respects R c.
Proof. apply respects_impl. intros s s'. apply same_store_outside. Qed.

Lemma outside_get_or_create (d : datetime) :
  (start_date <= start_of_day d < end_date)%Z ->
  respects R (get_or_create_batch_state env d).
Proof.
  intros Hd w. eapply keeps_day_outside; [exact Hd |].
  apply get_or_create_keeps.
Qed.

Lemma outside_update (s : BatchState) :
  (start_date <= batch_date s < end_date)%Z ->
  respects R (update_batch_state env s).
Proof.
  intros Hd w. eapply keeps_day_outside; [exact Hd |].
  apply update_batch_state_keeps.
Qed.

Lemma outside_run (d : datetime) :
  (start_date <= start_of_day d < end_date)%Z ->
  respects R (run_daily_evaluation env d).
Proof.
  intros Hd w. set (day := start_of_day d) in *.
  assert (Hday : start_of_day day = day) by apply start_of_day_idempotent.
  unfold run_daily_evaluation, bind at 1, enter. fold day.
  set (w0 := with_runs (runs w ++ [day])%list w).
  pose proof (get_or_create_keeps env day w0) as Hkeep1.
  destruct (get_or_create_returns env day w0)
    as (s & w1 & doc & Hcall & Hfind & Hs & _).
  rewrite Hcall in Hkeep1. cbn [snd] in Hkeep1. rewrite Hday in *.
  destruct (should_process_batch_returns env day w1)
    as (go & reason & w2 & Hdecide & Hkeep2 & _).
  rewrite Hday in Hkeep2.
  unfold bind at 1. rewrite Hcall. unfold bind at 1. rewrite Hdecide.
  assert (Hdate : batch_date s = day).
  { rewrite <- Hs. cbn. now apply find_one_date in Hfind. }
  assert (H2 : keeps_outside start_date end_date w w2).
  { apply (keeps_outside_trans _ _ w w0 w2).
    - unfold w0. destruct w; split; intros; assumption || reflexivity.
    - eapply keeps_day_outside; [exact Hd |].
      eapply keeps_other_days_trans; eassumption. }
  destruct go; cbn [negb]; [| exact H2].
  unfold with_local.
  pose proof (respects_bind on_day on_day_trans _ _ (mark_running env)
                (fun _ => attempt env day) (on_day_mark_running env)
                (fun _ => on_day_attempt env day) (mkFrame s w2)) as Hon.
  destruct ((mark_running env ;; attempt env day) (mkFrame s w2)) as [r f].
  destruct Hon as [_ Hk]. cbn [snd state world] in *. rewrite Hdate in Hk.
  apply (keeps_outside_trans _ _ w w2 (world f)); [exact H2 |].
  eapply keeps_day_outside; [exact Hd | exact Hk].
Qed.

Lemma outside_send_alert (subject : Subject) (priority : Priority) :
  respects R (send_alert env subject priority).
Proof. apply outside_quiet, same_store_send_alert. Qed.

(** The body of [_recover_single_batch] once the state of the day is at
    hand. *)
Lemma outside_recover_state (d : datetime) (s : BatchState) :
  (start_date <= start_of_day d < end_date)%Z ->
  batch_date s = start_of_day d ->
  respects R
    (if BatchStatus.eqb (status s) BatchStatus.COMPLETED then ret true
     else
       retry <- can_retry env s ;;
       if negb retry then
         _send_max_retry_alert env d s ;;
         ret false
       else
         let state := with_is_recovery true s in
         let state := with_recovery_attempted true state in
         let state := with_recovery_count (recovery_count state + 1) state in
         now <- utcnow env ;;
         let state :=
           with_metadata
             (dict_set "is_recovery" (MetaBool true)
             (dict_set "recovery_trigger" (MetaStr "RecoveryManager")
             (dict_set "recovery_triggered_at" (MetaTime now)
                (metadata state)))) state in
         ' (state, _) <- update_batch_state env state ;;
         success <- run_daily_evaluation env d ;;
         if success then
           recovery_end <- utcnow env ;;
           _send_recovery_success_notification env d state ;;
           ret true
         else ret false).
Proof.
  intros Hd Hs.
  destruct (BatchStatus.eqb (status s) BatchStatus.COMPLETED);
    [apply (respects_ret R outside_refl) |].
  apply (respects_bind R outside_trans); [apply outside_quiet, same_store_can_retry |].
  intros retry. destruct retry; cbn [negb].
  2:{ apply (respects_bind R outside_trans); [apply outside_send_alert |].
      intros _. apply (respects_ret R outside_refl). }
  cbv zeta.
  apply (respects_bind R outside_trans); [apply outside_quiet, same_store_utcnow |].
  intros now.
  apply (respects_bind R outside_trans).
  { apply outside_update. cbn. rewrite Hs. exact Hd. }
  intros [state u].
  apply (respects_bind R outside_trans); [now apply outside_run |].
  intros success. destruct success; [| apply (respects_ret R outside_refl)].
  apply (respects_bind R outside_trans); [apply outside_quiet, same_store_utcnow |].
  intros _.
  apply (respects_bind R outside_trans); [| intros _; apply (respects_ret R outside_refl)].
  unfold _send_recovery_success_notification.
  destruct (accuracy state);
    [apply outside_send_alert | apply (respects_raise R outside_refl)].
Qed.

Lemma recover_single_returns (d : datetime) (w : World) :
  (start_date <= start_of_day d < end_date)%Z ->
  exists b w', _recover_single_batch env d w = (Returned b, w') /\ R w w'.
Proof.
  intros Hd.
  assert (Hbody : respects R
    (state <- get_or_create_batch_state env d ;;
     if BatchStatus.eqb (status state) BatchStatus.COMPLETED then ret true
     else
       retry <- can_retry env state ;;
       if negb retry then
         _send_max_retry_alert env d state ;;
         ret false
       else
         let state := with_is_recovery true state in
         let state := with_recovery_attempted true state in
         let state := with_recovery_count (recovery_count state + 1) state in
         now <- utcnow env ;;
         let state :=
           with_metadata
             (dict_set "is_recovery" (MetaBool true)
             (dict_set "recovery_trigger" (MetaStr "RecoveryManager")
             (dict_set "recovery_triggered_at" (MetaTime now)
                (metadata state)))) state in
         ' (state, _) <- update_batch_state env state ;;
         success <- run_daily_evaluation env d ;;
         if success then
           recovery_end <- utcnow env ;;
           _send_recovery_success_notification env d state ;;
           ret true
         else ret false)).
  { intros w0. unfold bind at 1.
    pose proof (outside_get_or_create d Hd w0) as Hget.
    destruct (get_or_create_returns env d w0)
      as (s & w1 & doc & Hcall & Hfind & Hs & _).
    rewrite Hcall in *. cbn [snd] in Hget.
    eapply outside_trans; [exact Hget |].
    apply outside_recover_state; [exact Hd |].
    rewrite <- Hs. cbn. now apply find_one_date in Hfind. }
  unfold _recover_single_batch, bind at 1, utcnow at 1.
  set (w0 := with_reads (S (reads w)) w).
  match goal with
  | |- context [try_except ?body ?handler w0] =>
      pose proof (respects_try_except R outside_trans _ body handler Hbody
                    (fun _ => respects_ret R outside_refl _ false) w0) as Hall;
      destruct (try_except_returns _ _ body false w0) as (b & Hb);
      destruct (try_except body handler w0) as [r w'] eqn:Hrun
  end.
  cbn [fst snd] in *. subst r. exists b, w'. split; [reflexivity |].
  eapply outside_trans; [| exact Hall]. apply same_store_outside.
  unfold w0. destruct w; split; reflexivity.
Qed.

Lemma recover_each_returns (dates : list datetime) (recovered failed : nat)
    (w : World) :
  Forall (fun d => (start_date <= start_of_day d < end_date)%Z) dates ->
  exists r f w',
    recover_each env dates recovered failed w = (Returned (r, f), w')
    /\ r + f = recovered + failed + List.length dates
    /\ recovered <= r
    /\ R w w'.
Proof.
  intros Hall. revert recovered failed w.
  induction Hall as [|d rest Hd Hrest IH]; intros recovered failed w.
  { exists recovered, failed, w. cbn. split; [reflexivity |].
    split; [lia |]. split; [lia | apply outside_refl]. }
  cbn [recover_each]. unfold bind at 1.
  destruct (recover_single_returns d w Hd) as (b & w1 & Hrun & H1).
  rewrite Hrun. destruct b.
  - destruct (IH (recovered + 1) failed w1) as (r & f & w' & Hgo & Hsum & Hle & H2).
    exists r, f, w'. split; [exact Hgo |]. cbn [List.length].
    split; [lia |]. split; [lia | eapply outside_trans; eassumption].
  - destruct (IH recovered (failed + 1) w1) as (r & f & w' & Hgo & Hsum & Hle & H2).
    exists r, f, w'. split; [exact Hgo |]. cbn [List.length].
    split; [lia |]. split; [lia | eapply outside_trans; eassumption].
Qed.

Lemma quick_recover_returns (dates : list datetime) (recovered : nat)
    (w : World) :
  Forall (fun d => (start_date <= start_of_day d < end_date)%Z) dates ->
  exists n w',
    quick_recover env dates recovered w = (Returned n, w')
    /\ recovered <= n <= recovered + List.length dates
    /\ R w w'.
Proof.
  intros Hall. revert recovered w.
  induction Hall as [|d rest Hd Hrest IH]; intros recovered w.
  { exists recovered, w. cbn. split; [reflexivity |].
    split; [lia | apply outside_refl]. }
  cbn [quick_recover]. unfold bind at 1.
  destruct (recover_single_returns d w Hd) as (b & w1 & Hrun & H1).
  rewrite Hrun.
  destruct (IH (if b then recovered + 1 else recovered) w1)
    as (n & w' & Hgo & Hle & H2).
  exists n, w'. split; [exact Hgo |]. cbn [List.length].
  split; [destruct b; lia | eapply outside_trans; eassumption].
Qed.

Lemma summary_lookups_returns (dates : list datetime) (w : World) :
  Forall (fun d => (start_date <= start_of_day d < end_date)%Z) dates ->
  exists w', summary_lookups env dates w = (Returned tt, w') /\ R w w'.
Proof.
  intros Hall. revert w. induction Hall as [|d rest Hd Hrest IH]; intros w.
  { exists w. split; [reflexivity | apply outside_refl]. }
  cbn [summary_lookups]. unfold bind at 1.
  pose proof (outside_get_or_create d Hd w) as Hget.
  destruct (get_or_create_returns env d w) as (s & w1 & doc & Hcall & _).
  rewrite Hcall in *. cbn [snd] in Hget.
  destruct (IH w1) as (w' & Hgo & H2).
  exists w'. split; [exact Hgo | eapply outside_trans; eassumption].
Qed.

End Window.

Lemma needs_evaluation_keeps (env : Env) (d : datetime) (w : World) :
  keeps_other_days (start_of_day d) w (snd (needs_evaluation env d w)).
Proof.
  unfold needs_evaluation, bind at 1.
  pose proof (get_or_create_keeps env d w) as Hget.
  destruct (get_or_create_batch_state env d w) as [[s|e] w1]; cbn [snd] in *;
    [| exact Hget].
  eapply keeps_other_days_trans; [exact Hget |].
  apply same_store_keeps.
  destruct (status s).
  - apply same_store_has_data.
  - destruct (started_at s); [| apply same_store_refl].
    unfold bind, utcnow, ret. destruct w1; split; reflexivity.
  - apply same_store_refl.
  - apply same_store_can_retry.
  - apply same_store_can_retry.
  - apply same_store_refl.
  - apply same_store_refl.
Qed.

Lemma scan_dates_keeps (env : Env) (turns : nat)
    (current_date end_date : datetime) (acc : list datetime) (w : World) :
  start_of_day current_date = current_date ->
  exists found w',
    scan_dates env turns current_date end_date acc w
    = (Returned (acc ++ found)%list, w')
    /\ List.length found <= turns
    /\ Forall
         (fun d => (current_date <= start_of_day d < end_date)%Z) found
    /\ keeps_outside current_date end_date w w'.
Proof.
  revert current_date acc w.
  induction turns as [|turns IH]; intros current_date acc w Hday.
  { exists [], w. cbn [scan_dates]. rewrite app_nil_r.
    split; [reflexivity |]. split; [cbn; lia |].
    split; [constructor | apply keeps_outside_refl]. }
  cbn [scan_dates].
  destruct (current_date <? end_date)%Z eqn:Hlt.
  2:{ exists [], w. rewrite app_nil_r.
      split; [reflexivity |]. split; [cbn; lia |].
      split; [constructor | apply keeps_outside_refl]. }
  apply Z.ltb_lt in Hlt.
  pose proof (needs_evaluation_keeps env current_date w) as Hkeep.
  destruct (needs_evaluation_spec env current_date w)
    as (b & w1 & doc & Hneed & _).
  rewrite Hneed in Hkeep. cbn [snd] in Hkeep. rewrite Hday in Hkeep.
  unfold bind at 1. rewrite Hneed.
  destruct (IH (current_date + td_days 1)%Z
              (if b then (acc ++ [current_date])%list else acc) w1
              (start_of_day_next _ Hday))
    as (found & w' & Hrun & Hlen & Hin & Hout).
  rewrite Hrun.
  pose proof td_days_1_pos as Hpos.
  assert (Hall : keeps_outside current_date end_date w w').
  { apply (keeps_outside_trans _ _ w w1 w').
    - eapply keeps_day_outside; [| exact Hkeep]. lia.
    - eapply keeps_outside_widen; [| | exact Hout]; lia. }
  assert (Hin' :
    Forall (fun d => (current_date <= start_of_day d < end_date)%Z) found).
  { eapply Forall_impl; [| exact Hin]. intros d Hd. cbv beta in Hd. lia. }
  destruct b.
  - exists (current_date :: found), w'.
    split; [now rewrite <- app_assoc |]. split; [cbn; lia |].
    split; [| exact Hall]. constructor; [rewrite Hday; lia | exact Hin'].
  - exists found, w'. split; [reflexivity |]. split; [lia |].
    split; [exact Hin' | exact Hall].
Qed.

Lemma needs_quick_recovery_returns (env : Env) (d : datetime) (w : World) :
  exists b w',
    needs_quick_recovery env d w = (Returned b, w')
    /\ keeps_other_days (start_of_day d) w w'.
Proof.
  unfold needs_quick_recovery, bind at 1.
  pose proof (get_or_create_keeps env d w) as Hget.
  destruct (get_or_create_returns env d w) as (s & w1 & doc & Hcall & _).
  rewrite Hcall in *. cbn [snd] in Hget.
  destruct (existsb _ _).
  - destruct (can_retry_returns env s w1) as (b & w' & Hcr & A1 & _ & _ & A4).
    exists b, w'. split; [exact Hcr |].
    eapply keeps_other_days_trans; [exact Hget |].
    apply same_store_keeps. split; assumption.
  - exists false, w1. split; [reflexivity | exact Hget].
Qed.

Lemma quick_scan_returns (env : Env) (turns : nat)
    (current_date end_date : datetime) (acc : list datetime) (w : World) :
  start_of_day current_date = current_date ->
  exists found w',
    quick_scan env turns current_date end_date acc w
    = (Returned (acc ++ found)%list, w')
    /\ List.length found <= turns
    /\ Forall
         (fun d => (current_date <= start_of_day d < end_date)%Z) found
    /\ keeps_outside current_date end_date w w'.
Proof.
  revert current_date acc w.
  induction turns as [|turns IH]; intros current_date acc w Hday.
  { exists [], w. cbn [quick_scan]. rewrite app_nil_r.
    split; [reflexivity |]. split; [cbn; lia |].
    split; [constructor | apply keeps_outside_refl]. }
  cbn [quick_scan].
  destruct (current_date <? end_date)%Z eqn:Hlt.
  2:{ exists [], w. rewrite app_nil_r.
      split; [reflexivity |]. split; [cbn; lia |].
      split; [constructor | apply keeps_outside_refl]. }
  apply Z.ltb_lt in Hlt.
  destruct (needs_quick_recovery_returns env current_date w)
    as (b & w1 & Hneed & Hkeep).
  rewrite Hday in Hkeep.
  unfold bind at 1. rewrite Hneed.
  destruct (IH (current_date + td_days 1)%Z
              (if b then (acc ++ [current_date])%list else acc) w1
              (start_of_day_next _ Hday))
    as (found & w' & Hrun & Hlen & Hin & Hout).
  rewrite Hrun.
  pose proof td_days_1_pos as Hpos.
  assert (Hall : keeps_outside current_date end_date w w').
  { apply (keeps_outside_trans _ _ w w1 w').
    - eapply keeps_day_outside; [| exact Hkeep]. lia.
    - eapply keeps_outside_widen; [| | exact Hout]; lia. }
  assert (Hin' :
    Forall (fun d => (current_date <= start_of_day d < end_date)%Z) found).
  { eapply Forall_impl; [| exact Hin]. intros d Hd. cbv beta in Hd. lia. }
  destruct b.
  - exists (current_date :: found), w'.
    split; [now rewrite <- app_assoc |]. split; [cbn; lia |].
    split; [| exact Hall]. constructor; [rewrite Hday; lia | exact Hin'].
  - exists found, w'. split; [reflexivity |]. split; [lia |].
    split; [exact Hin' | exact Hall].
Qed.



(** ** The wait of the scheduler *)

(** X21. From a valid wall-clock time the scheduler waits a positive time
    of at most one day: the next run lies strictly after the current time
    and no more than 24 hours after it, at the configured hour and minute
    with zero seconds.  Computed again at the moment of a run, the next run
    is the same time on the following day. *)
Theorem next_run_is_within_a_day (run_time : Scheduler.time)
    (current_time : Scheduler.t) :
  Scheduler.valid current_time ->
  Scheduler.valid_time run_time ->
  let next_run := Scheduler._calculate_next_run run_time current_time in
  (0 < Scheduler.to_microseconds next_run
       - Scheduler.to_microseconds current_time <= microseconds_per_day)%Z
  /\ Scheduler.valid next_run
  /\ Scheduler.hour next_run = Scheduler.time_hour run_time
  /\ Scheduler.minute next_run = Scheduler.time_minute run_time
  /\ Scheduler.second next_run = 0%Z
  /\ Scheduler.microsecond next_run = 0%Z
  /\ Scheduler._calculate_next_run run_time next_run
     = Scheduler.add_days next_run 1.
Proof.
  intros Hc Hr next_run.
  set (today := Scheduler.fire_time_on run_time (Scheduler.day current_time)).
  assert (Htoday : Scheduler.valid today).
  { unfold Scheduler.valid, Scheduler.valid_time in *. simpl. lia. }
  assert (Hgeb :
    Scheduler.geb current_time today
    = (Scheduler.to_microseconds today
       <=? Scheduler.to_microseconds current_time)%Z)
    by (apply scheduler_geb_same_day; [exact Hc | exact Htoday | reflexivity]).
  assert (Hnext :
    next_run
    = if (Scheduler.to_microseconds today
          <=? Scheduler.to_microseconds current_time)%Z
      then Scheduler.add_days today 1 else today).
  { unfold next_run, Scheduler._calculate_next_run, Scheduler.replace.
    change (Scheduler.mk (Scheduler.day current_time)
              (Scheduler.time_hour run_time) (Scheduler.time_minute run_time)
              0 0) with today.
    now rewrite Hgeb. }
  assert (Hfields :
    Scheduler.valid next_run
    /\ Scheduler.hour next_run = Scheduler.time_hour run_time
    /\ Scheduler.minute next_run = Scheduler.time_minute run_time
    /\ Scheduler.second next_run = 0%Z
    /\ Scheduler.microsecond next_run = 0%Z).
  { rewrite Hnext. destruct (_ <=? _)%Z; (split; [exact Htoday |]);
      repeat split; reflexivity. }
  split.
  { rewrite Hnext.
    unfold Scheduler.valid, Scheduler.valid_time in Hc, Hr.
    destruct (_ <=? _)%Z eqn:E;
      [apply Z.leb_le in E | apply Z.leb_gt in E];
      unfold today, Scheduler.fire_time_on, Scheduler.add_days,
        Scheduler.to_microseconds, microseconds_per_day,
        microseconds_per_hour, microseconds_per_minute in *;
      cbn [Scheduler.day Scheduler.hour Scheduler.minute Scheduler.second
             Scheduler.microsecond] in *; lia. }
  split; [apply Hfields |]. split; [apply Hfields |].
  split; [apply Hfields |]. split; [apply Hfields |].
  split; [apply Hfields |].
  destruct Hfields as (_ & Hh & Hm & Hs & Hus).
  unfold Scheduler._calculate_next_run, Scheduler.replace.
  replace (Scheduler.mk (Scheduler.day next_run)
             (Scheduler.time_hour run_time) (Scheduler.time_minute run_time)
             0 0) with next_run
    by (destruct next_run; cbn in *; congruence).
  unfold Scheduler.geb, Scheduler.compare. now rewrite !Z.compare_refl.
Qed.

Lemma next_run_is_within_a_day_witness :
  let next_run :=
    Scheduler._calculate_next_run (Scheduler.mk_time 0 1)
      (Scheduler.mk 20000 0 1 30 0) in
  (0 < Scheduler.to_microseconds next_run
       - Scheduler.to_microseconds (Scheduler.mk 20000 0 1 30 0)
     <= microseconds_per_day)%Z.
Proof.
  intros next_run.
  assert (Hc : Scheduler.valid (Scheduler.mk 20000 0 1 30 0))
    by (unfold Scheduler.valid; simpl; lia).
  assert (Hr : Scheduler.valid_time (Scheduler.mk_time 0 1))
    by (unfold Scheduler.valid_time; simpl; lia).
  exact (proj1 (next_run_is_within_a_day _ _ Hc Hr)).
Defined.
